(** * prompt-hub: the A/B test aggregation and report engine

    A shallow embedding of [backend/models/ab_test.py] and of
    [ABTestController.aggregate_metrics] / [ABTestController.generate_report]
    from [backend/controllers/ab_test_controller.py].

    - Python [int] is [Z]; Python [float] is an IEEE-754 binary64 value,
      taken from the Standard Library's [SpecFloat] (precision 53,
      [emax = 1024], round to nearest even), so that every rounding of the
      source is computed bit for bit.
    - Exceptions are the [Raise] branch of [result]; the controller runs in
      a state-and-exception monad over the storage object.
    - [dict]s whose iteration order the code depends on ([groups],
      [by_variant]) are insertion-ordered association lists; the storage
      tables and [winner_analysis] are [gmap]s. *)

From Stdlib Require Import ZArith List Bool Lia SpecFloat Sorted Permutation.
From stdpp Require Import gmap strings list.

(** ** Exceptions *)

Inductive exn : Type :=
  | NotFound            (* the storage has no record under the id *)
  | StatisticsError
  | IndexError
  | ZeroDivisionError
  | OverflowError
  | ValueError.

Inductive result (A : Type) : Type :=
  | Ok (a : A)
  | Raise (e : exn).
Arguments Ok {A} a.
Arguments Raise {A} e.

Definition rbind {A B} (r : result A) (k : A -> result B) : result B :=
  match r with
  | Ok a => k a
  | Raise e => Raise e
  end.

Declare Scope result_scope.
Delimit Scope result_scope with res.
Notation "x <~ r ; k" := (rbind r (fun x => k))
  (at level 100, r at next level, right associativity) : result_scope.

Fixpoint mapR {A B} (f : A -> result B) (l : list A) : result (list B) :=
  match l with
  | [] => Ok []
  | a :: l' =>
      match f a with
      | Ok b =>
          match mapR f l' with
          | Ok bs => Ok (b :: bs)
          | Raise e => Raise e
          end
      | Raise e => Raise e
      end
  end.

Fixpoint foldR {A S} (f : S -> A -> result S) (l : list A) (s : S) : result S :=
  match l with
  | [] => Ok s
  | a :: l' =>
      match f s a with
      | Ok s' => foldR f l' s'
      | Raise e => Raise e
      end
  end.

(** ** Python floats: IEEE-754 binary64 *)

Module Float64.
Local Open Scope Z_scope.

Definition prec : Z := 53.
Definition emax : Z := 1024.

Abbreviation float := spec_float.

Definition add : float -> float -> float := SFadd prec emax.
Definition mul : float -> float -> float := SFmul prec emax.
Definition div : float -> float -> float := SFdiv prec emax.
Definition neg : float -> float := SFopp.
Definition lt : float -> float -> bool := SFltb.
Definition le : float -> float -> bool := SFleb.
Definition eq : float -> float -> bool := SFeqb.

(** The literal [0.0]. *)
Definition zero : float := S754_zero false.

(** [float(z)]: the nearest binary64 value of an integer. *)
Definition of_int (z : Z) : float := binary_normalize prec emax z 0 false.

(** The decimal literal [d * 10^-k], e.g. [lit 95 2] for [0.95]: the
    correctly rounded quotient of two exactly representable integers. *)
Definition lit (d k : Z) : float := div (of_int d) (of_int (10 ^ k)).

Definition is_nan (x : float) : bool :=
  match x with
  | S754_nan => true
  | _ => false
  end.

Definition is_zero (x : float) : bool :=
  match x with
  | S754_zero _ => true
  | _ => false
  end.

(** [int(x)]: truncation toward zero. *)
Definition to_int (x : float) : result Z :=
  match x with
  | S754_zero _ => Ok 0
  | S754_finite s m e => Ok (cond_Zopp s (Z.shiftl (Zpos m) e))
  | S754_infinity _ => Raise OverflowError
  | S754_nan => Raise ValueError
  end.

(** [x / n] for a float [x] and an int [n]. *)
Definition truediv_int (x : float) (n : Z) : result float :=
  if n =? 0 then Raise ZeroDivisionError else Ok (div x (of_int n)).

(** An int as an operand of a float operation, without rounding: the
    mantissa is the magnitude, the exponent 0. *)
Definition exact_int (z : Z) : float :=
  match z with
  | Z0 => S754_zero false
  | Zpos p => S754_finite false p 0
  | Zneg p => S754_finite true p 0
  end.

(** [a / b] for two ints (CPython's [long_true_divide]).  When both
    operands are below [2^53] in magnitude they convert exactly and are
    divided as floats.  Otherwise the exact quotient is rounded once, to
    nearest even, and a quotient beyond the float range raises
    [OverflowError]. *)
Definition int_truediv (a b : Z) : result float :=
  if b =? 0 then Raise ZeroDivisionError
  else if (Z.abs a <? 2 ^ 53) && (Z.abs b <? 2 ^ 53) then Ok (div (of_int a) (of_int b))
  else match SFdiv prec emax (exact_int a) (exact_int b) with
       | S754_infinity _ => Raise OverflowError
       | q => Ok q
       end.
End Float64.

Abbreviation float := spec_float.

(** ** Python builtins *)

Module Py.
Local Open Scope Z_scope.

Definition len {A} (l : list A) : Z := Z.of_nat (length l).

(** [l[i]], negative indices counting from the end. *)
Definition getitem {A} (l : list A) (i : Z) : result A :=
  let i' := if i <? 0 then i + len l else i in
  if i' <? 0 then Raise IndexError
  else match nth_error l (Z.to_nat i') with
       | Some a => Ok a
       | None => Raise IndexError
       end.

(** [sum] of ints. *)
Definition sum_int (l : list Z) : Z := fold_left Z.add l 0.

(** [sum] of floats: the start value [0] is added to the first element
    as [0.0], then the elements left to right (CPython up to 3.11). *)
Definition sum_float (l : list float) : float :=
  fold_left Float64.add l Float64.zero.

(** [range(a, b)]. *)
Definition range (a b : Z) : list Z :=
  map (fun k => a + Z.of_nat k) (seq 0 (Z.to_nat (b - a))).

(** A stable sort that only asks [<], as [list.sort] does.  Where [<] is a
    strict weak order on the elements (floats none of which is NaN, sort
    keys free of NaN) there is one stable sorted arrangement, and this is
    it.  On other inputs the arrangement depends on the comparisons
    [list.sort] happens to make, which are not modelled: what is proved
    about the sorted values carries the NaN-freeness as a hypothesis. *)
Fixpoint insert {A} (ltb : A -> A -> bool) (x : A) (l : list A) : list A :=
  match l with
  | [] => [x]
  | y :: l' => if ltb y x then y :: insert ltb x l' else x :: l
  end.

Definition sort {A} (ltb : A -> A -> bool) (l : list A) : list A :=
  fold_right (insert ltb) [] l.

(** [sorted(l, key=key, reverse=reverse)]: with [reverse] the list is
    reversed, sorted and reversed again, which keeps equal keys in their
    original order. *)
Definition sorted {A K} (ltb : K -> K -> bool) (key : A -> K)
    (reverse : bool) (l : list A) : list A :=
  let cmp a b := ltb (key a) (key b) in
  if reverse then rev (sort cmp (rev l)) else sort cmp l.

(** [d.setdefault(k, []).append(v)] on an insertion-ordered dict. *)
Fixpoint setdefault_append {K V} `{EqDecision K} (k : K) (v : V)
    (d : list (K * list V)) : list (K * list V) :=
  match d with
  | [] => [(k, [v])]
  | (k', vs) :: d' =>
      if decide (k' = k) then (k', vs ++ [v]) :: d'
      else (k', vs) :: setdefault_append k v d'
  end.
End Py.

(** ** The [statistics] module (CPython's pure-Python implementation) *)

Module statistics.
Local Open Scope Z_scope.
Local Open Scope result_scope.

Definition sorted_floats (data : list float) : list float :=
  Py.sorted Float64.lt (fun x => x) false data.

(** [statistics.median(data)] *)
Definition median (data : list float) : result float :=
  let data := sorted_floats data in
  let n := Py.len data in
  if n =? 0 then Raise StatisticsError
  else if n mod 2 =? 1 then Py.getitem data (n / 2)
  else
    let i := n / 2 in
    a <~ Py.getitem data (i - 1);
    b <~ Py.getitem data i;
    Float64.truediv_int (Float64.add a b) 2.

(** One cut point of [quantiles], for [i] in [range(1, n)]. *)
Definition cut_point (data : list float) (ld n i : Z) : result float :=
  let m := ld + 1 in
  let j := i * m / n in
  let j := if j <? 1 then 1 else if ld - 1 <? j then ld - 1 else j in
  let delta := i * m - j * n in
  a <~ Py.getitem data (j - 1);
  b <~ Py.getitem data j;
  Float64.truediv_int
    (Float64.add (Float64.mul a (Float64.of_int (n - delta)))
                 (Float64.mul b (Float64.of_int delta))) n.

(** [statistics.quantiles(data, n=n)] with the default
    [method='exclusive']. *)
Definition quantiles (data : list float) (n : Z) : result (list float) :=
  if n <? 1 then Raise StatisticsError
  else
    let data := sorted_floats data in
    let ld := Py.len data in
    if ld <? 2 then Raise StatisticsError
    else mapR (cut_point data ld n) (Py.range 1 n).
End statistics.

(** ** The data model ([backend/models/ab_test.py]) *)

Inductive TestStatus : Type :=
  | DRAFT | RUNNING | PAUSED | COMPLETED | ARCHIVED.

Module ModelConfig.
Record t : Type := mk {
  model_id : string;
  model_name : string;
  provider : string;
  temperature : float;
  max_tokens : Z;
  top_p : float;
  frequency_penalty : float;
  presence_penalty : float;
}.
End ModelConfig.

Module PromptVariant.
Record t : Type := mk {
  variant_id : string;
  variant_name : string;
  prompt_template : string;
  system_prompt : option string;
  variables : list (string * string);
}.
End PromptVariant.

Module TrafficAllocation.
Record t : Type := mk {
  variant_id : string;
  model_id : string;
  allocation_percentage : float;
}.
End TrafficAllocation.

Module TestResult.
Record t : Type := mk {
  result_id : string;
  test_id : string;
  variant_id : string;
  model_id : string;
  input_data : list (string * string);
  generated_output : string;
  timestamp : Z;
  (* performance *)
  generation_time_ms : float;
  total_tokens : Z;
  prompt_tokens : Z;
  completion_tokens : Z;
  cost_usd : float;
  (* quality *)
  user_rating : option float;
  user_feedback : option string;
  auto_score : option float;
  comparison_winner : option bool;
  (* error tracking *)
  error : option string;
  status : string;
}.
End TestResult.

Module AggregateMetrics.
Record t : Type := mk {
  variant_id : string;
  model_id : string;
  total_runs : Z;
  success_runs : Z;
  error_runs : Z;
  avg_generation_time_ms : float;
  p50_generation_time_ms : float;
  p95_generation_time_ms : float;
  p99_generation_time_ms : float;
  total_tokens_used : Z;
  avg_tokens_per_run : float;
  total_cost_usd : float;
  avg_cost_per_run : float;
  avg_user_rating : option float;
  win_rate : option float;
  user_preference_rate : option float;
  avg_auto_score : option float;
}.
End AggregateMetrics.

Module ABTest.
Record t : Type := mk {
  test_id : string;
  test_name : string;
  description : option string;
  prompt_variants : list PromptVariant.t;
  model_configs : list ModelConfig.t;
  traffic_allocation : list TrafficAllocation.t;
  sample_size : Z;
  parallel_execution : bool;
  status : TestStatus;
  created_at : Z;
  started_at : option Z;
  completed_at : option Z;
  created_by : string;
  results : list TestResult.t;
  aggregate_metrics : list AggregateMetrics.t;
}.

(** [test.aggregate_metrics = aggregates] *)
Definition set_aggregate_metrics (test : t) (aggregates : list AggregateMetrics.t) : t :=
  mk (test_id test) (test_name test) (description test) (prompt_variants test)
     (model_configs test) (traffic_allocation test) (sample_size test)
     (parallel_execution test) (status test) (created_at test) (started_at test)
     (completed_at test) (created_by test) (results test) aggregates.
End ABTest.

Module ComparisonPair.
Record t : Type := mk {
  comparison_id : string;
  test_id : string;
  result_a_id : string;
  result_b_id : string;
  user_preference : option string;
  rating_dimensions : list (string * float);
  feedback : option string;
  rated_at : option Z;
  rated_by : option string;
}.
End ComparisonPair.

(** The [test_summary] and [overall_stats] dicts of a report have fixed keys
    and are records here.  A Python [0] in [overall_stats] (the start value
    of [sum], the [else 0] branch) is the float [0.0], to which it compares
    equal. *)
Module TestSummary.
Record t : Type := mk {
  name : string;
  status : TestStatus;
  prompt_variants : Z;
  model_configs : Z;
  sample_size : Z;
}.
End TestSummary.

Module OverallStats.
Record t : Type := mk {
  total_runs : Z;
  total_cost_usd : float;
  avg_cost_per_run : float;
}.
End OverallStats.

Module ABTestReport.
Record t : Type := mk {
  report_id : string;
  test_id : string;
  generated_at : Z;
  test_summary : TestSummary.t;
  overall_stats : OverallStats.t;
  variant_performance : list AggregateMetrics.t;
  winner_analysis : gmap string string;
  cost_benefit_analysis : gmap string string;
  statistical_significance : gmap string string;
  recommendations : list string;
}.
End ABTestReport.

(** ** The storage object

    Modelled from the spec: the storage backend is an external collaborator
    ([get_storage] raises [NotImplementedError] in the routes); it is a
    key-value mapping from id to record, [get_*] fails on an unknown id and
    [save_*] overwrites the record stored under the record's own id. *)

Module Storage.
Record t : Type := mk {
  tests : gmap string ABTest.t;
  comparison_pairs : gmap string ComparisonPair.t;
  reports : gmap string ABTestReport.t;
}.
End Storage.

(** The controller's monad: the storage is threaded, an exception aborts. *)
Definition M (A : Type) : Type := Storage.t -> result (A * Storage.t).

Definition ret {A} (a : A) : M A := fun st => Ok (a, st).

Definition bind {A B} (c : M A) (k : A -> M B) : M B :=
  fun st =>
    match c st with
    | Ok (a, st') => k a st'
    | Raise e => Raise e
    end.

Definition lift {A} (r : result A) : M A :=
  fun st =>
    match r with
    | Ok a => Ok (a, st)
    | Raise e => Raise e
    end.

Declare Scope ctl_scope.
Delimit Scope ctl_scope with ctl.
Notation "x <- c ;; k" := (bind c (fun x => k))
  (at level 100, c at next level, right associativity) : ctl_scope.
Notation "c ;;; k" := (bind c (fun _ => k))
  (at level 100, right associativity) : ctl_scope.

Definition get_test (test_id : string) : M ABTest.t :=
  fun st =>
    match Storage.tests st !! test_id with
    | Some test => Ok (test, st)
    | None => Raise NotFound
    end.

Definition save_test (test : ABTest.t) : M unit :=
  fun st =>
    Ok (tt, Storage.mk (<[ABTest.test_id test := test]> (Storage.tests st))
                       (Storage.comparison_pairs st) (Storage.reports st)).

Definition save_report (report : ABTestReport.t) : M unit :=
  fun st =>
    Ok (tt, Storage.mk (Storage.tests st) (Storage.comparison_pairs st)
                       (<[ABTestReport.report_id report := report]> (Storage.reports st))).

(** ** The controller ([backend/controllers/ab_test_controller.py]) *)

Module ABTestController.
Local Open Scope Z_scope.

(** [r.status == "success"] *)
Definition is_success (r : TestResult.t) : bool :=
  String.eqb (TestResult.status r) "success".

(** [[1 if r.comparison_winner else 0 for r in results
      if r.comparison_winner is not None]] *)
Definition win_flag (r : TestResult.t) : option Z :=
  match TestResult.comparison_winner r with
  | Some true => Some 1
  | Some false => Some 0
  | None => None
  end.

(** [(sum(xs) / len(xs)) if xs else dflt] for floats. *)
Definition mean_or {A} (dflt : A) (inj : float -> A) (xs : list float) : result A :=
  match xs with
  | [] => Ok dflt
  | _ => rbind (Float64.truediv_int (Py.sum_float xs) (Py.len xs)) (fun v => Ok (inj v))
  end.

(** The [p95]/[p99] expression: [statistics.quantiles(times, n=100)[cut]]
    from 100 points on, otherwise [sorted(times)[int(frac*(len(times)-1))]],
    and [0.0] for no point at all. *)
Definition percentile (cut : Z) (frac : float) (times : list float) : result float :=
  if 100 <=? Py.len times then
    rbind (statistics.quantiles times 100) (fun qs => Py.getitem qs cut)
  else
    match times with
    | [] => Ok Float64.zero
    | _ =>
        rbind (Float64.to_int (Float64.mul frac (Float64.of_int (Py.len times - 1))))
              (fun i => Py.getitem (statistics.sorted_floats times) i)
    end.

(** The body of the loop over [groups.items()]. *)
Definition aggregate_group (variant_id model_id : string)
    (results : list TestResult.t) : result AggregateMetrics.t :=
  let times := map TestResult.generation_time_ms (List.filter is_success results) in
  let tokens := map TestResult.total_tokens (List.filter is_success results) in
  let costs := map TestResult.cost_usd (List.filter is_success results) in
  let ratings := omap TestResult.user_rating results in
  let wins := omap win_flag results in
  let auto_scores := omap TestResult.auto_score results in
  (avg_time <~ mean_or Float64.zero (fun v => v) times;
   p50 <~ match times with [] => Ok Float64.zero | _ => statistics.median times end;
   p95 <~ percentile 94 (Float64.lit 95 2) times;
   p99 <~ percentile 98 (Float64.lit 99 2) times;
   avg_tokens <~ match tokens with
                 | [] => Ok Float64.zero
                 | _ => Float64.int_truediv (Py.sum_int tokens) (Py.len tokens)
                 end;
   avg_cost <~ mean_or Float64.zero (fun v => v) costs;
   avg_rating <~ mean_or None Some ratings;
   win_rate <~ match wins with
               | [] => Ok None
               | _ => rbind (Float64.int_truediv (Py.sum_int wins) (Py.len wins))
                            (fun v => Ok (Some v))
               end;
   preference <~ match results with
                 | [] => Ok None
                 | _ => rbind (Float64.int_truediv (Py.sum_int wins) (Py.len results))
                              (fun v => Ok (Some v))
                 end;
   avg_auto <~ mean_or None Some auto_scores;
   Ok (AggregateMetrics.mk variant_id model_id
         (Py.len results)
         (Py.len (List.filter is_success results))
         (Py.len (List.filter (fun r => negb (is_success r)) results))
         avg_time p50 p95 p99
         (match tokens with [] => 0 | _ => Py.sum_int tokens end)
         avg_tokens
         (match costs with [] => Float64.zero | _ => Py.sum_float costs end)
         avg_cost avg_rating win_rate preference avg_auto))%res.

(** [key = (r.variant_id, r.model_id)] *)
Definition pair_key (r : TestResult.t) : string * string :=
  (TestResult.variant_id r, TestResult.model_id r).

(** The first loop: [groups.setdefault(key, []).append(r)]. *)
Definition group_results (results : list TestResult.t)
    : list ((string * string) * list TestResult.t) :=
  fold_left (fun groups r => Py.setdefault_append (pair_key r) r groups) results [].

Definition aggregate_metrics (test_id : string) : M (list AggregateMetrics.t) :=
  (test <- get_test test_id ;;
   let groups := group_results (ABTest.results test) in
   aggregates <- lift (mapR (fun g => aggregate_group (fst (fst g)) (snd (fst g)) (snd g)) groups) ;;
   let test := ABTest.set_aggregate_metrics test aggregates in
   save_test test ;;;
   ret aggregates)%ctl.

(** [x or 0]: a falsy float (either zero) gives way to the int [0], which
    is [0.0] here; a NaN is truthy and stays.  Negating the int [0] gives
    [0] again where [Float64.neg] gives [-0.0], a difference no comparison
    of the sort can see, both zeros being equal. *)
Definition or_0 (x : float) : float :=
  if Float64.is_zero x then Float64.zero else x.

Definition opt_or_0 (x : option float) : float :=
  match x with
  | Some v => or_0 v
  | None => Float64.zero
  end.

(** The sort key of [generate_report]. *)
Definition ranking_key (x : AggregateMetrics.t) : float * float * float * float :=
  (opt_or_0 (AggregateMetrics.win_rate x),
   opt_or_0 (AggregateMetrics.avg_user_rating x),
   Float64.neg (or_0 (AggregateMetrics.avg_cost_per_run x)),
   Float64.neg (or_0 (AggregateMetrics.avg_generation_time_ms x))).

(** [a < b] on 4-tuples: the first position where the items are not [==]
    decides.  (CPython skips [==] for items that are the same object,
    which matters only for a NaN shared by two keys: what is proved about
    the ranking is stated for keys free of NaN, or is decided at a position
    that holds none.) *)
Definition tuple_lt (a b : float * float * float * float) : bool :=
  let '(a1, a2, a3, a4) := a in
  let '(b1, b2, b3, b4) := b in
  if negb (Float64.eq a1 b1) then Float64.lt a1 b1
  else if negb (Float64.eq a2 b2) then Float64.lt a2 b2
  else if negb (Float64.eq a3 b3) then Float64.lt a3 b3
  else if negb (Float64.eq a4 b4) then Float64.lt a4 b4
  else false.

(** [sorted(items, key=..., reverse=True)[0]] *)
Definition best_of (items : list AggregateMetrics.t) : result AggregateMetrics.t :=
  Py.getitem (Py.sorted tuple_lt ranking_key true items) 0.

Definition group_by_variant (aggregates : list AggregateMetrics.t)
    : list (string * list AggregateMetrics.t) :=
  fold_left (fun by_variant a =>
               Py.setdefault_append (AggregateMetrics.variant_id a) a by_variant)
            aggregates [].

(** The loop filling [winner_analysis]. *)
Definition pick_winners (by_variant : list (string * list AggregateMetrics.t))
    : result (gmap string string) :=
  foldR (fun winner_analysis entry =>
           rbind (best_of (snd entry))
                 (fun best => Ok (<[fst entry := AggregateMetrics.model_id best]> winner_analysis)))
        by_variant ∅.

Definition overall_stats_of (aggregates : list AggregateMetrics.t) : result OverallStats.t :=
  rbind (match aggregates with
         | [] => Ok Float64.zero
         | _ => Float64.truediv_int
                  (Py.sum_float (map AggregateMetrics.avg_cost_per_run aggregates))
                  (Py.len aggregates)
         end)
        (fun avg =>
           Ok (OverallStats.mk
                 (Py.sum_int (map AggregateMetrics.total_runs aggregates))
                 (Py.sum_float (map AggregateMetrics.total_cost_usd aggregates))
                 avg)).

(** [report_id] stands for [str(uuid.uuid4())] and [now] for
    [datetime.utcnow()]. *)
Definition generate_report (test_id report_id : string) (now : Z) : M ABTestReport.t :=
  (test <- get_test test_id ;;
   aggregates <- match ABTest.aggregate_metrics test with
                 | [] => aggregate_metrics test_id
                 | stored => ret stored
                 end ;;
   let by_variant := group_by_variant aggregates in
   winner_analysis <- lift (pick_winners by_variant) ;;
   overall_stats <- lift (overall_stats_of aggregates) ;;
   let report :=
     ABTestReport.mk report_id test_id now
       (TestSummary.mk (ABTest.test_name test) (ABTest.status test)
          (Py.len (ABTest.prompt_variants test))
          (Py.len (ABTest.model_configs test))
          (ABTest.sample_size test))
       overall_stats
       aggregates
       winner_analysis
       ∅ ∅ [] in
   save_report report ;;;
   ret report)%ctl.
End ABTestController.

(** ** Vocabulary of the specification *)

(** The (variant_id, model_id) partition of a result list. *)
Definition partition_of (results : list TestResult.t) (variant_id model_id : string)
    : list TestResult.t :=
  List.filter (fun r => bool_decide (ABTestController.pair_key r = (variant_id, model_id)))
              results.

(** The timing sample of a group: generation times of its successful runs. *)
Definition success_times (results : list TestResult.t) : list float :=
  map TestResult.generation_time_ms (List.filter ABTestController.is_success results).

(** A result carries a comparison judgement / a winning one. *)
Definition is_judged (r : TestResult.t) : bool :=
  match TestResult.comparison_winner r with
  | Some _ => true
  | None => false
  end.

Definition is_win (r : TestResult.t) : bool :=
  match TestResult.comparison_winner r with
  | Some true => true
  | _ => false
  end.

Definition entry_key (a : AggregateMetrics.t) : string * string :=
  (AggregateMetrics.variant_id a, AggregateMetrics.model_id a).

(** The storage after [test.aggregate_metrics = aggregates] and
    [save_test(test)]. *)
Definition with_aggregates (st : Storage.t) (test : ABTest.t)
    (aggregates : list AggregateMetrics.t) : Storage.t :=
  Storage.mk (<[ABTest.test_id test := ABTest.set_aggregate_metrics test aggregates]>
                (Storage.tests st))
             (Storage.comparison_pairs st) (Storage.reports st).

(** ** Concrete tests used as examples *)

Module Demo.
Local Open Scope Z_scope.

Definition run (variant_id model_id : string) (time_ms : float) (status : string)
    (comparison_winner : option bool) : TestResult.t :=
  TestResult.mk "r" "t1" variant_id model_id [] "out" 0
    time_ms 10 4 6 (Float64.lit 1 2)
    None None None comparison_winner None status.

Definition test_with (variants : list PromptVariant.t) (models : list ModelConfig.t)
    (allocation : list TrafficAllocation.t) (results : list TestResult.t)
    (aggregates : list AggregateMetrics.t) : ABTest.t :=
  ABTest.mk "t1" "demo" None variants models allocation 100 true RUNNING 0 (Some 1) None
    "system" results aggregates.

Definition store_of (test : ABTest.t) : Storage.t :=
  Storage.mk {[ ABTest.test_id test := test ]} ∅ ∅.

(** Pair (v1, m1) has three successful runs of 100, 200 and 300 ms; pair
    (v1, m2) is configured but has no run. *)
Definition scenario_results : list TestResult.t :=
  [ run "v1" "m1" (Float64.of_int 100) "success" None;
    run "v1" "m1" (Float64.of_int 200) "success" None;
    run "v1" "m1" (Float64.of_int 300) "success" None ].

Definition scenario_test : ABTest.t :=
  test_with
    [PromptVariant.mk "v1" "first" "Hello {name}" None []]
    [ModelConfig.mk "m1" "model one" "openai" (Float64.lit 7 1) 1000
       (Float64.of_int 1) Float64.zero Float64.zero;
     ModelConfig.mk "m2" "model two" "anthropic" (Float64.lit 7 1) 1000
       (Float64.of_int 1) Float64.zero Float64.zero]
    [TrafficAllocation.mk "v1" "m1" (Float64.of_int 50);
     TrafficAllocation.mk "v1" "m2" (Float64.of_int 50)]
    scenario_results [].

Definition scenario_store : Storage.t := store_of scenario_test.

(** Five runs of one pair, one of them judged, and judged a win. *)
Definition judged_once_results : list TestResult.t :=
  [ run "v1" "m1" (Float64.of_int 100) "success" (Some true);
    run "v1" "m1" (Float64.of_int 110) "success" None;
    run "v1" "m1" (Float64.of_int 120) "error" None;
    run "v1" "m1" (Float64.of_int 130) "success" None;
    run "v1" "m1" (Float64.of_int 140) "timeout" None ].

Definition judged_once_store : Storage.t :=
  store_of (test_with [] [] [] judged_once_results []).

(** A test without any recorded result. *)
Definition empty_test : ABTest.t := test_with [] [] [] [] [].
Definition empty_store : Storage.t := store_of empty_test.

(** A hundred successful runs: 0.01, 0.02, 0.03 and ninety-seven times 1.7
    milliseconds. *)
Definition rounding_results : list TestResult.t :=
  [ run "v1" "m1" (Float64.lit 1 2) "success" None;
    run "v1" "m1" (Float64.lit 2 2) "success" None;
    run "v1" "m1" (Float64.lit 3 2) "success" None ]
  ++ repeat (run "v1" "m1" (Float64.lit 17 1) "success" None) 97.

(** Stored aggregates: for variant v1 model m1 has win rate 0.6 with the
    better rating, cost and latency, model m2 has win rate 0.8; variant v2
    has a single model without any judged result. *)
Definition candidate (variant_id model_id : string) (runs : Z)
    (win_rate avg_user_rating : option float) (avg_cost avg_time : float)
    : AggregateMetrics.t :=
  AggregateMetrics.mk variant_id model_id runs runs 0
    avg_time avg_time avg_time avg_time
    (10 * runs) (Float64.of_int 10)
    (Float64.mul avg_cost (Float64.of_int runs)) avg_cost
    avg_user_rating win_rate win_rate None.

Definition ranked_aggregates : list AggregateMetrics.t :=
  [ candidate "v1" "m1" 1 (Some (Float64.lit 6 1)) (Some (Float64.of_int 5))
      (Float64.of_int 1) (Float64.of_int 100);
    candidate "v2" "m1" 2 None None (Float64.of_int 2) (Float64.of_int 300);
    candidate "v1" "m2" 3 (Some (Float64.lit 8 1)) None
      (Float64.of_int 3) (Float64.of_int 900) ].

Definition ranked_test : ABTest.t := test_with [] [] [] [] ranked_aggregates.
Definition ranked_store : Storage.t := store_of ranked_test.

(** Four successful runs of 100, 200, 300 and 400 ms. *)
Definition four_runs : list TestResult.t :=
  [ run "v1" "m1" (Float64.of_int 300) "success" None;
    run "v1" "m1" (Float64.of_int 100) "success" None;
    run "v1" "m1" (Float64.of_int 400) "success" None;
    run "v1" "m1" (Float64.of_int 200) "success" None ].

(** One successful run that reports [2**1024] tokens. *)
Definition huge_tokens_results : list TestResult.t :=
  [ TestResult.mk "r" "t1" "v1" "m1" [] "out" 0
      (Float64.of_int 100) (2 ^ 1024) 4 6 (Float64.lit 1 2)
      None None None None None "success" ].

Definition huge_tokens_store : Storage.t :=
  store_of (test_with [] [] [] huge_tokens_results []).

(** Pair (v1, m1) has two successful runs, pair (v1, m2) an error and a
    timeout. *)
Definition failing_results : list TestResult.t :=
  [ run "v1" "m1" (Float64.of_int 100) "success" None;
    run "v1" "m2" (Float64.of_int 500) "error" None;
    run "v1" "m1" (Float64.of_int 200) "success" None;
    run "v1" "m2" (Float64.of_int 900) "timeout" None ].

Definition failing_store : Storage.t :=
  store_of (test_with [] [] [] failing_results []).

(** Stored aggregates without any judgement or rating: for variant v1
    model m1 costs 2 per run and model m2 nothing; the two models of
    variant v2 agree on all four ranking fields. *)
Definition unjudged_aggregates : list AggregateMetrics.t :=
  [ candidate "v1" "m1" 4 None None (Float64.of_int 2) (Float64.of_int 100);
    candidate "v2" "m1" 2 None None (Float64.of_int 1) (Float64.of_int 300);
    candidate "v1" "m2" 3 None None Float64.zero Float64.zero;
    candidate "v2" "m2" 5 None None (Float64.of_int 1) (Float64.of_int 300) ].

Definition unjudged_test : ABTest.t := test_with [] [] [] [] unjudged_aggregates.
Definition unjudged_store : Storage.t := store_of unjudged_test.
End Demo.

(** ** Order vocabulary *)

(** A comparison function that is a total preorder on the elements
    satisfying [good]. *)
Record cmp_ok {A : Type} (cmp : A -> A -> comparison) (good : A -> Prop) : Prop := {
  cmp_opp : forall a b, good a -> good b -> cmp b a = CompOpp (cmp a b);
  cmp_eq_l : forall a b c, good a -> good b -> good c ->
             cmp a b = Eq -> cmp a c = cmp b c;
  cmp_lt_trans : forall a b c, good a -> good b -> good c ->
                 cmp a b = Lt -> cmp b c = Lt -> cmp a c = Lt;
}.

(** Lexicographic comparison of pairs. *)
Definition lex {A B : Type} (cA : A -> A -> comparison) (cB : B -> B -> comparison)
    (x y : A * B) : comparison :=
  match cA (fst x) (fst y) with
  | Eq => cB (snd x) (snd y)
  | c => c
  end.

Definition not_nan (x : float) : Prop := Float64.is_nan x = false.

(** The comparison of two floats that are not NaN. *)
Definition fcmp (a b : float) : comparison :=
  match SFcompare a b with
  | Some c => c
  | None => Eq
  end.

(** Floats that are not NaN, ordered as [SFcompare] orders them, embed in
    integer triples ordered lexicographically. *)
Definition frank (x : float) : Z * (Z * Z) :=
  match x with
  | S754_infinity true => (-2, (0, 0))%Z
  | S754_finite true m e => (-1, (- e, Zneg m))%Z
  | S754_zero _ => (0, (0, 0))%Z
  | S754_nan => (0, (0, 0))%Z
  | S754_finite false m e => (1, (e, Zpos m))%Z
  | S754_infinity false => (2, (0, 0))%Z
  end.

Definition rank_cmp : Z * (Z * Z) -> Z * (Z * Z) -> comparison :=
  lex Z.compare (lex Z.compare Z.compare).

(** The order of the sort keys of [generate_report]. *)
Definition key_cmp : float * float * float * float -> float * float * float * float
                     -> comparison :=
  lex (lex (lex fcmp fcmp) fcmp) fcmp.

Definition key_ok (k : float * float * float * float) : Prop :=
  ((not_nan (fst (fst (fst k))) /\ not_nan (snd (fst (fst k))))
   /\ not_nan (snd (fst k))) /\ not_nan (snd k).

(** An entry none of whose four ranking fields is NaN. *)
Definition rankable (a : AggregateMetrics.t) : Prop :=
  key_ok (ABTestController.ranking_key a).

(** The entries of one variant, in order. *)
Definition of_variant (variant_id : string) (aggregates : list AggregateMetrics.t)
    : list AggregateMetrics.t :=
  List.filter (fun a => bool_decide (AggregateMetrics.variant_id a = variant_id)) aggregates.

(** The storage after [save_report(report)]. *)
Definition with_report (st : Storage.t) (report : ABTestReport.t) : Storage.t :=
  Storage.mk (Storage.tests st) (Storage.comparison_pairs st)
             (<[ABTestReport.report_id report := report]> (Storage.reports st)).

(** The report [generate_report] assembles from its parts. *)
Definition report_of (test_id report_id : string) (now : Z) (test : ABTest.t)
    (aggregates : list AggregateMetrics.t) (winner_analysis : gmap string string)
    (overall_stats : OverallStats.t) : ABTestReport.t :=
  ABTestReport.mk report_id test_id now
    (TestSummary.mk (ABTest.test_name test) (ABTest.status test)
       (Py.len (ABTest.prompt_variants test))
       (Py.len (ABTest.model_configs test))
       (ABTest.sample_size test))
    overall_stats aggregates winner_analysis ∅ ∅ [].

(** A result list one of whose (variant_id, model_id) partitions has
    [2^53] or more results, or successful [total_tokens] adding up to a
    magnitude of [2^53] or more: beyond the ints a float holds exactly. *)
Definition oversized (results : list TestResult.t) : Prop :=
  exists variant_id model_id,
    let part := partition_of results variant_id model_id in
    (2 ^ 53 <= Z.abs (Py.sum_int (map TestResult.total_tokens
                                    (List.filter ABTestController.is_success part)))
     \/ 2 ^ 53 <= Py.len part)%Z.

(** A sample with at least three pairwise different values. *)
Definition three_distinct (times : list float) : Prop :=
  exists a b c,
    In a times /\ In b times /\ In c times
    /\ Float64.eq a b = false /\ Float64.eq a c = false /\ Float64.eq b c = false.

(** ** The remaining methods of the controller

    Test lifecycle, result recording and comparison pairs.  An attribute
    assignment on a record is a functional update; [now] stands for
    [datetime.utcnow()] and the id arguments for [str(uuid.uuid4())]. *)

Module ABTestUpdate.
(** [test.status = status] *)
Definition set_status (test : ABTest.t) (status : TestStatus) : ABTest.t :=
  ABTest.mk (ABTest.test_id test) (ABTest.test_name test) (ABTest.description test)
    (ABTest.prompt_variants test) (ABTest.model_configs test)
    (ABTest.traffic_allocation test) (ABTest.sample_size test)
    (ABTest.parallel_execution test) status (ABTest.created_at test)
    (ABTest.started_at test) (ABTest.completed_at test) (ABTest.created_by test)
    (ABTest.results test) (ABTest.aggregate_metrics test).

(** [test.started_at = at] *)
Definition set_started_at (test : ABTest.t) (at_ : option Z) : ABTest.t :=
  ABTest.mk (ABTest.test_id test) (ABTest.test_name test) (ABTest.description test)
    (ABTest.prompt_variants test) (ABTest.model_configs test)
    (ABTest.traffic_allocation test) (ABTest.sample_size test)
    (ABTest.parallel_execution test) (ABTest.status test) (ABTest.created_at test)
    at_ (ABTest.completed_at test) (ABTest.created_by test)
    (ABTest.results test) (ABTest.aggregate_metrics test).

(** [test.completed_at = at] *)
Definition set_completed_at (test : ABTest.t) (at_ : option Z) : ABTest.t :=
  ABTest.mk (ABTest.test_id test) (ABTest.test_name test) (ABTest.description test)
    (ABTest.prompt_variants test) (ABTest.model_configs test)
    (ABTest.traffic_allocation test) (ABTest.sample_size test)
    (ABTest.parallel_execution test) (ABTest.status test) (ABTest.created_at test)
    (ABTest.started_at test) at_ (ABTest.created_by test)
    (ABTest.results test) (ABTest.aggregate_metrics test).

(** [test.results.append(result)] *)
Definition append_result (test : ABTest.t) (result : TestResult.t) : ABTest.t :=
  ABTest.mk (ABTest.test_id test) (ABTest.test_name test) (ABTest.description test)
    (ABTest.prompt_variants test) (ABTest.model_configs test)
    (ABTest.traffic_allocation test) (ABTest.sample_size test)
    (ABTest.parallel_execution test) (ABTest.status test) (ABTest.created_at test)
    (ABTest.started_at test) (ABTest.completed_at test) (ABTest.created_by test)
    (ABTest.results test ++ [result]) (ABTest.aggregate_metrics test).
End ABTestUpdate.

(** The comparison-pair table of the storage object, modelled like the
    test table. *)
Definition get_comparison_pair (comparison_id : string) : M ComparisonPair.t :=
  fun st =>
    match Storage.comparison_pairs st !! comparison_id with
    | Some cpair => Ok (cpair, st)
    | None => Raise NotFound
    end.

Definition save_comparison_pair (cpair : ComparisonPair.t) : M unit :=
  fun st =>
    Ok (tt, Storage.mk (Storage.tests st)
                       (<[ComparisonPair.comparison_id cpair := cpair]>
                          (Storage.comparison_pairs st))
                       (Storage.reports st)).

(** The [payload] dict of [create_test], with the seven keys the method
    reads; [None] is an absent key.  The values are taken as already of the
    field's type: the validation and coercion pydantic applies to other
    values is outside this model. *)
Module CreatePayload.
Record t : Type := mk {
  test_name : option string;
  description : option string;
  prompt_variants : option (list PromptVariant.t);
  model_configs : option (list ModelConfig.t);
  traffic_allocation : option (list TrafficAllocation.t);
  sample_size : option Z;
  parallel_execution : option bool;
}.
End CreatePayload.

(** What [create_test] does: it returns the test and the new storage, or a
    subscript on an absent key raises [KeyError(key)]. *)
Inductive create_outcome : Type :=
  | Created (test : ABTest.t) (st : Storage.t)
  | KeyError (key : string).

Module ABTestControllerRest.
Local Open Scope Z_scope.

(** [payload.get(key, dflt)] *)
Definition get_or {A} (dflt : A) (v : option A) : A :=
  match v with
  | Some a => a
  | None => dflt
  end.

Definition create_test (payload : CreatePayload.t) (created_by test_id : string) (now : Z)
    (st : Storage.t) : create_outcome :=
  match CreatePayload.prompt_variants payload with
  | None => KeyError "prompt_variants"
  | Some prompt_variants =>
      match CreatePayload.model_configs payload with
      | None => KeyError "model_configs"
      | Some model_configs =>
          match CreatePayload.traffic_allocation payload with
          | None => KeyError "traffic_allocation"
          | Some traffic_allocation =>
              let test :=
                ABTest.mk test_id
                  (get_or "Untitled AB Test"%string (CreatePayload.test_name payload))
                  (CreatePayload.description payload)
                  prompt_variants model_configs traffic_allocation
                  (get_or 100 (CreatePayload.sample_size payload))
                  (get_or true (CreatePayload.parallel_execution payload))
                  DRAFT now None None created_by [] [] in
              match save_test test st with
              | Ok (_, st') => Created test st'
              | Raise _ => Created test st
              end
          end
      end
  end.

Definition start_test (test_id : string) (now : Z) : M ABTest.t :=
  (test <- get_test test_id ;;
   let test := ABTestUpdate.set_status test RUNNING in
   let test := ABTestUpdate.set_started_at test (Some now) in
   save_test test ;;;
   ret test)%ctl.

Definition pause_test (test_id : string) : M ABTest.t :=
  (test <- get_test test_id ;;
   let test := ABTestUpdate.set_status test PAUSED in
   save_test test ;;;
   ret test)%ctl.

Definition complete_test (test_id : string) (now : Z) : M ABTest.t :=
  (test <- get_test test_id ;;
   let test := ABTestUpdate.set_status test COMPLETED in
   let test := ABTestUpdate.set_completed_at test (Some now) in
   save_test test ;;;
   ret test)%ctl.

Definition record_result (result_id : string) (now : Z)
    (test_id variant_id model_id : string) (input_data : list (string * string))
    (generated_output : string) (generation_time_ms : float)
    (total_tokens prompt_tokens completion_tokens : Z) (cost_usd : float)
    (status : string) (error : option string) (user_rating : option float)
    (user_feedback : option string) (auto_score : option float)
    (comparison_winner : option bool) : M TestResult.t :=
  (test <- get_test test_id ;;
   let result :=
     TestResult.mk result_id test_id variant_id model_id input_data generated_output now
       generation_time_ms total_tokens prompt_tokens completion_tokens cost_usd
       user_rating user_feedback auto_score comparison_winner error status in
   let test := ABTestUpdate.append_result test result in
   save_test test ;;;
   ret result)%ctl.

Definition create_comparison_pair (comparison_id test_id result_a_id result_b_id : string)
    : M ComparisonPair.t :=
  (let cpair :=
     ComparisonPair.mk comparison_id test_id result_a_id result_b_id
       None [] None None None in
   save_comparison_pair cpair ;;;
   ret cpair)%ctl.

Definition submit_user_rating (now : Z) (comparison_id user_preference : string)
    (rating_dimensions : list (string * float)) (feedback : option string)
    (rated_by : string) : M ComparisonPair.t :=
  (cpair <- get_comparison_pair comparison_id ;;
   let cpair :=
     ComparisonPair.mk (ComparisonPair.comparison_id cpair) (ComparisonPair.test_id cpair)
       (ComparisonPair.result_a_id cpair) (ComparisonPair.result_b_id cpair)
       (Some user_preference) rating_dimensions feedback (Some now) (Some rated_by) in
   save_comparison_pair cpair ;;;
   ret cpair)%ctl.
End ABTestControllerRest.

(** ** Sequences of controller calls *)

(** One call of a controller method with its arguments; for [OpRecord] the
    arguments of [record_result] are carried in a [TestResult.t]. *)
Inductive op : Type :=
  | OpCreate (payload : CreatePayload.t) (created_by test_id : string) (now : Z)
  | OpStart (test_id : string) (now : Z)
  | OpPause (test_id : string)
  | OpComplete (test_id : string) (now : Z)
  | OpRecord (test_id : string) (r : TestResult.t)
  | OpAggregate (test_id : string)
  | OpPair (comparison_id test_id result_a_id result_b_id : string)
  | OpRate (now : Z) (comparison_id user_preference : string)
           (rating_dimensions : list (string * float)) (feedback : option string)
           (rated_by : string)
  | OpReport (test_id report_id : string) (now : Z).

(** The storage a call leaves behind; a call that raises leaves it as it
    was (no method saves before its last statement that can raise). *)
Definition state_after {A} (c : M A) (st : Storage.t) : Storage.t :=
  match c st with
  | Ok (_, st') => st'
  | Raise _ => st
  end.

Definition run_op (o : op) (st : Storage.t) : Storage.t :=
  match o with
  | OpCreate payload created_by test_id now =>
      match ABTestControllerRest.create_test payload created_by test_id now st with
      | Created _ st' => st'
      | KeyError _ => st
      end
  | OpStart test_id now => state_after (ABTestControllerRest.start_test test_id now) st
  | OpPause test_id => state_after (ABTestControllerRest.pause_test test_id) st
  | OpComplete test_id now => state_after (ABTestControllerRest.complete_test test_id now) st
  | OpRecord test_id r =>
      state_after
        (ABTestControllerRest.record_result (TestResult.result_id r) (TestResult.timestamp r)
           test_id (TestResult.variant_id r) (TestResult.model_id r)
           (TestResult.input_data r) (TestResult.generated_output r)
           (TestResult.generation_time_ms r) (TestResult.total_tokens r)
           (TestResult.prompt_tokens r) (TestResult.completion_tokens r)
           (TestResult.cost_usd r) (TestResult.status r) (TestResult.error r)
           (TestResult.user_rating r) (TestResult.user_feedback r)
           (TestResult.auto_score r) (TestResult.comparison_winner r)) st
  | OpAggregate test_id => state_after (ABTestController.aggregate_metrics test_id) st
  | OpPair comparison_id test_id result_a_id result_b_id =>
      state_after
        (ABTestControllerRest.create_comparison_pair comparison_id test_id
           result_a_id result_b_id) st
  | OpRate now comparison_id user_preference rating_dimensions feedback rated_by =>
      state_after
        (ABTestControllerRest.submit_user_rating now comparison_id user_preference
           rating_dimensions feedback rated_by) st
  | OpReport test_id report_id now =>
      state_after (ABTestController.generate_report test_id report_id now) st
  end.

(** A call is admissible when the uuid drawn by [create_test] is not the id
    of a stored test. *)
Definition admissible (o : op) (st : Storage.t) : Prop :=
  match o with
  | OpCreate _ _ test_id _ => Storage.tests st !! test_id = None
  | _ => True
  end.

(** The storages reachable from [st0] by admissible calls. *)
Inductive reachable (st0 : Storage.t) : Storage.t -> Prop :=
  | reachable_here : reachable st0 st0
  | reachable_call (st : Storage.t) (o : op) :
      reachable st0 st -> admissible o st -> reachable st0 (run_op o st).

(** Every test record is stored under its own [test_id]. *)
Definition well_keyed (st : Storage.t) : Prop :=
  forall k test, Storage.tests st !! k = Some test -> ABTest.test_id test = k.

(** The distinct elements of a list in the order of their first occurrence. *)
Fixpoint first_seen {K : Type} `{EqDecision K} (l : list K) : list K :=
  match l with
  | [] => []
  | k :: l' => k :: List.filter (fun k' => negb (bool_decide (k' = k))) (first_seen l')
  end.

(** [extends t t']: the record [t'] is [t] after controller calls: same
    identity and configuration, the results of [t] followed by further
    ones, and a status that is the one of [t] or one the controller
    assigns. *)
Definition extends (t t' : ABTest.t) : Prop :=
  ABTest.test_id t' = ABTest.test_id t
  /\ ABTest.test_name t' = ABTest.test_name t
  /\ ABTest.description t' = ABTest.description t
  /\ ABTest.prompt_variants t' = ABTest.prompt_variants t
  /\ ABTest.model_configs t' = ABTest.model_configs t
  /\ ABTest.traffic_allocation t' = ABTest.traffic_allocation t
  /\ ABTest.sample_size t' = ABTest.sample_size t
  /\ ABTest.parallel_execution t' = ABTest.parallel_execution t
  /\ ABTest.created_at t' = ABTest.created_at t
  /\ ABTest.created_by t' = ABTest.created_by t
  /\ (exists more, ABTest.results t' = ABTest.results t ++ more)
  /\ (ABTest.status t' = ABTest.status t
      \/ ABTest.status t' = RUNNING
      \/ ABTest.status t' = PAUSED
      \/ ABTest.status t' = COMPLETED).

(** * Verification *)

(** ** The exception monad *)

Lemma Ok_inj {A} (a b : A) : Ok a = Ok b -> a = b.
Proof. intros H. now inversion H. Qed.

Lemma mapR_Forall2 {A B} (f : A -> result B) (l : list A) (bs : list B) :
  mapR f l = Ok bs -> Forall2 (fun a b => f a = Ok b) l bs.
Proof.
  revert bs. induction l as [|a l IH]; simpl; intros bs H.
  - inversion H. constructor.
  - destruct (f a) eqn:Ha; [|discriminate].
    destruct (mapR f l) eqn:Hl; [|discriminate].
    inversion H; subst. constructor; auto.
Qed.

Lemma mapR_total {A B} (f : A -> result B) (l : list A) :
  (forall a, In a l -> exists b, f a = Ok b) -> exists bs, mapR f l = Ok bs.
Proof.
  induction l as [|a l IH]; simpl; intros H.
  - eauto.
  - destruct (H a) as [b Hb]; [auto|]. rewrite Hb.
    destruct IH as [bs Hbs]; [intros; apply H; auto|]. rewrite Hbs. eauto.
Qed.

Lemma mapR_length {A B} (f : A -> result B) (l : list A) (bs : list B) :
  mapR f l = Ok bs -> length bs = length l.
Proof.
  intros H. apply mapR_Forall2 in H. symmetry. eapply Forall2_length; eauto.
Qed.

Lemma mapR_nth {A B} (f : A -> result B) (l : list A) (bs : list B) i a :
  mapR f l = Ok bs -> nth_error l i = Some a ->
  exists b, nth_error bs i = Some b /\ f a = Ok b.
Proof.
  intros H. apply mapR_Forall2 in H. revert i.
  induction H as [|x y l' bs' Hxy _ IH]; intros [|i]; simpl; intros Hi; try discriminate.
  - inversion Hi; subst. eauto.
  - auto.
Qed.

(** ** Grouping with [setdefault(...).append(...)] *)

Section Grouping.
Context {K V : Type} `{EqDecision K} (key : V -> K).

Let same_key (k : K) (v : V) : bool := bool_decide (key v = k).

Lemma setdefault_append_keys (k : K) (v : V) (d : list (K * list V)) :
  (In k (map fst d) -> map fst (Py.setdefault_append k v d) = map fst d)
  /\ (~ In k (map fst d) -> map fst (Py.setdefault_append k v d) = map fst d ++ [k]).
Proof.
  induction d as [|[k' vs] d [IH1 IH2]]; simpl.
  - split; [intros []|reflexivity].
  - destruct (decide (k' = k)) as [->|Hne]; simpl.
    + split; [reflexivity|]. intros n. exfalso. apply n. auto.
    + split.
      * intros [?|Hin]; [contradiction|]. now rewrite IH1.
      * intros n. rewrite IH2; [reflexivity|]. intros ?. apply n. auto.
Qed.

Lemma setdefault_append_In (k : K) (v : V) (d : list (K * list V)) k' vs' :
  NoDup (map fst d) ->
  In (k', vs') (Py.setdefault_append k v d) ->
  (k' <> k /\ In (k', vs') d)
  \/ (k' = k /\ ((exists vs, In (k, vs) d /\ vs' = vs ++ [v])
                 \/ (~ In k (map fst d) /\ vs' = [v]))).
Proof.
  induction d as [|[k0 vs0] d IH]; simpl; intros Hnd.
  - intros [Heq|[]]. inversion Heq; subst. right. split; [reflexivity|].
    right. split; [tauto|reflexivity].
  - apply NoDup_cons in Hnd as [Hk0 Hnd]. rewrite list_elem_of_In in Hk0.
    destruct (decide (k0 = k)) as [->|Hne]; simpl.
    + intros [Heq|Hin].
      * inversion Heq; subst. right. split; [reflexivity|]. left. eauto.
      * left. split; [|auto]. intros ->. apply Hk0.
        change k with (fst (k, vs')). apply in_map. exact Hin.
    + intros [Heq|Hin].
      * inversion Heq; subst. left. auto.
      * destruct (IH Hnd Hin) as [[Hk' Hd]|[-> [(vs & Hd & ->)|[Hnin ->]]]].
        -- left. auto.
        -- right. split; [reflexivity|]. left. eauto.
        -- right. split; [reflexivity|]. right. split; [|reflexivity].
           intros [?|?]; [congruence|contradiction].
Qed.

(** What the grouping loop maintains: keys are distinct, every entry holds
    exactly the elements seen so far under its key, in order, and has at
    least one; every element seen so far has an entry. *)
Lemma grouping_step (l : list V) (d : list (K * list V)) (v : V) :
  NoDup (map fst d) ->
  (forall k vs, In (k, vs) d -> vs <> [] /\ vs = List.filter (same_key k) l) ->
  (forall x, In x l -> In (key x) (map fst d)) ->
  let d' := Py.setdefault_append (key v) v d in
  NoDup (map fst d')
  /\ (forall k vs, In (k, vs) d' -> vs <> [] /\ vs = List.filter (same_key k) (l ++ [v]))
  /\ (forall x, In x (l ++ [v]) -> In (key x) (map fst d')).
Proof.
  intros Hnd Hent Hcov d'. subst d'.
  destruct (setdefault_append_keys (key v) v d) as [Hk1 Hk2].
  assert (Hdec : In (key v) (map fst d) \/ ~ In (key v) (map fst d)).
  { destruct (decide (key v ∈ map fst d)) as [Hi|Hi]; rewrite list_elem_of_In in Hi; auto. }
  split; [|split].
  - destruct Hdec as [Hi|Hi]; [rewrite Hk1; assumption|rewrite (Hk2 Hi)].
    apply NoDup_app. split; [assumption|]. split.
    + intros x Hx Hx'. apply list_elem_of_In in Hx, Hx'.
      destruct Hx' as [<-|[]]. contradiction.
    + apply NoDup_singleton.
  - intros k vs Hin. rewrite List.filter_app. simpl.
    destruct (setdefault_append_In _ _ _ _ _ Hnd Hin)
      as [[Hk Hd]|[-> [(vs0 & Hd & ->)|[Hnin ->]]]].
    + destruct (Hent _ _ Hd) as [Hne ->]. split; [assumption|].
      unfold same_key at 3. rewrite bool_decide_eq_false_2 by congruence.
      now rewrite app_nil_r.
    + destruct (Hent _ _ Hd) as [Hne ->]. split; [now destruct (List.filter _ l)|].
      unfold same_key at 3. now rewrite bool_decide_eq_true_2.
    + split; [discriminate|].
      unfold same_key at 2. rewrite bool_decide_eq_true_2 by reflexivity.
      assert (List.filter (same_key (key v)) l = []) as ->; [|reflexivity].
      destruct (List.filter (same_key (key v)) l) as [|x xs] eqn:Hf; [reflexivity|].
      assert (In x (List.filter (same_key (key v)) l)) as Hx by (rewrite Hf; left; reflexivity).
      apply filter_In in Hx as [Hx Hkx]. unfold same_key in Hkx.
      apply bool_decide_eq_true_1 in Hkx. exfalso. apply Hnin. rewrite <- Hkx. auto.
  - intros x Hx. apply in_app_or in Hx as [Hx|[<-|[]]].
    + destruct Hdec as [Hi|Hi]; [rewrite Hk1|rewrite (Hk2 Hi); apply in_or_app]; auto.
    + destruct Hdec as [Hi|Hi]; [rewrite Hk1; auto|rewrite (Hk2 Hi); apply in_or_app].
      right. left. reflexivity.
Qed.

Lemma grouping_spec (l : list V) :
  let d := fold_left (fun d v => Py.setdefault_append (key v) v d) l [] in
  NoDup (map fst d)
  /\ (forall k vs, In (k, vs) d -> vs <> [] /\ vs = List.filter (same_key k) l)
  /\ (forall x, In x l -> In (key x) (map fst d)).
Proof.
  induction l as [|v l IH] using rev_ind; simpl.
  - split; [constructor|]. split; intros; contradiction.
  - rewrite fold_left_app. simpl. destruct IH as (H1 & H2 & H3).
    apply grouping_step; assumption.
Qed.
End Grouping.

(** ** Lists, indexing and sorting *)

Lemma getitem_nth {A} (l : list A) (i : Z) :
  (0 <= i < Py.len l)%Z ->
  exists a, Py.getitem l i = Ok a /\ nth_error l (Z.to_nat i) = Some a.
Proof.
  unfold Py.getitem, Py.len. intros Hi.
  destruct (Z.ltb_spec i 0) as [?|_]; [lia|].
  destruct (Z.ltb_spec i 0) as [?|_]; [lia|].
  destruct (nth_error l (Z.to_nat i)) as [a|] eqn:Hn; [exists a; auto|].
  apply nth_error_None in Hn. lia.
Qed.

Lemma getitem_of_nth {A} (l : list A) (i : Z) (a : A) :
  (0 <= i)%Z -> nth_error l (Z.to_nat i) = Some a -> Py.getitem l i = Ok a.
Proof.
  unfold Py.getitem. intros Hi Hn.
  destruct (Z.ltb_spec i 0) as [?|_]; [lia|].
  destruct (Z.ltb_spec i 0) as [?|_]; [lia|].
  now rewrite Hn.
Qed.

Lemma getitem_inv {A} (l : list A) (i : Z) (a : A) :
  (0 <= i)%Z -> Py.getitem l i = Ok a -> nth_error l (Z.to_nat i) = Some a.
Proof.
  unfold Py.getitem. intros Hi.
  destruct (Z.ltb_spec i 0) as [?|_]; [lia|].
  destruct (Z.ltb_spec i 0) as [?|_]; [lia|].
  destruct (nth_error l (Z.to_nat i)); [congruence|discriminate].
Qed.

Lemma insert_perm {A} (ltb : A -> A -> bool) (x : A) (l : list A) :
  Permutation (Py.insert ltb x l) (x :: l).
Proof.
  induction l as [|y l IH]; simpl; [reflexivity|].
  destruct (ltb y x); [|reflexivity].
  rewrite IH. apply perm_swap.
Qed.

Lemma sort_perm {A} (ltb : A -> A -> bool) (l : list A) :
  Permutation (Py.sort ltb l) l.
Proof.
  induction l as [|x l IH]; simpl; [reflexivity|].
  rewrite insert_perm. now constructor.
Qed.

Lemma sorted_perm {A B} (ltb : B -> B -> bool) (key : A -> B) (reverse : bool) (l : list A) :
  Permutation (Py.sorted ltb key reverse l) l.
Proof.
  unfold Py.sorted. destruct reverse.
  - rewrite <- Permutation_rev, sort_perm. symmetry. apply Permutation_rev.
  - apply sort_perm.
Qed.

Lemma sorted_len {A B} (ltb : B -> B -> bool) (key : A -> B) (reverse : bool) (l : list A) :
  Py.len (Py.sorted ltb key reverse l) = Py.len l.
Proof.
  unfold Py.len. f_equal. apply Permutation_length, sorted_perm.
Qed.

Lemma sorted_floats_len (data : list float) :
  Py.len (statistics.sorted_floats data) = Py.len data.
Proof. apply sorted_len. Qed.

Lemma range_length (a b : Z) : length (Py.range a b) = Z.to_nat (b - a).
Proof. unfold Py.range. now rewrite length_map, length_seq. Qed.

Lemma range_In (a b i : Z) : In i (Py.range a b) <-> (a <= i < b)%Z.
Proof.
  unfold Py.range. rewrite in_map_iff. split.
  - intros (k & <- & Hk). apply in_seq in Hk. lia.
  - intros Hi. exists (Z.to_nat (i - a)). split; [lia|]. apply in_seq. lia.
Qed.

Lemma range_nth (a b : Z) (k : nat) :
  (k < Z.to_nat (b - a))%nat -> nth_error (Py.range a b) k = Some (a + Z.of_nat k)%Z.
Proof.
  intros Hk. unfold Py.range.
  rewrite nth_error_map, nth_error_seq by assumption.
  destruct (Nat.ltb_spec k (Z.to_nat (b - a))); [reflexivity|lia].
Qed.

(** ** [statistics.median] and [statistics.quantiles] return *)

Lemma median_total (data : list float) :
  data <> [] -> exists v, statistics.median data = Ok v.
Proof.
  intros Hne. unfold statistics.median.
  assert (Hlen : (0 < Py.len (statistics.sorted_floats data))%Z).
  { rewrite sorted_floats_len. unfold Py.len. destruct data; [congruence|simpl; lia]. }
  set (s := statistics.sorted_floats data) in *.
  destruct (Z.eqb_spec (Py.len s) 0) as [?|_]; [lia|].
  destruct (Z.eqb_spec (Py.len s mod 2) 1) as [Hodd|Heven].
  - destruct (getitem_nth s (Py.len s / 2)) as (a & -> & _); [|eauto].
    split; [apply Z.div_pos; lia|apply Z.div_lt; lia].
  - assert (Hm : (Py.len s mod 2 = 0)%Z) by (pose proof (Z.mod_pos_bound (Py.len s) 2); lia).
    assert (Hd : (Py.len s = 2 * (Py.len s / 2))%Z).
    { pose proof (Z.div_mod (Py.len s) 2). lia. }
    destruct (getitem_nth s (Py.len s / 2 - 1)) as (a & -> & _); [lia|].
    destruct (getitem_nth s (Py.len s / 2)) as (b & -> & _); [lia|].
    simpl. unfold Float64.truediv_int. simpl. eauto.
Qed.

(** The clamped index of a cut point lies in [1 .. ld-1]. *)
Lemma cut_point_total (data : list float) (n i : Z) :
  (2 <= Py.len data)%Z -> (n <> 0)%Z ->
  exists v, statistics.cut_point data (Py.len data) n i = Ok v.
Proof.
  intros Hld Hn. unfold statistics.cut_point.
  set (j0 := (i * (Py.len data + 1) / n)%Z).
  set (j := if (j0 <? 1)%Z then 1%Z else if (Py.len data - 1 <? j0)%Z then (Py.len data - 1)%Z else j0).
  assert (Hj : (1 <= j <= Py.len data - 1)%Z).
  { subst j. destruct (Z.ltb_spec j0 1); [lia|].
    destruct (Z.ltb_spec (Py.len data - 1) j0); lia. }
  destruct (getitem_nth data (j - 1)) as (a & -> & _); [lia|].
  destruct (getitem_nth data j) as (b & -> & _); [lia|].
  simpl. unfold Float64.truediv_int.
  destruct (Z.eqb_spec n 0); [contradiction|]. eauto.
Qed.

Lemma quantiles_total (data : list float) (n : Z) :
  (2 <= Py.len data)%Z -> (1 <= n)%Z ->
  exists qs, statistics.quantiles data n = Ok qs /\ length qs = Z.to_nat (n - 1).
Proof.
  intros Hld Hn. unfold statistics.quantiles.
  destruct (Z.ltb_spec n 1) as [?|_]; [lia|].
  rewrite sorted_floats_len.
  destruct (Z.ltb_spec (Py.len data) 2) as [?|_]; [lia|].
  rewrite <- (sorted_floats_len data).
  destruct (mapR_total (statistics.cut_point (statistics.sorted_floats data)
                          (Py.len (statistics.sorted_floats data)) n) (Py.range 1 n))
    as [qs Hqs].
  - intros i _. apply cut_point_total; [rewrite sorted_floats_len|]; lia.
  - exists qs. split; [assumption|].
    apply mapR_length in Hqs. now rewrite Hqs, range_length.
Qed.

(** The value [quantiles(data, n)[k]] is the cut point for [i = k + 1]. *)
Lemma quantiles_nth (data : list float) (n : Z) (qs : list float) (k : Z) :
  statistics.quantiles data n = Ok qs -> (0 <= k < n - 1)%Z ->
  exists v, Py.getitem qs k = Ok v
    /\ nth_error qs (Z.to_nat k) = Some v
    /\ statistics.cut_point (statistics.sorted_floats data) (Py.len data) n (k + 1) = Ok v.
Proof.
  unfold statistics.quantiles. intros Hq Hk.
  destruct (n <? 1)%Z; [discriminate|].
  destruct (Py.len (statistics.sorted_floats data) <? 2)%Z; [discriminate|].
  rewrite sorted_floats_len in Hq.
  destruct (mapR_nth _ _ _ (Z.to_nat k) (1 + Z.of_nat (Z.to_nat k))%Z Hq) as (v & Hv & Hc).
  { apply range_nth. lia. }
  exists v. split; [|split].
  - unfold Py.getitem. destruct (Z.ltb_spec k 0); [lia|].
    destruct (Z.ltb_spec k 0); [lia|]. now rewrite Hv.
  - assumption.
  - rewrite <- Hc. f_equal. lia.
Qed.

(** ** The truncated index [int(frac * (n - 1))]

    The product is rounded to binary64 before [int] truncates it; on the
    range the code uses it for (fewer than 100 points) the rounding never
    crosses an integer, so the index is the integer quotient. *)

Lemma nearest_rank_index (q k : Z) :
  (q = 95 \/ q = 99)%Z -> (0 <= k < 99)%Z ->
  Float64.to_int (Float64.mul (Float64.lit q 2) (Float64.of_int k)) = Ok (q * k / 100)%Z.
Proof.
  intros Hq Hk.
  assert (Hall : forallb (fun q =>
            forallb (fun k =>
              match Float64.to_int (Float64.mul (Float64.lit q 2) (Float64.of_int k)) with
              | Ok i => (i =? q * k / 100)%Z
              | Raise _ => false
              end) (Py.range 0 99)) [95; 99]%Z = true) by (vm_compute; reflexivity).
  rewrite forallb_forall in Hall.
  assert (Hq' : In q [95; 99]%Z) by (simpl; lia).
  specialize (Hall q Hq'). rewrite forallb_forall in Hall.
  specialize (Hall k (proj2 (range_In 0 99 k) Hk)).
  destruct (Float64.to_int _); [|discriminate].
  apply Z.eqb_eq in Hall. now subst.
Qed.

(** ** The statistics of a group *)

Lemma len_pos {A} (l : list A) : l <> [] -> (0 < Py.len l)%Z.
Proof. unfold Py.len. destruct l; [congruence|simpl; lia]. Qed.

Lemma len_nonneg {A} (l : list A) : (0 <= Py.len l)%Z.
Proof. unfold Py.len. lia. Qed.

Lemma len_zero {A} (l : list A) : Py.len l = 0%Z -> l = [].
Proof. unfold Py.len. destruct l; [reflexivity|simpl; lia]. Qed.

Lemma truediv_int_ok (x : float) (n : Z) :
  (n <> 0)%Z -> Float64.truediv_int x n = Ok (Float64.div x (Float64.of_int n)).
Proof. unfold Float64.truediv_int. intros H. now destruct (Z.eqb_spec n 0). Qed.

(** Below [2^53] the two ints convert exactly and the division is the
    float division of the conversions. *)
Lemma int_truediv_small (a b : Z) :
  (b <> 0)%Z -> (Z.abs a < 2 ^ 53)%Z -> (Z.abs b < 2 ^ 53)%Z ->
  Float64.int_truediv a b = Ok (Float64.div (Float64.of_int a) (Float64.of_int b)).
Proof.
  intros Hb Ha Hb'. unfold Float64.int_truediv.
  destruct (Z.eqb_spec b 0) as [?|_]; [contradiction|].
  destruct (Z.ltb_spec (Z.abs a) (2 ^ 53)) as [_|?]; [|lia].
  destruct (Z.ltb_spec (Z.abs b) (2 ^ 53)) as [_|?]; [|lia].
  reflexivity.
Qed.

(** A division by a non-zero int raises nothing but [OverflowError], and
    only when an operand has left the exactly representable range. *)
Lemma int_truediv_raises (a b : Z) (e : exn) :
  (b <> 0)%Z -> Float64.int_truediv a b = Raise e ->
  e = OverflowError /\ (2 ^ 53 <= Z.abs a \/ 2 ^ 53 <= Z.abs b)%Z.
Proof.
  intros Hb. unfold Float64.int_truediv.
  destruct (Z.eqb_spec b 0) as [?|_]; [contradiction|].
  destruct (Z.ltb_spec (Z.abs a) (2 ^ 53)) as [Ha|Ha];
    destruct (Z.ltb_spec (Z.abs b) (2 ^ 53)) as [Hb'|Hb']; cbn [andb];
    try discriminate;
    (destruct (SFdiv _ _ _ _); [discriminate| |discriminate|discriminate];
     intros [= <-]; split; [reflexivity|lia]).
Qed.

(** [(a / b) if l else None] *)
Lemma ratio_inv {A} (l : list A) (a b : Z) (r : option float) :
  match l with
  | [] => Ok None
  | _ => rbind (Float64.int_truediv a b) (fun v => Ok (Some v))
  end = Ok r ->
  match r with
  | None => l = []
  | Some v => l <> [] /\ Float64.int_truediv a b = Ok v
  end.
Proof.
  destruct l as [|x l]; [intros [= <-]; reflexivity|].
  destruct (Float64.int_truediv a b) as [v|]; cbn [rbind]; [|discriminate].
  intros [= <-]. split; [discriminate|reflexivity].
Qed.

Lemma mean_or_spec {A} (dflt : A) (inj : float -> A) (xs : list float) :
  ABTestController.mean_or dflt inj xs
  = Ok (match xs with
        | [] => dflt
        | _ => inj (Float64.div (Py.sum_float xs) (Float64.of_int (Py.len xs)))
        end).
Proof.
  unfold ABTestController.mean_or. destruct xs as [|x xs]; [reflexivity|].
  rewrite truediv_int_ok; [reflexivity|].
  pose proof (len_pos (x :: xs) ltac:(discriminate)). lia.
Qed.

Lemma percentile_spec (cut q : Z) (times : list float) :
  (q = 95 \/ q = 99)%Z -> (0 <= cut < 99)%Z ->
  exists v,
    ABTestController.percentile cut (Float64.lit q 2) times = Ok v
    /\ ((100 <= Py.len times)%Z ->
        exists qs, statistics.quantiles times 100 = Ok qs
                   /\ length qs = 99%nat
                   /\ nth_error qs (Z.to_nat cut) = Some v
                   /\ statistics.cut_point (statistics.sorted_floats times)
                        (Py.len times) 100 (cut + 1) = Ok v)
    /\ ((0 < Py.len times < 100)%Z ->
        nth_error (statistics.sorted_floats times)
          (Z.to_nat (q * (Py.len times - 1) / 100)) = Some v)
    /\ (Py.len times = 0%Z -> v = Float64.zero).
Proof.
  intros Hq Hcut. unfold ABTestController.percentile.
  destruct (Z.leb_spec 100 (Py.len times)) as [Hbig|Hsmall].
  - destruct (quantiles_total times 100) as (qs & Hqs & Hlen); [lia|lia|].
    rewrite Hqs. simpl.
    destruct (quantiles_nth times 100 qs cut Hqs) as (v & Hg & Hn & Hc); [lia|].
    exists v. rewrite Hg. split; [reflexivity|]. split; [|split]; try lia.
    intros _. exists qs. auto.
  - destruct times as [|t times'] eqn:Ht.
    + exists Float64.zero. split; [reflexivity|]. split; [|split]; auto.
      * unfold Py.len; simpl; lia.
      * unfold Py.len; simpl; lia.
    + rewrite <- Ht in *. assert (Hpos : (0 < Py.len times)%Z) by (apply len_pos; congruence).
      rewrite nearest_rank_index by lia. simpl.
      assert (Hi : (0 <= q * (Py.len times - 1) / 100 < Py.len times)%Z).
      { split; [apply Z.div_pos; lia|]. apply Z.div_lt_upper_bound; lia. }
      destruct (getitem_nth (statistics.sorted_floats times) (q * (Py.len times - 1) / 100))
        as (v & Hv & Hn); [now rewrite sorted_floats_len|].
      exists v. split; [assumption|]. split; [|split]; auto; lia.
Qed.

Lemma percentile_95_spec (times : list float) :
  exists v,
    ABTestController.percentile 94 (Float64.lit 95 2) times = Ok v
    /\ ((100 <= Py.len times)%Z ->
        exists qs, statistics.quantiles times 100 = Ok qs
                   /\ length qs = 99%nat
                   /\ nth_error qs 94 = Some v
                   /\ statistics.cut_point (statistics.sorted_floats times)
                        (Py.len times) 100 95 = Ok v)
    /\ ((0 < Py.len times < 100)%Z ->
        nth_error (statistics.sorted_floats times)
          (Z.to_nat (95 * (Py.len times - 1) / 100)) = Some v)
    /\ (Py.len times = 0%Z -> v = Float64.zero).
Proof. apply (percentile_spec 94 95); lia. Qed.

Lemma percentile_99_spec (times : list float) :
  exists v,
    ABTestController.percentile 98 (Float64.lit 99 2) times = Ok v
    /\ ((100 <= Py.len times)%Z ->
        exists qs, statistics.quantiles times 100 = Ok qs
                   /\ length qs = 99%nat
                   /\ nth_error qs 98 = Some v
                   /\ statistics.cut_point (statistics.sorted_floats times)
                        (Py.len times) 100 99 = Ok v)
    /\ ((0 < Py.len times < 100)%Z ->
        nth_error (statistics.sorted_floats times)
          (Z.to_nat (99 * (Py.len times - 1) / 100)) = Some v)
    /\ (Py.len times = 0%Z -> v = Float64.zero).
Proof. apply (percentile_spec 98 99); lia. Qed.

Lemma median_or_zero_total (times : list float) :
  exists v, match times with [] => Ok Float64.zero | _ => statistics.median times end = Ok v.
Proof.
  destruct times as [|t ts]; [eauto|]. apply median_total. discriminate.
Qed.

(** From 100 points on, the 95th and 99th cut points are not clamped: cut
    point [i] interpolates linearly between the neighbours [data[j-1]] and
    [data[j]] of rank [j = i*(ld+1) // 100], with weight
    [delta = i*(ld+1) mod 100] out of 100 on the upper one. *)
Lemma cut_point_interpolates (data : list float) (i : Z) :
  (100 <= Py.len data)%Z -> (i = 95 \/ i = 99)%Z ->
  let j := (i * (Py.len data + 1) / 100)%Z in
  let delta := ((i * (Py.len data + 1)) mod 100)%Z in
  (1 <= j <= Py.len data - 1)%Z
  /\ statistics.cut_point data (Py.len data) 100 i
     = rbind (Py.getitem data (j - 1)) (fun a =>
       rbind (Py.getitem data j) (fun b =>
       Ok (Float64.div
             (Float64.add (Float64.mul a (Float64.of_int (100 - delta)))
                          (Float64.mul b (Float64.of_int delta)))
             (Float64.of_int 100)))).
Proof.
  intros Hld Hi j delta.
  assert (Hj : (1 <= j <= Py.len data - 1)%Z).
  { subst j. destruct Hi; subst i; Z.div_mod_to_equations; lia. }
  split; [exact Hj|].
  unfold statistics.cut_point. fold j.
  destruct (Z.ltb_spec j 1) as [?|_]; [lia|].
  destruct (Z.ltb_spec (Py.len data - 1) j) as [?|_]; [lia|].
  assert (Hd : (i * (Py.len data + 1) - j * 100 = delta)%Z).
  { subst j delta. Z.div_mod_to_equations. lia. }
  rewrite Hd.
  destruct (Py.getitem data (j - 1)) as [a|]; [simpl|reflexivity].
  destruct (Py.getitem data j) as [b|]; [simpl|reflexivity].
  apply truediv_int_ok. lia.
Qed.

(** ** What [aggregate_group] puts in each field *)

Lemma aggregate_group_inv (variant_id model_id : string) (results : list TestResult.t)
    (agg : AggregateMetrics.t) :
  ABTestController.aggregate_group variant_id model_id results = Ok agg ->
  let ok := List.filter ABTestController.is_success results in
  let times := map TestResult.generation_time_ms ok in
  let wins := omap ABTestController.win_flag results in
  AggregateMetrics.variant_id agg = variant_id
  /\ AggregateMetrics.model_id agg = model_id
  /\ AggregateMetrics.total_runs agg = Py.len results
  /\ AggregateMetrics.success_runs agg = Py.len ok
  /\ AggregateMetrics.error_runs agg
     = Py.len (List.filter (fun r => negb (ABTestController.is_success r)) results)
  /\ AggregateMetrics.avg_generation_time_ms agg
     = match times with
       | [] => Float64.zero
       | _ => Float64.div (Py.sum_float times) (Float64.of_int (Py.len times))
       end
  /\ match times with [] => Ok Float64.zero | _ => statistics.median times end
     = Ok (AggregateMetrics.p50_generation_time_ms agg)
  /\ ABTestController.percentile 94 (Float64.lit 95 2) times
     = Ok (AggregateMetrics.p95_generation_time_ms agg)
  /\ ABTestController.percentile 98 (Float64.lit 99 2) times
     = Ok (AggregateMetrics.p99_generation_time_ms agg)
  /\ AggregateMetrics.avg_user_rating agg
     = match omap TestResult.user_rating results with
       | [] => None
       | _ => Some (Float64.div (Py.sum_float (omap TestResult.user_rating results))
                      (Float64.of_int (Py.len (omap TestResult.user_rating results))))
       end
  /\ match AggregateMetrics.win_rate agg with
     | None => wins = []
     | Some v => wins <> [] /\ Float64.int_truediv (Py.sum_int wins) (Py.len wins) = Ok v
     end
  /\ match AggregateMetrics.user_preference_rate agg with
     | None => results = []
     | Some v => results <> []
                 /\ Float64.int_truediv (Py.sum_int wins) (Py.len results) = Ok v
     end
  /\ AggregateMetrics.avg_auto_score agg
     = match omap TestResult.auto_score results with
       | [] => None
       | _ => Some (Float64.div (Py.sum_float (omap TestResult.auto_score results))
                      (Float64.of_int (Py.len (omap TestResult.auto_score results))))
       end.
Proof.
  unfold ABTestController.aggregate_group. rewrite !mean_or_spec. cbn [rbind].
  destruct (match map TestResult.generation_time_ms _ with
            | [] => Ok Float64.zero | _ => statistics.median _ end) as [p50|] eqn:H50;
    [cbn [rbind]|discriminate].
  destruct (ABTestController.percentile 94 _ _) as [p95|] eqn:H95; [cbn [rbind]|discriminate].
  destruct (ABTestController.percentile 98 _ _) as [p99|] eqn:H99; [cbn [rbind]|discriminate].
  destruct (match map TestResult.total_tokens _ with
            | [] => Ok Float64.zero | _ => Float64.int_truediv _ _ end) as [avg_tokens|];
    [cbn [rbind]|discriminate].
  destruct (match omap ABTestController.win_flag results with
            | [] => Ok None | _ => rbind _ _ end) as [win_rate|] eqn:Hwin;
    [cbn [rbind]|discriminate].
  destruct (match results with
            | [] => Ok None | _ => rbind _ _ end) as [pref|] eqn:Hpref;
    [cbn [rbind]|discriminate].
  apply ratio_inv in Hwin, Hpref.
  intros Hagg. apply Ok_inj in Hagg. subst agg.
  cbn -[Float64.div Float64.of_int Float64.int_truediv Py.len Py.sum_int Py.sum_float].
  repeat split; first [reflexivity|assumption].
Qed.

(** ** Claim C1 *)



(** ** One run of [aggregate_metrics] *)

Lemma Forall2_mapR {A B} (f : A -> result B) (l : list A) (bs : list B) :
  Forall2 (fun a b => f a = Ok b) l bs -> mapR f l = Ok bs.
Proof.
  induction 1 as [|a b l bs Hab _ IH]; simpl; [reflexivity|]. now rewrite Hab, IH.
Qed.

(** On a stored test the call returns exactly when the loop body returns
    for every group, and raises what the loop body raises first. *)
Lemma aggregate_metrics_cases (st : Storage.t) (test_id : string) (test : ABTest.t) :
  Storage.tests st !! test_id = Some test ->
  ABTestController.aggregate_metrics test_id st
  = match mapR (fun g => ABTestController.aggregate_group (fst (fst g)) (snd (fst g)) (snd g))
               (ABTestController.group_results (ABTest.results test)) with
    | Ok aggregates => Ok (aggregates, with_aggregates st test aggregates)
    | Raise e => Raise e
    end.
Proof.
  intros Hget.
  unfold ABTestController.aggregate_metrics, bind, get_test, lift, save_test, ret.
  rewrite Hget. destruct (mapR _ _); reflexivity.
Qed.

Lemma aggregate_metrics_run (st st' : Storage.t) (test_id : string) (test : ABTest.t)
    (aggregates : list AggregateMetrics.t) :
  Storage.tests st !! test_id = Some test ->
  ABTestController.aggregate_metrics test_id st = Ok (aggregates, st') ->
  st' = with_aggregates st test aggregates
  /\ Forall2 (fun g agg =>
                ABTestController.aggregate_group (fst (fst g)) (snd (fst g)) (snd g) = Ok agg)
             (ABTestController.group_results (ABTest.results test)) aggregates.
Proof.
  intros Hget Hrun. rewrite (aggregate_metrics_cases st test_id test Hget) in Hrun.
  destruct (mapR _ _) as [aggs|] eqn:Hmap; [|discriminate Hrun].
  apply Ok_inj in Hrun. injection Hrun as <- <-.
  split; [reflexivity|]. apply mapR_Forall2. assumption.
Qed.

Lemma aggregate_metrics_returns (st : Storage.t) (test_id : string) (test : ABTest.t)
    (aggregates : list AggregateMetrics.t) :
  Storage.tests st !! test_id = Some test ->
  Forall2 (fun g agg =>
             ABTestController.aggregate_group (fst (fst g)) (snd (fst g)) (snd g) = Ok agg)
          (ABTestController.group_results (ABTest.results test)) aggregates ->
  ABTestController.aggregate_metrics test_id st
  = Ok (aggregates, with_aggregates st test aggregates).
Proof.
  intros Hget HF. rewrite (aggregate_metrics_cases st test_id test Hget).
  now rewrite (Forall2_mapR _ _ _ HF).
Qed.

Lemma aggregate_metrics_inv (st st' : Storage.t) (test_id : string)
    (aggregates : list AggregateMetrics.t) :
  ABTestController.aggregate_metrics test_id st = Ok (aggregates, st') ->
  exists test, Storage.tests st !! test_id = Some test
               /\ st' = with_aggregates st test aggregates.
Proof.
  intros Hrun.
  destruct (Storage.tests st !! test_id) as [test|] eqn:Hget.
  - destruct (aggregate_metrics_run st st' test_id test aggregates Hget Hrun) as [-> _].
    eauto.
  - unfold ABTestController.aggregate_metrics, bind, get_test in Hrun.
    rewrite Hget in Hrun. discriminate.
Qed.

(** Every produced entry is [aggregate_group] applied to the partition of
    its own pair, and that partition is not empty. *)
Lemma produced_entry (results : list TestResult.t) (aggregates : list AggregateMetrics.t)
    (agg : AggregateMetrics.t) :
  Forall2 (fun g agg =>
             ABTestController.aggregate_group (fst (fst g)) (snd (fst g)) (snd g) = Ok agg)
          (ABTestController.group_results results) aggregates ->
  In agg aggregates ->
  let part := partition_of results (AggregateMetrics.variant_id agg)
                (AggregateMetrics.model_id agg) in
  part <> []
  /\ ABTestController.aggregate_group (AggregateMetrics.variant_id agg)
       (AggregateMetrics.model_id agg) part = Ok agg.
Proof.
  intros HF Hin.
  destruct (grouping_spec ABTestController.pair_key results) as (_ & Hent & _).
  fold (ABTestController.group_results results) in Hent.
  assert (Hg : exists g, In g (ABTestController.group_results results)
                 /\ ABTestController.aggregate_group (fst (fst g)) (snd (fst g)) (snd g) = Ok agg).
  { clear Hent. induction HF as [|g a gs aggs Hga _ IH]; [contradiction|].
    destruct Hin as [->|Hin].
    - exists g. split; [left; reflexivity|assumption].
    - destruct (IH Hin) as (g' & Hg' & Ha). exists g'. split; [right|]; assumption. }
  destruct Hg as ([[v m] rs] & Hg & Ha). simpl in Ha.
  destruct (aggregate_group_inv _ _ _ _ Ha) as (Hv & Hm & _).
  destruct (Hent _ _ Hg) as [Hne Hrs].
  unfold partition_of. rewrite Hv, Hm. rewrite <- Hrs. split; assumption.
Qed.

(** The pairs of the produced entries are the keys of [groups], in order. *)
Lemma produced_keys (results : list TestResult.t) (aggregates : list AggregateMetrics.t) :
  Forall2 (fun g agg =>
             ABTestController.aggregate_group (fst (fst g)) (snd (fst g)) (snd g) = Ok agg)
          (ABTestController.group_results results) aggregates ->
  map entry_key aggregates = map fst (ABTestController.group_results results).
Proof.
  induction 1 as [|[[v m] rs] a gs aggs Hga _ IH]; [reflexivity|].
  simpl in *. destruct (aggregate_group_inv _ _ _ _ Hga) as (Hv & Hm & _).
  unfold entry_key at 1. now rewrite Hv, Hm, IH.
Qed.

Lemma filter_split_len {A} (f : A -> bool) (l : list A) :
  (Py.len (List.filter f l) + Py.len (List.filter (fun x => negb (f x)) l))%Z = Py.len l.
Proof.
  unfold Py.len. induction l as [|x l IH]; [reflexivity|].
  simpl. destruct (f x); simpl length; lia.
Qed.

(** ** Claim C2 *)

(** C2. For every stored test, whenever [aggregate_metrics] returns, every
    entry it produces has [success_runs + error_runs = total_runs], where
    [total_runs] is the size of the (variant_id, model_id) partition of the
    test's results that the entry summarizes. *)
Theorem run_counts_add_up (st st' : Storage.t) (test_id : string) (test : ABTest.t)
    (aggregates : list AggregateMetrics.t) :
  Storage.tests st !! test_id = Some test ->
  ABTestController.aggregate_metrics test_id st = Ok (aggregates, st') ->
  forall agg, In agg aggregates ->
    (AggregateMetrics.success_runs agg + AggregateMetrics.error_runs agg
     = AggregateMetrics.total_runs agg)%Z
    /\ AggregateMetrics.total_runs agg
       = Py.len (partition_of (ABTest.results test)
                   (AggregateMetrics.variant_id agg) (AggregateMetrics.model_id agg)).
Proof.
  intros Hget Hrun.
  destruct (aggregate_metrics_run _ _ _ _ _ Hget Hrun) as [_ HF].
  intros agg Hin.
  destruct (produced_entry _ _ _ HF Hin) as [_ Hagg].
  destruct (aggregate_group_inv _ _ _ _ Hagg) as (_ & _ & Htot & Hsucc & Herr & _).
  rewrite Hsucc, Herr, Htot. split; [apply filter_split_len|reflexivity].
Qed.

(** Five runs of one pair, three of them successful: the call returns one
    entry, with 3 + 2 = 5 runs. *)
Lemma run_counts_add_up_witness :
  Storage.tests Demo.judged_once_store !! "t1"%string
  = Some (Demo.test_with [] [] [] Demo.judged_once_results [])
  /\ exists aggregates st',
       ABTestController.aggregate_metrics "t1" Demo.judged_once_store = Ok (aggregates, st')
       /\ map AggregateMetrics.success_runs aggregates = [3%Z]
       /\ map AggregateMetrics.error_runs aggregates = [2%Z]
       /\ forall agg, In agg aggregates ->
            (AggregateMetrics.success_runs agg + AggregateMetrics.error_runs agg
             = AggregateMetrics.total_runs agg)%Z
            /\ AggregateMetrics.total_runs agg
               = Py.len (partition_of Demo.judged_once_results
                           (AggregateMetrics.variant_id agg) (AggregateMetrics.model_id agg)).
Proof.
  split; [reflexivity|].
  eexists _, _. split; [vm_compute; reflexivity|].
  split; [reflexivity|]. split; [reflexivity|].
  eapply (run_counts_add_up Demo.judged_once_store _ "t1"
            (Demo.test_with [] [] [] Demo.judged_once_results []));
    [reflexivity|vm_compute; reflexivity].
Defined.

(** ** Counting wins *)

Lemma sum_int_from (l : list Z) (a : Z) :
  fold_left Z.add l a = (a + Py.sum_int l)%Z.
Proof.
  unfold Py.sum_int. revert a. induction l as [|x l IH]; intros a; simpl; [lia|].
  rewrite (IH (a + x)%Z). rewrite ?(IH (0 + x)%Z), ?(IH x). lia.
Qed.

Lemma sum_int_cons (x : Z) (l : list Z) : Py.sum_int (x :: l) = (x + Py.sum_int l)%Z.
Proof. unfold Py.sum_int at 1. simpl. apply sum_int_from. Qed.

Lemma len_cons {A} (x : A) (l : list A) : Py.len (x :: l) = (1 + Py.len l)%Z.
Proof. unfold Py.len. simpl length. lia. Qed.

Lemma omap_cons {A B} (f : A -> option B) (x : A) (l : list A) :
  omap f (x :: l) = match f x with Some y => y :: omap f l | None => omap f l end.
Proof. reflexivity. Qed.

Lemma filter_cons_eq {A} (f : A -> bool) (x : A) (l : list A) :
  List.filter f (x :: l) = if f x then x :: List.filter f l else List.filter f l.
Proof. reflexivity. Qed.

Lemma wins_sum (results : list TestResult.t) :
  Py.sum_int (omap ABTestController.win_flag results) = Py.len (List.filter is_win results).
Proof.
  induction results as [|r rs IH]; [reflexivity|].
  rewrite omap_cons, filter_cons_eq. unfold ABTestController.win_flag at 1, is_win at 1.
  destruct (TestResult.comparison_winner r) as [[|]|];
    rewrite ?sum_int_cons, ?len_cons, IH; lia.
Qed.

Lemma wins_len (results : list TestResult.t) :
  Py.len (omap ABTestController.win_flag results) = Py.len (List.filter is_judged results).
Proof.
  induction results as [|r rs IH]; [reflexivity|].
  rewrite omap_cons, filter_cons_eq. unfold ABTestController.win_flag at 1, is_judged at 1.
  destruct (TestResult.comparison_winner r) as [[|]|];
    rewrite ?len_cons, ?IH; reflexivity.
Qed.

(** ** Claim C3 *)

(** C3. For every stored test, whenever [aggregate_metrics] returns, in
    every entry it produces [win_rate] is the number of results of the
    partition whose [comparison_winner] is [True] divided (as Python divides
    two ints) by the number whose [comparison_winner] is present, and [None]
    when there is none, while [user_preference_rate] is the same numerator
    divided by [total_runs], the size of the whole partition.  With one
    judged win among one judged result among five runs, [win_rate] is [1.0]
    and [user_preference_rate] is [0.2]. *)
Theorem win_rate_and_preference_rate (st st' : Storage.t) (test_id : string)
    (test : ABTest.t) (aggregates : list AggregateMetrics.t) :
  Storage.tests st !! test_id = Some test ->
  ABTestController.aggregate_metrics test_id st = Ok (aggregates, st') ->
  forall agg, In agg aggregates ->
    let part := partition_of (ABTest.results test)
                  (AggregateMetrics.variant_id agg) (AggregateMetrics.model_id agg) in
    let wins := Py.len (List.filter is_win part) in
    let judged := Py.len (List.filter is_judged part) in
    AggregateMetrics.total_runs agg = Py.len part
    /\ match AggregateMetrics.win_rate agg with
       | None => judged = 0%Z
       | Some rate => judged <> 0%Z /\ Float64.int_truediv wins judged = Ok rate
       end
    /\ (exists rate,
          AggregateMetrics.user_preference_rate agg = Some rate
          /\ Float64.int_truediv wins (AggregateMetrics.total_runs agg) = Ok rate)
    /\ (AggregateMetrics.total_runs agg = 5%Z -> judged = 1%Z -> wins = 1%Z ->
        AggregateMetrics.win_rate agg = Some (Float64.lit 10 1)
        /\ AggregateMetrics.user_preference_rate agg = Some (Float64.lit 2 1)).
Proof.
  intros Hget Hrun.
  destruct (aggregate_metrics_run _ _ _ _ _ Hget Hrun) as [_ HF].
  intros agg Hin part wins judged.
  destruct (produced_entry _ _ _ HF Hin) as [Hne Hagg]. fold part in Hne, Hagg.
  destruct (aggregate_group_inv _ _ _ _ Hagg)
    as (_ & _ & Htot & _ & _ & _ & _ & _ & _ & _ & Hwin & Hpref & _).
  rewrite wins_sum, wins_len in Hwin. rewrite wins_sum in Hpref.
  fold wins judged in Hwin, Hpref.
  assert (Hwin' : match AggregateMetrics.win_rate agg with
                  | None => judged = 0%Z
                  | Some rate => judged <> 0%Z /\ Float64.int_truediv wins judged = Ok rate
                  end).
  { destruct (AggregateMetrics.win_rate agg) as [rate|].
    - destruct Hwin as [Hw Hdiv]. split; [|exact Hdiv].
      pose proof (len_pos _ Hw) as Hpos. rewrite wins_len in Hpos. fold judged in Hpos. lia.
    - unfold judged. rewrite <- wins_len, Hwin. reflexivity. }
  assert (Hpref' : exists rate,
             AggregateMetrics.user_preference_rate agg = Some rate
             /\ Float64.int_truediv wins (AggregateMetrics.total_runs agg) = Ok rate).
  { destruct (AggregateMetrics.user_preference_rate agg) as [rate|]; [|contradiction].
    destruct Hpref as [_ Hdiv]. exists rate. rewrite Htot. split; [reflexivity|exact Hdiv]. }
  split; [assumption|]. split; [assumption|]. split; [assumption|].
  intros H5 Hj Hw. destruct Hpref' as (rate & -> & Hdiv).
  rewrite H5, Hw in Hdiv. rewrite Hj, Hw in Hwin'.
  destruct (AggregateMetrics.win_rate agg) as [w|]; [|discriminate Hwin'].
  destruct Hwin' as [_ Hw1].
  assert (H11 : Float64.int_truediv 1 1 = Ok (Float64.lit 10 1)) by (vm_compute; reflexivity).
  assert (H15 : Float64.int_truediv 1 5 = Ok (Float64.lit 2 1)) by (vm_compute; reflexivity).
  rewrite H11 in Hw1. rewrite H15 in Hdiv.
  apply Ok_inj in Hw1, Hdiv. subst. split; reflexivity.
Qed.

(** The five-run example: one entry, one judged win among one judged
    result, [win_rate = 1.0] and [user_preference_rate = 0.2]. *)
Lemma win_rate_and_preference_rate_witness :
  Storage.tests Demo.judged_once_store !! "t1"%string
  = Some (Demo.test_with [] [] [] Demo.judged_once_results [])
  /\ exists aggregates st',
       ABTestController.aggregate_metrics "t1" Demo.judged_once_store = Ok (aggregates, st')
       /\ map AggregateMetrics.win_rate aggregates = [Some (Float64.lit 10 1)]
       /\ map AggregateMetrics.user_preference_rate aggregates = [Some (Float64.lit 2 1)]
       /\ forall agg, In agg aggregates ->
            let part := partition_of Demo.judged_once_results
                          (AggregateMetrics.variant_id agg) (AggregateMetrics.model_id agg) in
            let wins := Py.len (List.filter is_win part) in
            let judged := Py.len (List.filter is_judged part) in
            AggregateMetrics.total_runs agg = Py.len part
            /\ match AggregateMetrics.win_rate agg with
               | None => judged = 0%Z
               | Some rate => judged <> 0%Z /\ Float64.int_truediv wins judged = Ok rate
               end
            /\ (exists rate,
                  AggregateMetrics.user_preference_rate agg = Some rate
                  /\ Float64.int_truediv wins (AggregateMetrics.total_runs agg) = Ok rate)
            /\ (AggregateMetrics.total_runs agg = 5%Z -> judged = 1%Z -> wins = 1%Z ->
                AggregateMetrics.win_rate agg = Some (Float64.lit 10 1)
                /\ AggregateMetrics.user_preference_rate agg = Some (Float64.lit 2 1)).
Proof.
  split; [reflexivity|].
  eexists _, _. split; [vm_compute; reflexivity|].
  split; [vm_compute; reflexivity|]. split; [vm_compute; reflexivity|].
  eapply (win_rate_and_preference_rate Demo.judged_once_store _ "t1"
            (Demo.test_with [] [] [] Demo.judged_once_results []));
    [reflexivity|vm_compute; reflexivity].
Defined.

(** The five-run example evaluated: one entry, [win_rate = 1.0],
    [user_preference_rate = 0.2], where [0.2] is the binary64 value
    [0x1.999999999999ap-3]. *)
Example judged_once_rates :
  exists agg st',
    ABTestController.aggregate_metrics "t1" Demo.judged_once_store = Ok ([agg], st')
    /\ AggregateMetrics.total_runs agg = 5%Z
    /\ AggregateMetrics.win_rate agg = Some (Float64.lit 10 1)
    /\ AggregateMetrics.user_preference_rate agg = Some (Float64.lit 2 1)
    /\ Float64.lit 2 1 = S754_finite false 7205759403792794 (-55).
Proof.
  eexists _, _. split; [vm_compute; reflexivity|].
  repeat split; vm_compute; reflexivity.
Qed.

(** ** Claim C10 *)

(** C10. For every stored test, whenever [aggregate_metrics] returns, every
    entry it produces summarizes a non-empty partition: [total_runs >= 1],
    and its [user_preference_rate] is not [None]. *)
Theorem entries_are_nonempty (st st' : Storage.t) (test_id : string) (test : ABTest.t)
    (aggregates : list AggregateMetrics.t) :
  Storage.tests st !! test_id = Some test ->
  ABTestController.aggregate_metrics test_id st = Ok (aggregates, st') ->
  forall agg, In agg aggregates ->
    partition_of (ABTest.results test)
      (AggregateMetrics.variant_id agg) (AggregateMetrics.model_id agg) <> []
    /\ (1 <= AggregateMetrics.total_runs agg)%Z
    /\ AggregateMetrics.user_preference_rate agg <> None.
Proof.
  intros Hget Hrun.
  destruct (aggregate_metrics_run _ _ _ _ _ Hget Hrun) as [_ HF].
  intros agg Hin.
  destruct (produced_entry _ _ _ HF Hin) as [Hne Hagg].
  destruct (aggregate_group_inv _ _ _ _ Hagg)
    as (_ & _ & Htot & _ & _ & _ & _ & _ & _ & _ & _ & Hpref & _).
  split; [assumption|]. split.
  - rewrite Htot. pose proof (len_pos _ Hne). lia.
  - destruct (AggregateMetrics.user_preference_rate agg); [discriminate|contradiction].
Qed.

(** At the three-run scenario the only entry has [total_runs = 3] and a
    [user_preference_rate], while [win_rate], [avg_user_rating] and
    [avg_auto_score] are all [None]. *)
Lemma entries_are_nonempty_witness :
  Storage.tests Demo.scenario_store !! "t1"%string = Some Demo.scenario_test
  /\ exists aggregates st',
       ABTestController.aggregate_metrics "t1" Demo.scenario_store = Ok (aggregates, st')
       /\ map AggregateMetrics.total_runs aggregates = [3%Z]
       /\ map AggregateMetrics.win_rate aggregates = [None]
       /\ map AggregateMetrics.avg_user_rating aggregates = [None]
       /\ map AggregateMetrics.avg_auto_score aggregates = [None]
       /\ forall agg, In agg aggregates ->
            partition_of (ABTest.results Demo.scenario_test)
              (AggregateMetrics.variant_id agg) (AggregateMetrics.model_id agg) <> []
            /\ (1 <= AggregateMetrics.total_runs agg)%Z
            /\ AggregateMetrics.user_preference_rate agg <> None.
Proof.
  split; [reflexivity|].
  eexists _, _. split; [vm_compute; reflexivity|].
  do 4 (split; [reflexivity|]).
  eapply (entries_are_nonempty Demo.scenario_store _ "t1" Demo.scenario_test);
    [reflexivity|vm_compute; reflexivity].
Defined.

(** ** When the loop body raises

    Every division of the loop body has a non-empty list behind its
    divisor, every index is in range and [int] is applied to a finite
    product, so the only exception left is the [OverflowError] of an int
    division, which needs an operand of magnitude [2^53] or more. *)

Lemma filter_len_le {A} (f : A -> bool) (l : list A) :
  (Py.len (List.filter f l) <= Py.len l)%Z.
Proof.
  pose proof (filter_split_len f l).
  pose proof (len_nonneg (List.filter (fun x => negb (f x)) l)). lia.
Qed.

Lemma len_map {A B} (f : A -> B) (l : list A) : Py.len (map f l) = Py.len l.
Proof. unfold Py.len. now rewrite length_map. Qed.

Lemma mean_raises (l : list Z) (a b : Z) (e : exn) :
  match l with
  | [] => Ok Float64.zero
  | _ => Float64.int_truediv a b
  end = Raise e ->
  l <> [] /\ Float64.int_truediv a b = Raise e.
Proof. destruct l; [discriminate|]. intros H. split; [discriminate|exact H]. Qed.

Lemma ratio_raises {A} (l : list A) (a b : Z) (e : exn) :
  match l with
  | [] => Ok None
  | _ => rbind (Float64.int_truediv a b) (fun v => Ok (Some v))
  end = Raise e ->
  l <> [] /\ Float64.int_truediv a b = Raise e.
Proof.
  destruct l; [discriminate|]. destruct (Float64.int_truediv a b); cbn [rbind];
    [discriminate|]. intros [= <-]. split; [discriminate|reflexivity].
Qed.

Lemma aggregate_group_raises (variant_id model_id : string) (results : list TestResult.t)
    (e : exn) :
  ABTestController.aggregate_group variant_id model_id results = Raise e ->
  e = OverflowError
  /\ (2 ^ 53 <= Z.abs (Py.sum_int (map TestResult.total_tokens
                                     (List.filter ABTestController.is_success results)))
      \/ 2 ^ 53 <= Py.len results)%Z.
Proof.
  unfold ABTestController.aggregate_group. rewrite !mean_or_spec. cbn [rbind].
  destruct (median_or_zero_total
              (map TestResult.generation_time_ms
                 (List.filter ABTestController.is_success results))) as [p50 ->].
  cbn [rbind].
  destruct (percentile_95_spec
              (map TestResult.generation_time_ms
                 (List.filter ABTestController.is_success results))) as (p95 & -> & _).
  cbn [rbind].
  destruct (percentile_99_spec
              (map TestResult.generation_time_ms
                 (List.filter ABTestController.is_success results))) as (p99 & -> & _).
  cbn [rbind].
  pose proof (filter_len_le ABTestController.is_success results) as Hok.
  pose proof (filter_len_le is_win results) as Hwins.
  pose proof (filter_len_le is_judged results) as Hjudged.
  pose proof (len_nonneg (List.filter is_win results)) as Hwins0.
  pose proof (len_nonneg (List.filter is_judged results)) as Hjudged0.
  pose proof (len_nonneg (List.filter ABTestController.is_success results)) as Hok0.
  destruct (match map TestResult.total_tokens _ with
            | [] => Ok Float64.zero | _ => Float64.int_truediv _ _ end)
    as [avg_tokens|e1] eqn:Htok; cbn [rbind].
  - destruct (match omap ABTestController.win_flag results with
              | [] => Ok None | _ => rbind _ _ end) as [win_rate|e2] eqn:Hwin; cbn [rbind].
    + destruct (match results with
                | [] => Ok None | _ => rbind _ _ end) as [pref|e3] eqn:Hpref; cbn [rbind];
        [discriminate|].
      intros [= <-]. apply ratio_raises in Hpref as [Hne Hdiv].
      apply int_truediv_raises in Hdiv as [-> Hbig];
        [|pose proof (len_pos _ Hne); lia].
      split; [reflexivity|]. right. rewrite wins_sum in Hbig. lia.
    + intros [= <-]. apply ratio_raises in Hwin as [Hne Hdiv].
      apply int_truediv_raises in Hdiv as [-> Hbig];
        [|pose proof (len_pos _ Hne); lia].
      split; [reflexivity|]. right. rewrite wins_sum, wins_len in Hbig. lia.
  - intros [= <-]. apply mean_raises in Htok as [Hne Hdiv].
    apply int_truediv_raises in Hdiv as [-> Hbig];
      [|pose proof (len_pos _ Hne); lia].
    split; [reflexivity|]. rewrite len_map in Hbig. lia.
Qed.

(** With fewer than [2^53] results and a token sum below [2^53] in
    magnitude the loop body returns. *)
Lemma aggregate_group_returns (variant_id model_id : string) (results : list TestResult.t) :
  (Py.len results < 2 ^ 53)%Z ->
  (Z.abs (Py.sum_int (map TestResult.total_tokens
                        (List.filter ABTestController.is_success results))) < 2 ^ 53)%Z ->
  exists agg, ABTestController.aggregate_group variant_id model_id results = Ok agg.
Proof.
  intros Hlen Htok.
  destruct (ABTestController.aggregate_group variant_id model_id results) as [agg|e] eqn:H;
    [eauto|].
  apply aggregate_group_raises in H as [_ [?|?]]; lia.
Qed.

(** ** Claim C5 *)

(** C5, negated at the scenario.  A test configured for (v1, m1) and
    (v1, m2) with three successful results for (v1, m1) and none for
    (v1, m2) does not aggregate to two entries one of which is a (v1, m2)
    entry with [total_runs = 0]: the only entry is the one of (v1, m1). *)
Lemma scenario_has_no_empty_entry :
  ~ (exists aggregates st',
       ABTestController.aggregate_metrics "t1" Demo.scenario_store = Ok (aggregates, st')
       /\ length aggregates = 2%nat
       /\ exists agg, In agg aggregates
                      /\ entry_key agg = ("v1"%string, "m2"%string)
                      /\ AggregateMetrics.total_runs agg = 0%Z).
Proof.
  intros (aggs & st' & Hrun & Hlen & _).
  assert (Hval : exists agg st0,
            ABTestController.aggregate_metrics "t1" Demo.scenario_store = Ok ([agg], st0))
    by (eexists _, _; vm_compute; reflexivity).
  destruct Hval as (agg & st0 & Hval).
  rewrite Hval in Hrun. injection Hrun as <- _. discriminate Hlen.
Qed.

(** C5, amended.  For every stored test, whenever [aggregate_metrics]
    returns, it returns one entry for each (variant_id, model_id) pair that
    occurs among the test's results and no entry for any other pair: the
    pairs of the entries are distinct, a pair has an entry exactly when its
    partition of the results is not empty, and the entry's [total_runs] is
    the size of that partition. *)
Theorem one_entry_per_observed_pair (st st' : Storage.t) (test_id : string)
    (test : ABTest.t) (aggregates : list AggregateMetrics.t) :
  Storage.tests st !! test_id = Some test ->
  ABTestController.aggregate_metrics test_id st = Ok (aggregates, st') ->
  NoDup (map entry_key aggregates)
  /\ (forall variant_id model_id,
        In (variant_id, model_id) (map entry_key aggregates)
        <-> partition_of (ABTest.results test) variant_id model_id <> [])
  /\ (forall agg, In agg aggregates ->
        AggregateMetrics.total_runs agg
        = Py.len (partition_of (ABTest.results test)
                    (AggregateMetrics.variant_id agg) (AggregateMetrics.model_id agg))).
Proof.
  intros Hget Hrun.
  destruct (aggregate_metrics_run _ _ _ _ _ Hget Hrun) as [_ HF].
  destruct (grouping_spec ABTestController.pair_key (ABTest.results test))
    as (Hnd & _ & Hcov).
  fold (ABTestController.group_results (ABTest.results test)) in Hnd, Hcov.
  rewrite (produced_keys _ _ HF). split; [assumption|]. split.
  - intros v m. split.
    + rewrite <- (produced_keys _ _ HF). intros Hin.
      apply in_map_iff in Hin as (agg & Hkey & Hin).
      destruct (produced_entry _ _ _ HF Hin) as [Hne _].
      unfold entry_key in Hkey. inversion Hkey; subst. assumption.
    + intros Hne. destruct (partition_of (ABTest.results test) v m) as [|r rs] eqn:Hp;
        [congruence|].
      assert (Hr : In r (partition_of (ABTest.results test) v m))
        by (rewrite Hp; left; reflexivity).
      apply filter_In in Hr as [Hr Hk]. apply bool_decide_eq_true_1 in Hk.
      rewrite <- Hk. apply Hcov. assumption.
  - intros agg Hin.
    destruct (produced_entry _ _ _ HF Hin) as [_ Hagg].
    now destruct (aggregate_group_inv _ _ _ _ Hagg) as (_ & _ & Htot & _).
Qed.

(** The scenario: three successful results for (v1, m1) and none for the
    configured pair (v1, m2) give one entry, the (v1, m1) entry with
    [total_runs = 3], and no (v1, m2) entry. *)
Lemma one_entry_per_observed_pair_witness :
  Storage.tests Demo.scenario_store !! "t1"%string = Some Demo.scenario_test
  /\ exists aggregates st',
       ABTestController.aggregate_metrics "t1" Demo.scenario_store = Ok (aggregates, st')
       /\ map entry_key aggregates = [("v1"%string, "m1"%string)]
       /\ map AggregateMetrics.total_runs aggregates = [3%Z]
       /\ ~ In ("v1"%string, "m2"%string) (map entry_key aggregates)
       /\ partition_of (ABTest.results Demo.scenario_test) "v1" "m2" = []
       /\ NoDup (map entry_key aggregates)
       /\ (forall variant_id model_id,
             In (variant_id, model_id) (map entry_key aggregates)
             <-> partition_of (ABTest.results Demo.scenario_test) variant_id model_id <> [])
       /\ (forall agg, In agg aggregates ->
             AggregateMetrics.total_runs agg
             = Py.len (partition_of (ABTest.results Demo.scenario_test)
                         (AggregateMetrics.variant_id agg) (AggregateMetrics.model_id agg))).
Proof.
  split; [reflexivity|].
  eexists _, _. split; [vm_compute; reflexivity|].
  split; [reflexivity|]. split; [reflexivity|].
  split; [intros [H|[]]; discriminate H|]. split; [reflexivity|].
  eapply (one_entry_per_observed_pair Demo.scenario_store _ "t1" Demo.scenario_test);
    [reflexivity|vm_compute; reflexivity].
Defined.

(** The scenario evaluated: exactly one entry, for (v1, m1), with
    [total_runs = 3], mean [200.0] and median [200.0]. *)
Example scenario_entry :
  exists agg st',
    ABTestController.aggregate_metrics "t1" Demo.scenario_store = Ok ([agg], st')
    /\ entry_key agg = ("v1"%string, "m1"%string)
    /\ AggregateMetrics.total_runs agg = 3%Z
    /\ AggregateMetrics.avg_generation_time_ms agg = Float64.of_int 200
    /\ AggregateMetrics.p50_generation_time_ms agg = Float64.of_int 200.
Proof.
  eexists _, _. split; [vm_compute; reflexivity|].
  repeat split; vm_compute; reflexivity.
Qed.

(** The loop body applied to an empty group would return the all-zero
    entry, but [groups] never holds an empty group. *)
Example aggregate_group_of_no_result (variant_id model_id : string) :
  ABTestController.aggregate_group variant_id model_id []
  = Ok (AggregateMetrics.mk variant_id model_id 0 0 0
          Float64.zero Float64.zero Float64.zero Float64.zero
          0 Float64.zero Float64.zero Float64.zero None None None None).
Proof. reflexivity. Qed.

(** ** Claim C6 *)

(** C6, negated at the scenario.  It is not the case that
    [aggregate_metrics] leaves the stored Test record as it was: the record
    under "t1" had no aggregates before the call and holds the computed
    list after it. *)
Lemma aggregation_persists_its_result :
  ~ (forall aggregates st',
       ABTestController.aggregate_metrics "t1" Demo.scenario_store = Ok (aggregates, st')
       -> Storage.tests st' !! "t1"%string = Storage.tests Demo.scenario_store !! "t1"%string).
Proof.
  intros Hframe.
  assert (Hval : exists agg st0,
            ABTestController.aggregate_metrics "t1" Demo.scenario_store = Ok ([agg], st0))
    by (eexists _, _; vm_compute; reflexivity).
  destruct Hval as (agg & st0 & Hrun).
  specialize (Hframe _ _ Hrun).
  destruct (aggregate_metrics_run Demo.scenario_store st0 "t1" Demo.scenario_test [agg]
              eq_refl Hrun) as [-> _].
  unfold with_aggregates in Hframe. cbn [Storage.tests] in Hframe.
  rewrite lookup_insert_eq in Hframe.
  change (Storage.tests Demo.scenario_store !! "t1"%string) with (Some Demo.scenario_test)
    in Hframe.
  apply (f_equal (fun o => match o with
                           | Some t => ABTest.aggregate_metrics t
                           | None => []
                           end)) in Hframe.
  discriminate Hframe.
Qed.

(** C6, amended.  For every stored test, whenever [aggregate_metrics]
    returns, it returns the computed list and has had exactly one effect on
    the storage: the Test record is saved under its [test_id] with
    [aggregate_metrics] replaced by the returned list and every other field
    as it was.  All other Test records, the comparison pairs and the reports
    are left as they were. *)
Theorem aggregation_saves_only_the_test (st st' : Storage.t) (test_id : string)
    (test : ABTest.t) (aggregates : list AggregateMetrics.t) :
  Storage.tests st !! test_id = Some test ->
  ABTestController.aggregate_metrics test_id st = Ok (aggregates, st') ->
  Storage.tests st' !! ABTest.test_id test
  = Some (ABTest.set_aggregate_metrics test aggregates)
  /\ ABTest.aggregate_metrics (ABTest.set_aggregate_metrics test aggregates) = aggregates
  /\ ABTest.results (ABTest.set_aggregate_metrics test aggregates) = ABTest.results test
  /\ ABTest.status (ABTest.set_aggregate_metrics test aggregates) = ABTest.status test
  /\ (forall other, other <> ABTest.test_id test ->
        Storage.tests st' !! other = Storage.tests st !! other)
  /\ Storage.comparison_pairs st' = Storage.comparison_pairs st
  /\ Storage.reports st' = Storage.reports st.
Proof.
  intros Hget Hrun.
  destruct (aggregate_metrics_run _ _ _ _ _ Hget Hrun) as [-> _].
  unfold with_aggregates; simpl.
  split; [apply lookup_insert_eq|].
  repeat split; try reflexivity.
  intros other Hother. apply lookup_insert_ne. congruence.
Qed.

Lemma aggregation_saves_only_the_test_witness :
  Storage.tests Demo.scenario_store !! "t1"%string = Some Demo.scenario_test
  /\ exists aggregates st',
       ABTestController.aggregate_metrics "t1" Demo.scenario_store = Ok (aggregates, st')
       /\ Storage.tests st' !! ABTest.test_id Demo.scenario_test
          = Some (ABTest.set_aggregate_metrics Demo.scenario_test aggregates)
       /\ ABTest.aggregate_metrics (ABTest.set_aggregate_metrics Demo.scenario_test aggregates)
          = aggregates
       /\ ABTest.results (ABTest.set_aggregate_metrics Demo.scenario_test aggregates)
          = ABTest.results Demo.scenario_test
       /\ ABTest.status (ABTest.set_aggregate_metrics Demo.scenario_test aggregates)
          = ABTest.status Demo.scenario_test
       /\ (forall other, other <> ABTest.test_id Demo.scenario_test ->
             Storage.tests st' !! other = Storage.tests Demo.scenario_store !! other)
       /\ Storage.comparison_pairs st' = Storage.comparison_pairs Demo.scenario_store
       /\ Storage.reports st' = Storage.reports Demo.scenario_store.
Proof.
  split; [reflexivity|].
  eexists _, _. split; [vm_compute; reflexivity|].
  eapply (aggregation_saves_only_the_test Demo.scenario_store _ "t1" Demo.scenario_test);
    [reflexivity|vm_compute; reflexivity].
Defined.

(** ** Total preorders given by a comparison function *)

Section CmpOk.
Context {A : Type} (cmp : A -> A -> comparison) (good : A -> Prop).
Hypothesis ok : cmp_ok cmp good.

Lemma cmp_refl a : good a -> cmp a a = Eq.
Proof.
  intros Ha. pose proof (cmp_opp _ _ ok a a Ha Ha) as H.
  destruct (cmp a a); simpl in H; congruence.
Qed.

Lemma cmp_eq_r a b c :
  good a -> good b -> good c -> cmp b c = Eq -> cmp a b = cmp a c.
Proof.
  intros Ha Hb Hc Hbc.
  assert (Hcb : cmp c b = Eq) by (rewrite (cmp_opp _ _ ok b c), Hbc; auto).
  pose proof (cmp_eq_l _ _ ok c b a Hc Hb Ha Hcb) as H.
  rewrite (cmp_opp _ _ ok b a), (cmp_opp _ _ ok c a), H; auto.
Qed.

(** [a <= b] and [b <= c] give [a <= c], where [x <= y] is [cmp x y <> Gt]. *)
Lemma cmp_le_trans a b c :
  good a -> good b -> good c -> cmp a b <> Gt -> cmp b c <> Gt -> cmp a c <> Gt.
Proof.
  intros Ha Hb Hc Hab Hbc.
  destruct (cmp a b) eqn:Eab; [| |congruence].
  - rewrite (cmp_eq_l _ _ ok a b c) by assumption. assumption.
  - destruct (cmp b c) eqn:Ebc; [| |congruence].
    + rewrite <- (cmp_eq_r a b c) by assumption. congruence.
    + rewrite (cmp_lt_trans _ _ ok a b c) by assumption. discriminate.
Qed.
End CmpOk.

Lemma cmp_ok_lex {A B : Type} (cA : A -> A -> comparison) (cB : B -> B -> comparison)
    (gA : A -> Prop) (gB : B -> Prop) :
  cmp_ok cA gA -> cmp_ok cB gB ->
  cmp_ok (lex cA cB) (fun p => gA (fst p) /\ gB (snd p)).
Proof.
  intros okA okB. split; unfold lex.
  - intros [a1 a2] [b1 b2] [Ha1 Ha2] [Hb1 Hb2]; simpl in *.
    rewrite (cmp_opp _ _ okA a1 b1), (cmp_opp _ _ okB a2 b2) by assumption.
    destruct (cA a1 b1); reflexivity.
  - intros [a1 a2] [b1 b2] [c1 c2] [Ha1 Ha2] [Hb1 Hb2] [Hc1 Hc2]; simpl in *.
    destruct (cA a1 b1) eqn:E1; try discriminate. intros E2.
    rewrite (cmp_eq_l _ _ okA a1 b1 c1), (cmp_eq_l _ _ okB a2 b2 c2) by assumption.
    reflexivity.
  - intros [a1 a2] [b1 b2] [c1 c2] [Ha1 Ha2] [Hb1 Hb2] [Hc1 Hc2]; simpl in *.
    destruct (cA a1 b1) eqn:E1; try discriminate;
      destruct (cA b1 c1) eqn:E2; try discriminate; intros H1 H2.
    + rewrite (cmp_eq_l _ _ okA a1 b1 c1), E2 by assumption.
      apply (cmp_lt_trans _ _ okB a2 b2 c2); assumption.
    + now rewrite (cmp_eq_l _ _ okA a1 b1 c1), E2 by assumption.
    + now rewrite <- (cmp_eq_r cA gA okA a1 b1 c1), E1 by assumption.
    + now rewrite (cmp_lt_trans _ _ okA a1 b1 c1) by assumption.
Qed.

Lemma cmp_ok_pull {A B : Type} (f : A -> B) (cB : B -> B -> comparison) (gB : B -> Prop) :
  cmp_ok cB gB -> cmp_ok (fun x y => cB (f x) (f y)) (fun x => gB (f x)).
Proof.
  intros okB. split; intros.
  - apply (cmp_opp _ _ okB); assumption.
  - apply (cmp_eq_l _ _ okB (f a) (f b)); assumption.
  - apply (cmp_lt_trans _ _ okB (f a) (f b)); assumption.
Qed.

Lemma cmp_ok_ext {A : Type} (c c' : A -> A -> comparison) (good good' : A -> Prop) :
  cmp_ok c good ->
  (forall a, good' a -> good a) ->
  (forall a b, good' a -> good' b -> c' a b = c a b) ->
  cmp_ok c' good'.
Proof.
  intros okc Hg Hc. split; intros.
  - rewrite !Hc by assumption. apply (cmp_opp _ _ okc); auto.
  - rewrite !Hc by assumption. rewrite Hc in * by assumption.
    apply (cmp_eq_l _ _ okc a b); auto.
  - rewrite !Hc by assumption. rewrite !Hc in * by assumption.
    apply (cmp_lt_trans _ _ okc a b); auto.
Qed.

Lemma cmp_ok_Z : cmp_ok Z.compare (fun _ => True).
Proof.
  split.
  - intros a b _ _. apply Z.compare_antisym.
  - intros a b c _ _ _ H. apply Z.compare_eq in H. now subst.
  - intros a b c _ _ _ H1 H2. rewrite Z.compare_lt_iff in *. lia.
Qed.

Lemma cmp_ok_rank : cmp_ok rank_cmp (fun _ => True).
Proof.
  unfold rank_cmp.
  eapply cmp_ok_ext.
  - apply (cmp_ok_lex _ _ _ _ cmp_ok_Z (cmp_ok_lex _ _ _ _ cmp_ok_Z cmp_ok_Z)).
  - simpl. auto.
  - reflexivity.
Qed.

(** ** The order of binary64 values that are not NaN *)

Lemma SFcompare_not_nan (a b : float) :
  not_nan a -> not_nan b -> SFcompare a b = Some (fcmp a b).
Proof.
  unfold not_nan, fcmp.
  destruct a as [| | |sa ma ea], b as [| | |sb mb eb]; simpl; try discriminate;
    intros _ _; try reflexivity.
Qed.

Lemma fcmp_rank (a b : float) :
  not_nan a -> not_nan b -> fcmp a b = rank_cmp (frank a) (frank b).
Proof.
  unfold not_nan, fcmp, rank_cmp, lex.
  destruct a as [sa|[|]| |[|] ma ea], b as [sb|[|]| |[|] mb eb]; simpl;
    try discriminate; intros _ _; try reflexivity.
  rewrite Z.compare_opp, (Z.compare_antisym ea eb).
  destruct (ea ?= eb)%Z; reflexivity.
Qed.

Lemma cmp_ok_float : cmp_ok fcmp not_nan.
Proof.
  apply (cmp_ok_ext (fun x y => rank_cmp (frank x) (frank y)) fcmp (fun _ => True) not_nan).
  - exact (cmp_ok_pull frank rank_cmp (fun _ => True) cmp_ok_rank).
  - auto.
  - intros a b Ha Hb. apply fcmp_rank; assumption.
Qed.

Lemma lt_fcmp (a b : float) :
  not_nan a -> not_nan b -> Float64.lt a b = true <-> fcmp a b = Lt.
Proof.
  intros Ha Hb. unfold Float64.lt, SFltb. rewrite SFcompare_not_nan by assumption.
  destruct (fcmp a b); split; congruence.
Qed.

Lemma eq_fcmp (a b : float) :
  not_nan a -> not_nan b -> Float64.eq a b = true <-> fcmp a b = Eq.
Proof.
  intros Ha Hb. unfold Float64.eq, SFeqb. rewrite SFcompare_not_nan by assumption.
  destruct (fcmp a b); split; congruence.
Qed.

Lemma le_fcmp (a b : float) :
  not_nan a -> not_nan b -> Float64.le a b = true <-> fcmp a b <> Gt.
Proof.
  intros Ha Hb. unfold Float64.le, SFleb. rewrite SFcompare_not_nan by assumption.
  destruct (fcmp a b); split; congruence.
Qed.

Lemma cmp_ok_key : cmp_ok key_cmp key_ok.
Proof.
  unfold key_cmp.
  eapply cmp_ok_ext.
  - apply (cmp_ok_lex _ _ _ _
             (cmp_ok_lex _ _ _ _ (cmp_ok_lex _ _ _ _ cmp_ok_float cmp_ok_float) cmp_ok_float)
             cmp_ok_float).
  - unfold key_ok. simpl. tauto.
  - reflexivity.
Qed.

Lemma tuple_lt_key_cmp (a b : float * float * float * float) :
  key_ok a -> key_ok b -> ABTestController.tuple_lt a b = true <-> key_cmp a b = Lt.
Proof.
  destruct a as [[[a1 a2] a3] a4], b as [[[b1 b2] b3] b4].
  unfold key_ok, key_cmp, lex, ABTestController.tuple_lt. simpl.
  intros [[[Ha1 Ha2] Ha3] Ha4] [[[Hb1 Hb2] Hb3] Hb4].
  pose proof (eq_fcmp a1 b1 Ha1 Hb1) as E1. pose proof (lt_fcmp a1 b1 Ha1 Hb1) as L1.
  pose proof (eq_fcmp a2 b2 Ha2 Hb2) as E2. pose proof (lt_fcmp a2 b2 Ha2 Hb2) as L2.
  pose proof (eq_fcmp a3 b3 Ha3 Hb3) as E3. pose proof (lt_fcmp a3 b3 Ha3 Hb3) as L3.
  pose proof (eq_fcmp a4 b4 Ha4 Hb4) as E4. pose proof (lt_fcmp a4 b4 Ha4 Hb4) as L4.
  destruct (Float64.eq a1 b1), (fcmp a1 b1); simpl;
    try (destruct E1 as [E1 E1']; (specialize (E1 eq_refl) || specialize (E1' eq_refl));
         discriminate);
    try exact L1.
  destruct (Float64.eq a2 b2), (fcmp a2 b2); simpl;
    try (destruct E2 as [E2 E2']; (specialize (E2 eq_refl) || specialize (E2' eq_refl));
         discriminate);
    try exact L2.
  destruct (Float64.eq a3 b3), (fcmp a3 b3); simpl;
    try (destruct E3 as [E3 E3']; (specialize (E3 eq_refl) || specialize (E3' eq_refl));
         discriminate);
    try exact L3.
  destruct (Float64.eq a4 b4), (fcmp a4 b4); simpl;
    try (destruct E4 as [E4 E4']; (specialize (E4 eq_refl) || specialize (E4' eq_refl));
         discriminate);
    try exact L4.
  split; discriminate.
Qed.

(** ** The stable sort orders its input *)

Lemma StronglySorted_app_inv {A} (R : A -> A -> Prop) (l1 l2 : list A) :
  StronglySorted R (l1 ++ l2) ->
  forall x y, In x l1 -> In y l2 -> R x y.
Proof.
  induction l1 as [|a l1 IH]; simpl; intros Hs x y Hx Hy; [contradiction|].
  apply StronglySorted_inv in Hs as [Hs Ha].
  destruct Hx as [->|Hx].
  - rewrite List.Forall_forall in Ha. apply Ha. apply in_or_app. auto.
  - eapply IH; eauto.
Qed.

Lemma StronglySorted_nth {A} (R : A -> A -> Prop) (l : list A) (i j : nat) (x y : A) :
  StronglySorted R l -> (i < j)%nat ->
  nth_error l i = Some x -> nth_error l j = Some y -> R x y.
Proof.
  intros Hs. revert i j. induction Hs as [|a l Hs IH Ha]; intros i j Hij Hi Hj.
  - destruct i; discriminate.
  - destruct j as [|j]; [lia|]. simpl in Hj. destruct i as [|i]; simpl in Hi.
    + inversion Hi; subst. rewrite List.Forall_forall in Ha. apply Ha.
      eapply nth_error_In; eauto.
    + apply (IH i j); [lia|assumption|assumption].
Qed.

Section Sorting.
Context {A : Type} (cmp : A -> A -> comparison) (good : A -> Prop).
Context (ltb : A -> A -> bool).
Hypothesis ok : cmp_ok cmp good.
Hypothesis ltb_cmp : forall a b, good a -> good b -> ltb a b = true <-> cmp a b = Lt.

Let le (a b : A) : Prop := cmp a b <> Gt.

Lemma insert_sorted (x : A) (l : list A) :
  good x -> Forall good l -> StronglySorted le l -> StronglySorted le (Py.insert ltb x l).
Proof.
  intros Hx Hl Hs. induction Hs as [|y l Hs IH Hy]; simpl.
  - repeat constructor.
  - apply Forall_cons_iff in Hl as [Hgy Hl].
    destruct (ltb y x) eqn:Hlt.
    + constructor; [auto|].
      apply (Permutation_Forall (Permutation_sym (insert_perm ltb x l))).
      constructor; [|assumption].
      apply ltb_cmp in Hlt; [|assumption|assumption]. unfold le. congruence.
    + assert (Hxy : le x y).
      { unfold le. rewrite (cmp_opp _ _ ok y x) by assumption.
        destruct (cmp y x) eqn:E; simpl; try discriminate.
        apply ltb_cmp in E; [congruence|assumption|assumption]. }
      constructor; [constructor; assumption|].
      constructor; [assumption|].
      rewrite List.Forall_forall in *. intros z Hz.
      apply (cmp_le_trans cmp good ok x y z); auto.
      apply Hy. assumption.
Qed.

Lemma sort_sorted (l : list A) :
  Forall good l -> StronglySorted le (Py.sort ltb l).
Proof.
  induction l as [|x l IH]; simpl; intros Hl; [constructor|].
  apply Forall_cons_iff in Hl as [Hx Hl].
  apply insert_sorted; [assumption| |auto].
  apply (Permutation_Forall (Permutation_sym (sort_perm ltb l))). assumption.
Qed.

(** In the sorted list an element at a lower index is at most the element
    at a higher index. *)
Lemma sort_nth_le (l : list A) (i j : nat) (x y : A) :
  Forall good l -> (i <= j)%nat ->
  nth_error (Py.sort ltb l) i = Some x -> nth_error (Py.sort ltb l) j = Some y ->
  cmp x y <> Gt.
Proof.
  intros Hl Hij Hi Hj.
  destruct (Nat.eq_dec i j) as [->|Hne].
  - rewrite Hi in Hj. inversion Hj; subst.
    rewrite (cmp_refl cmp good ok); [discriminate|].
    rewrite List.Forall_forall in Hl. apply Hl.
    apply (Permutation_in _ (sort_perm ltb l)). eapply nth_error_In; eauto.
  - apply (StronglySorted_nth le (Py.sort ltb l) i j x y);
      [apply sort_sorted; assumption|lia|assumption|assumption].
Qed.

(** The head of the list sorted in reverse is a greatest element. *)
Lemma reverse_sorted_head (l : list A) :
  Forall good l -> l <> [] ->
  exists best,
    Py.getitem (rev (Py.sort ltb (rev l))) 0 = Ok best
    /\ In best l
    /\ forall x, In x l -> cmp x best <> Gt.
Proof.
  intros Hl Hne.
  assert (Hperm : Permutation (Py.sort ltb (rev l)) l).
  { rewrite sort_perm. symmetry. apply Permutation_rev. }
  assert (Hs : StronglySorted le (Py.sort ltb (rev l))).
  { apply sort_sorted. apply (Permutation_Forall (Permutation_rev l)). assumption. }
  destruct (rev (Py.sort ltb (rev l))) as [|best tl] eqn:Hrev.
  - exfalso. apply Hne. apply Permutation_nil.
    rewrite <- Hperm. rewrite <- (rev_involutive (Py.sort ltb (rev l))), Hrev. reflexivity.
  - assert (Hsort : Py.sort ltb (rev l) = rev tl ++ [best]).
    { rewrite <- (rev_involutive (Py.sort ltb (rev l))), Hrev. reflexivity. }
    exists best. split; [reflexivity|].
    assert (Hbest : In best l).
    { apply (Permutation_in _ Hperm). rewrite Hsort. apply in_or_app. right. left. reflexivity. }
    split; [assumption|].
    intros x Hx.
    apply (Permutation_in _ (Permutation_sym Hperm)) in Hx. rewrite Hsort in Hx.
    apply in_app_or in Hx as [Hx|[<-|[]]].
    + rewrite Hsort in Hs.
      apply (StronglySorted_app_inv le _ _ Hs x best Hx). left. reflexivity.
    + rewrite (cmp_refl cmp good ok); [discriminate|].
      rewrite List.Forall_forall in Hl. auto.
Qed.
End Sorting.

(** ** Picking the winner of one variant *)

Lemma best_of_total (items : list AggregateMetrics.t) :
  items <> [] ->
  exists best, ABTestController.best_of items = Ok best /\ In best items.
Proof.
  intros Hne. unfold ABTestController.best_of.
  set (s := Py.sorted ABTestController.tuple_lt ABTestController.ranking_key true items).
  assert (Hperm : Permutation s items) by apply sorted_perm.
  destruct (getitem_nth s 0) as (best & Hbest & Hnth).
  - subst s.
    rewrite (sorted_len ABTestController.tuple_lt ABTestController.ranking_key true items).
    pose proof (len_pos items Hne). lia.
  - exists best. split; [assumption|].
    apply (Permutation_in _ Hperm). eapply nth_error_In. exact Hnth.
Qed.

Lemma best_of_maximal (items : list AggregateMetrics.t) (best : AggregateMetrics.t) :
  Forall rankable items ->
  ABTestController.best_of items = Ok best ->
  forall x, In x items ->
    ABTestController.tuple_lt (ABTestController.ranking_key best)
                              (ABTestController.ranking_key x) = false.
Proof.
  intros Hgood Hbest x Hx.
  assert (Hne : items <> []) by (destruct items; [contradiction|discriminate]).
  pose (cmp := fun a b : AggregateMetrics.t =>
                 key_cmp (ABTestController.ranking_key a) (ABTestController.ranking_key b)).
  pose (ltb := fun a b : AggregateMetrics.t =>
                 ABTestController.tuple_lt (ABTestController.ranking_key a)
                                           (ABTestController.ranking_key b)).
  assert (ok : cmp_ok cmp rankable).
  { exact (cmp_ok_pull ABTestController.ranking_key key_cmp key_ok cmp_ok_key). }
  assert (Hltb : forall a b, rankable a -> rankable b -> ltb a b = true <-> cmp a b = Lt).
  { intros a b Ha Hb. apply tuple_lt_key_cmp; assumption. }
  destruct (reverse_sorted_head cmp rankable ltb ok Hltb items Hgood Hne)
    as (best' & Hhead & Hin & Hmax).
  unfold ABTestController.best_of, Py.sorted in Hbest.
  fold ltb in Hbest. rewrite Hhead in Hbest. inversion Hbest; subst best'.
  specialize (Hmax x Hx).
  assert (Hgx : rankable x) by (rewrite List.Forall_forall in Hgood; auto).
  assert (Hgb : rankable best) by (rewrite List.Forall_forall in Hgood; auto).
  destruct (ABTestController.tuple_lt _ _) eqn:Hlt; [|reflexivity].
  apply (Hltb best x Hgb Hgx) in Hlt.
  exfalso. apply Hmax. unfold cmp in *.
  rewrite (cmp_opp _ _ cmp_ok_key _ _ Hgb Hgx), Hlt. reflexivity.
Qed.


(** ** The winner map *)

Lemma foldR_winners (d : list (string * list AggregateMetrics.t)) (w0 : gmap string string) :
  NoDup (map fst d) ->
  (forall v items, In (v, items) d -> items <> []) ->
  exists w,
    foldR (fun winner_analysis entry =>
             rbind (ABTestController.best_of (snd entry))
                   (fun best => Ok (<[fst entry := AggregateMetrics.model_id best]>
                                      winner_analysis)))
          d w0 = Ok w
    /\ (forall v items, In (v, items) d ->
          exists best, ABTestController.best_of items = Ok best
                       /\ w !! v = Some (AggregateMetrics.model_id best))
    /\ (forall v, ~ In v (map fst d) -> w !! v = w0 !! v).
Proof.
  revert w0. induction d as [|[v items] d IH]; intros w0 Hnd Hne; simpl.
  - exists w0. split; [reflexivity|]. split; [intros ? ? []|reflexivity].
  - simpl in Hnd. apply NoDup_cons in Hnd as [Hv Hnd]. rewrite list_elem_of_In in Hv.
    destruct (best_of_total items) as (best & Hbest & _); [apply (Hne v); left; reflexivity|].
    rewrite Hbest. simpl.
    destruct (IH (<[v := AggregateMetrics.model_id best]> w0) Hnd) as (w & Hw & Hent & Hout).
    { intros v' items' Hin. apply (Hne v'). right. assumption. }
    exists w. split; [assumption|]. split.
    + intros v' items' [Heq|Hin].
      * inversion Heq; subst. exists best. split; [assumption|].
        rewrite (Hout v' Hv). apply lookup_insert_eq.
      * apply Hent. assumption.
    + intros v' Hv'. rewrite Hout by tauto. apply lookup_insert_ne. tauto.
Qed.

Lemma pick_winners_spec (aggregates : list AggregateMetrics.t) :
  exists w,
    ABTestController.pick_winners (ABTestController.group_by_variant aggregates) = Ok w
    /\ (forall v, of_variant v aggregates = [] -> w !! v = None)
    /\ (forall v, of_variant v aggregates <> [] ->
          exists best, ABTestController.best_of (of_variant v aggregates) = Ok best
                       /\ In best (of_variant v aggregates)
                       /\ w !! v = Some (AggregateMetrics.model_id best)).
Proof.
  destruct (grouping_spec AggregateMetrics.variant_id aggregates) as (Hnd & Hent & Hcov).
  fold (ABTestController.group_by_variant aggregates) in Hnd, Hent, Hcov.
  destruct (foldR_winners (ABTestController.group_by_variant aggregates) ∅ Hnd)
    as (w & Hw & Hin & Hout).
  { intros v items Hi. apply (Hent v items Hi). }
  exists w. split; [exact Hw|]. split.
  - intros v Hv. rewrite Hout; [apply lookup_empty|].
    intros Hk. apply in_map_iff in Hk as ([v' items] & Hfst & Hi). simpl in Hfst. subst v'.
    destruct (Hent _ _ Hi) as [Hne Heq]. apply Hne. rewrite Heq. exact Hv.
  - intros v Hv.
    destruct (of_variant v aggregates) as [|a rest] eqn:Hov; [congruence|].
    assert (Ha : In a (of_variant v aggregates)) by (rewrite Hov; left; reflexivity).
    apply filter_In in Ha as [Ha Hva]. apply bool_decide_eq_true_1 in Hva.
    specialize (Hcov a Ha). rewrite Hva in Hcov.
    apply in_map_iff in Hcov as ([v' items] & Hfst & Hi). simpl in Hfst. subst v'.
    destruct (Hent _ _ Hi) as [_ Heq].
    destruct (Hin _ _ Hi) as (best & Hbest & Hlook).
    assert (Hitems : items = of_variant v aggregates) by exact Heq.
    rewrite Hov in Hitems. rewrite <- Hitems.
    exists best. split; [assumption|]. split; [|assumption].
    destruct (best_of_total items) as (best' & Hbest' & Hin'); [rewrite Hitems; discriminate|].
    rewrite Hbest in Hbest'. inversion Hbest'; subst. assumption.
Qed.

(** ** One run of [generate_report] *)

Lemma overall_stats_of_spec (aggregates : list AggregateMetrics.t) :
  ABTestController.overall_stats_of aggregates
  = Ok (OverallStats.mk
          (Py.sum_int (map AggregateMetrics.total_runs aggregates))
          (Py.sum_float (map AggregateMetrics.total_cost_usd aggregates))
          (match aggregates with
           | [] => Float64.zero
           | _ => Float64.div
                    (Py.sum_float (map AggregateMetrics.avg_cost_per_run aggregates))
                    (Float64.of_int (Py.len aggregates))
           end)).
Proof.
  unfold ABTestController.overall_stats_of.
  destruct aggregates as [|a l]; [reflexivity|].
  rewrite truediv_int_ok; [reflexivity|].
  pose proof (len_pos (a :: l) ltac:(discriminate)). lia.
Qed.

(** Where [generate_report] takes the aggregates from: the stored list when
    it is not empty, a run of [aggregate_metrics] otherwise. *)
Lemma generate_report_returns (st st1 : Storage.t) (test_id report_id : string) (now : Z)
    (test : ABTest.t) (aggregates : list AggregateMetrics.t) :
  Storage.tests st !! test_id = Some test ->
  match ABTest.aggregate_metrics test with
  | [] => ABTestController.aggregate_metrics test_id st = Ok (aggregates, st1)
  | stored => aggregates = stored /\ st1 = st
  end ->
  exists w os,
    ABTestController.pick_winners (ABTestController.group_by_variant aggregates) = Ok w
    /\ ABTestController.overall_stats_of aggregates = Ok os
    /\ ABTestController.generate_report test_id report_id now st
       = Ok (report_of test_id report_id now test aggregates w os,
             with_report st1 (report_of test_id report_id now test aggregates w os)).
Proof.
  intros Hget Hsrc.
  assert (Hstep : match ABTest.aggregate_metrics test with
                  | [] => ABTestController.aggregate_metrics test_id
                  | stored => ret stored
                  end st = Ok (aggregates, st1)).
  { destruct (ABTest.aggregate_metrics test) as [|a l]; [exact Hsrc|].
    destruct Hsrc as [-> ->]. reflexivity. }
  destruct (pick_winners_spec aggregates) as (w & Hw & _).
  exists w. eexists. split; [assumption|]. split; [apply overall_stats_of_spec|].
  unfold ABTestController.generate_report, bind, get_test.
  rewrite Hget, Hstep. unfold lift. rewrite Hw, overall_stats_of_spec. reflexivity.
Qed.

Lemma generate_report_run (st st' : Storage.t) (test_id report_id : string) (now : Z)
    (test : ABTest.t) (report : ABTestReport.t) :
  Storage.tests st !! test_id = Some test ->
  ABTestController.generate_report test_id report_id now st = Ok (report, st') ->
  exists aggregates st1 w os,
    match ABTest.aggregate_metrics test with
    | [] => ABTestController.aggregate_metrics test_id st = Ok (aggregates, st1)
    | stored => aggregates = stored /\ st1 = st
    end
    /\ ABTestController.pick_winners (ABTestController.group_by_variant aggregates) = Ok w
    /\ ABTestController.overall_stats_of aggregates = Ok os
    /\ report = report_of test_id report_id now test aggregates w os
    /\ st' = with_report st1 report.
Proof.
  intros Hget Hrun.
  assert (Hsrc : exists aggregates st1,
            match ABTest.aggregate_metrics test with
            | [] => ABTestController.aggregate_metrics test_id st = Ok (aggregates, st1)
            | stored => aggregates = stored /\ st1 = st
            end).
  { destruct (ABTest.aggregate_metrics test) as [|a l] eqn:Hs; [|eauto].
    unfold ABTestController.generate_report, bind, get_test in Hrun.
    rewrite Hget, Hs in Hrun.
    destruct (ABTestController.aggregate_metrics test_id st) as [[aggs st1]|e];
      [eauto|discriminate Hrun]. }
  destruct Hsrc as (aggs & st1 & Hsrc).
  destruct (generate_report_returns st st1 test_id report_id now test aggs Hget Hsrc)
    as (w & os & Hw & Hos & Hrun').
  rewrite Hrun in Hrun'. apply Ok_inj in Hrun'. injection Hrun' as -> ->.
  exists aggs, st1, w, os. repeat split; assumption.
Qed.

(** With stored aggregates the report is assembled without aggregating,
    and nothing can raise. *)
Lemma generate_report_stored (st : Storage.t) (test_id report_id : string) (now : Z)
    (test : ABTest.t) :
  Storage.tests st !! test_id = Some test ->
  ABTest.aggregate_metrics test <> [] ->
  exists w os,
    ABTestController.pick_winners
      (ABTestController.group_by_variant (ABTest.aggregate_metrics test)) = Ok w
    /\ ABTestController.overall_stats_of (ABTest.aggregate_metrics test) = Ok os
    /\ ABTestController.generate_report test_id report_id now st
       = Ok (report_of test_id report_id now test (ABTest.aggregate_metrics test) w os,
             with_report st
               (report_of test_id report_id now test (ABTest.aggregate_metrics test) w os)).
Proof.
  intros Hget Hne.
  apply (generate_report_returns st st test_id report_id now test); [assumption|].
  destruct (ABTest.aggregate_metrics test); [congruence|split; reflexivity].
Qed.

(** ** The order of the ranking key, field by field *)

Lemma compare_neg (a b : float) : SFcompare (Float64.neg a) (Float64.neg b) = SFcompare b a.
Proof.
  destruct a as [[|]|[|]| |[|] ma ea], b as [[|]|[|]| |[|] mb eb]; simpl; try reflexivity.
  - rewrite (Z.compare_antisym ea eb).
    destruct (ea ?= eb)%Z; simpl; try reflexivity.
    change (Pos.compare_cont Eq mb ma) with (mb ?= ma)%positive.
    change (Pos.compare_cont Eq ma mb) with (ma ?= mb)%positive.
    rewrite (Pos.compare_antisym ma mb), ?CompOpp_involutive. reflexivity.
  - rewrite (Z.compare_antisym ea eb).
    destruct (ea ?= eb)%Z; simpl; try reflexivity.
    change (Pos.compare_cont Eq mb ma) with (mb ?= ma)%positive.
    change (Pos.compare_cont Eq ma mb) with (ma ?= mb)%positive.
    rewrite (Pos.compare_antisym ma mb), ?CompOpp_involutive. reflexivity.
Qed.

Lemma lt_neg (a b : float) : Float64.lt (Float64.neg a) (Float64.neg b) = Float64.lt b a.
Proof. unfold Float64.lt, SFltb. now rewrite compare_neg. Qed.

Lemma eq_neg (a b : float) : Float64.eq (Float64.neg a) (Float64.neg b) = Float64.eq b a.
Proof. unfold Float64.eq, SFeqb. now rewrite compare_neg. Qed.

Lemma lt_not_eq (a b : float) : Float64.lt a b = true -> Float64.eq a b = false.
Proof. unfold Float64.lt, Float64.eq, SFltb, SFeqb. now destruct (SFcompare a b) as [[| |]|]. Qed.

(** The key order spelled out on the fields: a higher win rate ranks
    higher; at equal win rates a higher rating; at equal ratings a lower
    cost; at equal costs a lower latency. *)
Lemma ranking_order_ladder (a b : AggregateMetrics.t) :
  let w x := ABTestController.opt_or_0 (AggregateMetrics.win_rate x) in
  let r x := ABTestController.opt_or_0 (AggregateMetrics.avg_user_rating x) in
  let c x := ABTestController.or_0 (AggregateMetrics.avg_cost_per_run x) in
  let t x := ABTestController.or_0 (AggregateMetrics.avg_generation_time_ms x) in
  ABTestController.tuple_lt (ABTestController.ranking_key a) (ABTestController.ranking_key b)
  = true
  <-> Float64.lt (w a) (w b) = true
      \/ (Float64.eq (w a) (w b) = true
          /\ (Float64.lt (r a) (r b) = true
              \/ (Float64.eq (r a) (r b) = true
                  /\ (Float64.lt (c b) (c a) = true
                      \/ (Float64.eq (c b) (c a) = true
                          /\ Float64.lt (t b) (t a) = true))))).
Proof.
  intros w r c t.
  unfold ABTestController.tuple_lt, ABTestController.ranking_key.
  fold (w a) (w b) (r a) (r b) (c a) (c b) (t a) (t b).
  rewrite !lt_neg, !eq_neg.
  pose proof (lt_not_eq (w a) (w b)) as H1.
  pose proof (lt_not_eq (r a) (r b)) as H2.
  pose proof (lt_not_eq (c b) (c a)) as H3.
  pose proof (lt_not_eq (t b) (t a)) as H4.
  destruct (Float64.eq (w a) (w b)), (Float64.lt (w a) (w b));
  destruct (Float64.eq (r a) (r b)), (Float64.lt (r a) (r b));
  destruct (Float64.eq (c b) (c a)), (Float64.lt (c b) (c a));
  destruct (Float64.eq (t b) (t a)), (Float64.lt (t b) (t a)); simpl;
    try (specialize (H1 eq_refl)); try (specialize (H2 eq_refl));
    try (specialize (H3 eq_refl)); try (specialize (H4 eq_refl));
    try discriminate; intuition congruence.
Qed.

(** ** Claim C4 *)



(** The stored example evaluated: for v1 the 0.8 candidate m2 wins although
    m1 has the better rating, cost and latency; v2 keeps its only model. *)
Example ranked_winners :
  exists report st',
    ABTestController.generate_report "t1" "report-1" 7 Demo.ranked_store = Ok (report, st')
    /\ ABTestReport.winner_analysis report !! "v1"%string = Some "m2"%string
    /\ ABTestReport.winner_analysis report !! "v2"%string = Some "m1"%string
    /\ ABTestReport.variant_performance report = Demo.ranked_aggregates.
Proof.
  eexists _, _. split; [vm_compute; reflexivity|].
  repeat split; reflexivity.
Qed.

(** ** Claim C7 *)

(** C7. For every stored test, whenever [generate_report] returns, the
    [overall_stats] of the report hold, over the aggregates it reports: in [total_runs]
    the sum of their [total_runs]; in [total_cost_usd] the sum of their
    [total_cost_usd]; and, when there is at least one, in
    [avg_cost_per_run] the sum of their [avg_cost_per_run] divided by their
    number, an unweighted mean of the per-group means. *)
Theorem overall_stats_sums_and_mean_of_means (st st' : Storage.t)
    (test_id report_id : string) (now : Z) (test : ABTest.t) (report : ABTestReport.t) :
  Storage.tests st !! test_id = Some test ->
  ABTestController.generate_report test_id report_id now st = Ok (report, st') ->
  let aggregates := ABTestReport.variant_performance report in
  let stats := ABTestReport.overall_stats report in
  (ABTest.aggregate_metrics test <> [] -> aggregates = ABTest.aggregate_metrics test)
  /\ OverallStats.total_runs stats
     = Py.sum_int (map AggregateMetrics.total_runs aggregates)
  /\ OverallStats.total_cost_usd stats
     = Py.sum_float (map AggregateMetrics.total_cost_usd aggregates)
  /\ (aggregates <> [] ->
      OverallStats.avg_cost_per_run stats
      = Float64.div (Py.sum_float (map AggregateMetrics.avg_cost_per_run aggregates))
                    (Float64.of_int (Py.len aggregates))).
Proof.
  intros Hget Hrun.
  destruct (generate_report_run _ _ _ _ _ _ _ Hget Hrun)
    as (aggs & st1 & w & os & Hsrc & _ & Hos & -> & ->).
  simpl.
  rewrite overall_stats_of_spec in Hos. apply Ok_inj in Hos. subst os. simpl.
  split; [|split; [reflexivity|split; [reflexivity|]]].
  - intros Hne. destruct (ABTest.aggregate_metrics test); [congruence|].
    destruct Hsrc as [-> _]. reflexivity.
  - intros Hne. destruct aggs; [congruence|reflexivity].
Qed.

Lemma overall_stats_sums_and_mean_of_means_witness :
  Storage.tests Demo.ranked_store !! "t1"%string = Some Demo.ranked_test
  /\ exists report st',
       ABTestController.generate_report "t1" "report-1" 7 Demo.ranked_store = Ok (report, st')
       /\ OverallStats.total_runs (ABTestReport.overall_stats report) = 6%Z
       /\ OverallStats.total_cost_usd (ABTestReport.overall_stats report) = Float64.of_int 14
       /\ OverallStats.avg_cost_per_run (ABTestReport.overall_stats report)
          = Float64.of_int 2
       /\ let aggregates := ABTestReport.variant_performance report in
          let stats := ABTestReport.overall_stats report in
          (ABTest.aggregate_metrics Demo.ranked_test <> [] ->
           aggregates = ABTest.aggregate_metrics Demo.ranked_test)
          /\ OverallStats.total_runs stats
             = Py.sum_int (map AggregateMetrics.total_runs aggregates)
          /\ OverallStats.total_cost_usd stats
             = Py.sum_float (map AggregateMetrics.total_cost_usd aggregates)
          /\ (aggregates <> [] ->
              OverallStats.avg_cost_per_run stats
              = Float64.div (Py.sum_float (map AggregateMetrics.avg_cost_per_run aggregates))
                            (Float64.of_int (Py.len aggregates))).
Proof.
  split; [reflexivity|].
  eexists _, _. split; [vm_compute; reflexivity|].
  split; [reflexivity|]. split; [vm_compute; reflexivity|].
  split; [vm_compute; reflexivity|].
  eapply (overall_stats_sums_and_mean_of_means Demo.ranked_store _ "t1" "report-1" 7
            Demo.ranked_test);
    [reflexivity|vm_compute; reflexivity].
Defined.

(** The stored example evaluated: groups of 1, 2 and 3 runs with mean costs
    1, 2 and 3 report 6 runs, a total cost of 14 and a mean cost per run of
    (1 + 2 + 3) / 3 = 2, not the run-weighted 14 / 6. *)
Example mean_of_means_is_unweighted :
  exists report st',
    ABTestController.generate_report "t1" "report-1" 7 Demo.ranked_store = Ok (report, st')
    /\ OverallStats.total_runs (ABTestReport.overall_stats report) = 6%Z
    /\ OverallStats.total_cost_usd (ABTestReport.overall_stats report) = Float64.of_int 14
    /\ OverallStats.avg_cost_per_run (ABTestReport.overall_stats report) = Float64.of_int 2
    /\ Float64.eq (Float64.div (Float64.of_int 14) (Float64.of_int 6)) (Float64.of_int 2)
       = false.
Proof.
  eexists _, _. split; [vm_compute; reflexivity|].
  repeat split; vm_compute; reflexivity.
Qed.

(** ** Claim C8 *)

(** C8. For a stored test with no recorded result and no stored aggregates,
    [generate_report] does not raise: the lazy fallback runs
    [aggregate_metrics], which returns the empty list, and the report has
    [overall_stats.total_runs = 0], an empty [winner_analysis] and no
    per-group metrics. *)
Theorem report_on_empty_test (st : Storage.t) (test_id report_id : string) (now : Z)
    (test : ABTest.t) :
  Storage.tests st !! test_id = Some test ->
  ABTest.results test = [] ->
  ABTest.aggregate_metrics test = [] ->
  exists report st1 st',
    ABTestController.aggregate_metrics test_id st = Ok ([], st1)
    /\ ABTestController.generate_report test_id report_id now st = Ok (report, st')
    /\ st' = with_report st1 report
    /\ OverallStats.total_runs (ABTestReport.overall_stats report) = 0%Z
    /\ ABTestReport.winner_analysis report = ∅
    /\ ABTestReport.variant_performance report = [].
Proof.
  intros Hget Hres Hstored.
  assert (Hagg : ABTestController.aggregate_metrics test_id st
                 = Ok ([], with_aggregates st test [])).
  { apply aggregate_metrics_returns; [assumption|]. rewrite Hres. constructor. }
  destruct (generate_report_returns st (with_aggregates st test []) test_id report_id now
              test [] Hget) as (w & os & Hw & Hos & Hrun).
  { rewrite Hstored. exact Hagg. }
  change (Ok ∅ = Ok w) in Hw. injection Hw as <-.
  rewrite overall_stats_of_spec in Hos. injection Hos as <-.
  eexists _, _, _. split; [exact Hagg|]. split; [exact Hrun|].
  repeat split; reflexivity.
Qed.

Lemma report_on_empty_test_witness :
  Storage.tests Demo.empty_store !! "t1"%string = Some Demo.empty_test
  /\ ABTest.results Demo.empty_test = []
  /\ ABTest.aggregate_metrics Demo.empty_test = []
  /\ exists report st1 st',
       ABTestController.aggregate_metrics "t1" Demo.empty_store = Ok ([], st1)
       /\ ABTestController.generate_report "t1" "report-1" 7 Demo.empty_store
          = Ok (report, st')
       /\ st' = with_report st1 report
       /\ OverallStats.total_runs (ABTestReport.overall_stats report) = 0%Z
       /\ ABTestReport.winner_analysis report = ∅
       /\ ABTestReport.variant_performance report = [].
Proof.
  split; [reflexivity|]. split; [reflexivity|]. split; [reflexivity|].
  apply (report_on_empty_test Demo.empty_store "t1" "report-1" 7 Demo.empty_test);
    reflexivity.
Defined.

(** ** Claim C9 *)

Lemma le_not_nan (a b : float) : Float64.le a b = true -> not_nan a /\ not_nan b.
Proof.
  unfold Float64.le, SFleb, not_nan.
  destruct a, b; simpl; try discriminate; auto.
Qed.

Lemma le_trans (a b c : float) :
  Float64.le a b = true -> Float64.le b c = true -> Float64.le a c = true.
Proof.
  intros Hab Hbc.
  destruct (le_not_nan _ _ Hab) as [Ha Hb]. destruct (le_not_nan _ _ Hbc) as [_ Hc].
  apply le_fcmp in Hab, Hbc; try assumption. apply le_fcmp; try assumption.
  apply (cmp_le_trans fcmp not_nan cmp_ok_float a b c); assumption.
Qed.

(** [sorted(times)] is in ascending order when no value is NaN. *)
Lemma sorted_floats_nth_le (times : list float) (i j : nat) (x y : float) :
  Forall not_nan times -> (i <= j)%nat ->
  nth_error (statistics.sorted_floats times) i = Some x ->
  nth_error (statistics.sorted_floats times) j = Some y ->
  Float64.le x y = true.
Proof.
  intros Hgood Hij Hi Hj.
  assert (Hperm : Permutation (statistics.sorted_floats times) times) by apply sorted_perm.
  assert (Hx : not_nan x).
  { rewrite List.Forall_forall in Hgood. apply Hgood.
    apply (Permutation_in _ Hperm). eapply nth_error_In; eauto. }
  assert (Hy : not_nan y).
  { rewrite List.Forall_forall in Hgood. apply Hgood.
    apply (Permutation_in _ Hperm). eapply nth_error_In; eauto. }
  apply le_fcmp; try assumption.
  apply (sort_nth_le fcmp not_nan (fun a b => Float64.lt a b) cmp_ok_float lt_fcmp times i j);
    assumption.
Qed.

(** C9, negated.  The hundred successful runs of 0.01, 0.02, 0.03 and
    ninety-seven times 1.7 ms have four distinct values, yet the entry has
    p50 = p95 = 1.7 and p99 = 1.6999999999999997: the cut point
    [(1.7 * 1 + 1.7 * 99) / 100] of [statistics.quantiles] is rounded below
    1.7. *)
Lemma percentiles_not_monotone_under_rounding :
  ~ (forall variant_id model_id results agg,
       ABTestController.aggregate_group variant_id model_id results = Ok agg ->
       three_distinct (success_times results) ->
       Float64.le (AggregateMetrics.p50_generation_time_ms agg)
                  (AggregateMetrics.p95_generation_time_ms agg) = true
       /\ Float64.le (AggregateMetrics.p95_generation_time_ms agg)
                     (AggregateMetrics.p99_generation_time_ms agg) = true).
Proof.
  intros Hclaim.
  destruct (aggregate_group_returns "v1" "m1" Demo.rounding_results) as [agg Hagg];
    [vm_compute; reflexivity|vm_compute; reflexivity|].
  destruct (aggregate_group_inv _ _ _ _ Hagg)
    as (_ & _ & _ & _ & _ & _ & _ & H95 & H99 & _).
  assert (E95 : ABTestController.percentile 94 (Float64.lit 95 2)
                  (success_times Demo.rounding_results)
                = Ok (Float64.lit 17 1)) by (vm_compute; reflexivity).
  assert (E99 : ABTestController.percentile 98 (Float64.lit 99 2)
                  (success_times Demo.rounding_results)
                = Ok (S754_finite false 7656119366529842 (-52)))
    by (vm_compute; reflexivity).
  fold (success_times Demo.rounding_results) in H95, H99.
  rewrite E95 in H95. rewrite E99 in H99.
  apply Ok_inj in H95, H99.
  assert (Hdistinct : three_distinct (success_times Demo.rounding_results)).
  { exists (Float64.lit 1 2), (Float64.lit 2 2), (Float64.lit 3 2).
    split; [apply (nth_error_In _ 0); vm_compute; reflexivity|].
    split; [apply (nth_error_In _ 1); vm_compute; reflexivity|].
    split; [apply (nth_error_In _ 2); vm_compute; reflexivity|].
    repeat split; vm_compute; reflexivity. }
  destruct (Hclaim _ _ _ _ Hagg Hdistinct) as [_ Hle].
  rewrite <- H95, <- H99 in Hle.
  assert (Hfalse : Float64.le (Float64.lit 17 1) (S754_finite false 7656119366529842 (-52))
                   = false) by (vm_compute; reflexivity).
  rewrite Hfalse in Hle. discriminate Hle.
Qed.

(** The same sample evaluated. *)
Example rounding_percentiles :
  Py.len (success_times Demo.rounding_results) = 100%Z
  /\ statistics.median (success_times Demo.rounding_results) = Ok (Float64.lit 17 1)
  /\ ABTestController.percentile 94 (Float64.lit 95 2) (success_times Demo.rounding_results)
     = Ok (Float64.lit 17 1)
  /\ ABTestController.percentile 98 (Float64.lit 99 2) (success_times Demo.rounding_results)
     = Ok (S754_finite false 7656119366529842 (-52))
  /\ Float64.lit 17 1 = S754_finite false 7656119366529843 (-52)
  /\ Float64.lt (S754_finite false 7656119366529842 (-52)) (Float64.lit 17 1) = true.
Proof. repeat split; vm_compute; reflexivity. Qed.

Lemma median_or_zero_nonempty (times : list float) (v : float) :
  times <> [] ->
  match times with [] => Ok Float64.zero | _ => statistics.median times end = Ok v ->
  statistics.median times = Ok v.
Proof. destruct times; [congruence|auto]. Qed.

Lemma small_sample_indices (n : Z) :
  (3 <= n < 100)%Z ->
  (0 <= (n - 1) / 2 <= n / 2)%Z
  /\ (n / 2 <= 95 * (n - 1) / 100)%Z
  /\ (95 * (n - 1) / 100 <= 99 * (n - 1) / 100)%Z
  /\ (99 * (n - 1) / 100 < n)%Z.
Proof. intros Hn. repeat split; Z.div_mod_to_equations; lia. Qed.

(** C9, amended.  For every group whose timing sample has 3 to 99 points,
    none of them NaN, an entry returned by [aggregate_group] has p95 and
    p99 among the elements of the sample with p95 <= p99, and both middle
    elements [lo <= hi] of the sorted sample are at most p95.  p50 is [hi]
    when the size is odd and the binary64 average [(lo + hi) / 2] when it is
    even; hence p50 <= p95 <= p99 whenever the size is odd or that average
    does not exceed [hi]. *)
Theorem percentiles_monotone_below_100_points (variant_id model_id : string)
    (results : list TestResult.t) (agg : AggregateMetrics.t) :
  ABTestController.aggregate_group variant_id model_id results = Ok agg ->
  (3 <= Py.len (success_times results) < 100)%Z ->
  Forall not_nan (success_times results) ->
  let times := success_times results in
  let n := Py.len times in
  exists lo hi,
    nth_error (statistics.sorted_floats times) (Z.to_nat ((n - 1) / 2)) = Some lo
    /\ nth_error (statistics.sorted_floats times) (Z.to_nat (n / 2)) = Some hi
    /\ In (AggregateMetrics.p95_generation_time_ms agg) times
    /\ In (AggregateMetrics.p99_generation_time_ms agg) times
    /\ Float64.le lo hi = true
    /\ Float64.le hi (AggregateMetrics.p95_generation_time_ms agg) = true
    /\ Float64.le (AggregateMetrics.p95_generation_time_ms agg)
                  (AggregateMetrics.p99_generation_time_ms agg) = true
    /\ AggregateMetrics.p50_generation_time_ms agg
       = (if (n mod 2 =? 1)%Z then hi
          else Float64.div (Float64.add lo hi) (Float64.of_int 2))
    /\ ((n mod 2 = 1)%Z
        \/ Float64.le (Float64.div (Float64.add lo hi) (Float64.of_int 2)) hi = true ->
        Float64.le (AggregateMetrics.p50_generation_time_ms agg)
                   (AggregateMetrics.p95_generation_time_ms agg) = true
        /\ Float64.le (AggregateMetrics.p95_generation_time_ms agg)
                      (AggregateMetrics.p99_generation_time_ms agg) = true).
Proof.
  intros Hagg Hn Hgood times n. fold times in Hgood. fold times n in Hn.
  destruct (aggregate_group_inv _ _ _ _ Hagg)
    as (_ & _ & _ & _ & _ & _ & H50 & H95 & H99 & _).
  fold (success_times results) in H50, H95, H99. fold times in H50, H95, H99.
  destruct (small_sample_indices n Hn) as (Hlo & Hmid & H9599 & Htop).
  set (s := statistics.sorted_floats times).
  assert (Hlen : Py.len s = n) by apply sorted_floats_len.
  assert (Hperm : Permutation s times) by apply sorted_perm.
  destruct (getitem_nth s ((n - 1) / 2)) as (lo & Hglo & Hnlo); [lia|].
  destruct (getitem_nth s (n / 2)) as (hi & Hghi & Hnhi); [lia|].
  destruct (percentile_95_spec times) as (p95 & Hp95 & _ & Hs95 & _).
  destruct (percentile_99_spec times) as (p99 & Hp99 & _ & Hs99 & _).
  rewrite Hp95 in H95. inversion H95 as [E95]. rewrite Hp99 in H99. inversion H99 as [E99].
  specialize (Hs95 ltac:(fold n; lia)). specialize (Hs99 ltac:(fold n; lia)).
  fold n s in Hs95, Hs99. rewrite E95 in Hs95. rewrite E99 in Hs99.
  assert (Hlohi : Float64.le lo hi = true).
  { apply (sorted_floats_nth_le times (Z.to_nat ((n - 1) / 2)) (Z.to_nat (n / 2)));
      [assumption|lia|assumption|assumption]. }
  assert (Hhi95 : Float64.le hi (AggregateMetrics.p95_generation_time_ms agg) = true).
  { apply (sorted_floats_nth_le times (Z.to_nat (n / 2)) (Z.to_nat (95 * (n - 1) / 100)));
      [assumption|lia|assumption|assumption]. }
  assert (H9599' : Float64.le (AggregateMetrics.p95_generation_time_ms agg)
                     (AggregateMetrics.p99_generation_time_ms agg) = true).
  { apply (sorted_floats_nth_le times (Z.to_nat (95 * (n - 1) / 100))
             (Z.to_nat (99 * (n - 1) / 100)));
      [assumption|lia|assumption|assumption]. }
  assert (Hp50 : AggregateMetrics.p50_generation_time_ms agg
                 = if (n mod 2 =? 1)%Z then hi
                   else Float64.div (Float64.add lo hi) (Float64.of_int 2)).
  { assert (Hne : times <> []).
    { intros E. unfold n in Hn. rewrite E in Hn. unfold Py.len in Hn. simpl in Hn. lia. }
    apply (median_or_zero_nonempty times _ Hne) in H50.
    unfold statistics.median in H50. fold s in H50.
    rewrite Hlen in H50.
    destruct (Z.eqb_spec n 0) as [?|_]; [lia|].
    destruct (n mod 2 =? 1)%Z eqn:Hodd.
    - rewrite Hghi in H50. now inversion H50.
    - assert (Hev : (n / 2 - 1 = (n - 1) / 2)%Z).
      { apply Z.eqb_neq in Hodd. Z.div_mod_to_equations. lia. }
      rewrite Hev, Hglo, Hghi in H50. simpl in H50.
      rewrite truediv_int_ok in H50 by lia. now inversion H50. }
  exists lo, hi.
  split; [assumption|]. split; [assumption|].
  split; [apply (Permutation_in _ Hperm); eapply nth_error_In; exact Hs95|].
  split; [apply (Permutation_in _ Hperm); eapply nth_error_In; exact Hs99|].
  split; [assumption|]. split; [assumption|]. split; [assumption|].
  split; [assumption|].
  intros Hcase. split; [|assumption].
  rewrite Hp50. destruct (Z.eqb_spec (n mod 2) 1) as [Hodd|Heven].
  - assumption.
  - destruct Hcase as [?|Havg]; [contradiction|].
    apply (le_trans _ hi); assumption.
Qed.

Lemma percentiles_monotone_below_100_points_witness :
  exists agg,
    ABTestController.aggregate_group "v1" "m1" Demo.four_runs = Ok agg
    /\ (3 <= Py.len (success_times Demo.four_runs) < 100)%Z
    /\ Forall not_nan (success_times Demo.four_runs)
    /\ exists lo hi,
         nth_error (statistics.sorted_floats (success_times Demo.four_runs))
           (Z.to_nat ((Py.len (success_times Demo.four_runs) - 1) / 2)) = Some lo
         /\ nth_error (statistics.sorted_floats (success_times Demo.four_runs))
              (Z.to_nat (Py.len (success_times Demo.four_runs) / 2)) = Some hi
         /\ In (AggregateMetrics.p95_generation_time_ms agg) (success_times Demo.four_runs)
         /\ In (AggregateMetrics.p99_generation_time_ms agg) (success_times Demo.four_runs)
         /\ Float64.le lo hi = true
         /\ Float64.le hi (AggregateMetrics.p95_generation_time_ms agg) = true
         /\ Float64.le (AggregateMetrics.p95_generation_time_ms agg)
                       (AggregateMetrics.p99_generation_time_ms agg) = true
         /\ AggregateMetrics.p50_generation_time_ms agg
            = (if (Py.len (success_times Demo.four_runs) mod 2 =? 1)%Z then hi
               else Float64.div (Float64.add lo hi) (Float64.of_int 2))
         /\ ((Py.len (success_times Demo.four_runs) mod 2 = 1)%Z
             \/ Float64.le (Float64.div (Float64.add lo hi) (Float64.of_int 2)) hi = true ->
             Float64.le (AggregateMetrics.p50_generation_time_ms agg)
                        (AggregateMetrics.p95_generation_time_ms agg) = true
             /\ Float64.le (AggregateMetrics.p95_generation_time_ms agg)
                           (AggregateMetrics.p99_generation_time_ms agg) = true).
Proof.
  assert (Hn : (3 <= Py.len (success_times Demo.four_runs) < 100)%Z).
  { change (Py.len (success_times Demo.four_runs)) with 4%Z. lia. }
  assert (Hgood : Forall not_nan (success_times Demo.four_runs)).
  { repeat constructor. }
  eexists. split; [vm_compute; reflexivity|].
  split; [exact Hn|]. split; [exact Hgood|].
  exact (percentiles_monotone_below_100_points "v1" "m1" Demo.four_runs _
           ltac:(vm_compute; reflexivity) Hn Hgood).
Defined.

(** Four runs of 300, 100, 400 and 200 ms evaluated: the middle elements
    are 200 and 300, their average 250 does not exceed 300, and
    p50 = 250 <= p95 = 300 <= p99 = 300. *)
Example four_runs_percentiles :
  exists agg,
    ABTestController.aggregate_group "v1" "m1" Demo.four_runs = Ok agg
    /\ AggregateMetrics.p50_generation_time_ms agg = Float64.of_int 250
    /\ AggregateMetrics.p95_generation_time_ms agg = Float64.of_int 300
    /\ AggregateMetrics.p99_generation_time_ms agg = Float64.of_int 300
    /\ Float64.le (Float64.div (Float64.add (Float64.of_int 200) (Float64.of_int 300))
                              (Float64.of_int 2))
                  (Float64.of_int 300) = true.
Proof.
  eexists. split; [vm_compute; reflexivity|].
  repeat split; vm_compute; reflexivity.
Qed.
(** * Further properties of the controller *)

(** ** The exceptions of aggregation and reporting *)

Lemma state_after_ok {A} (c : M A) (st st' : Storage.t) (a : A) :
  c st = Ok (a, st') -> state_after c st = st'.
Proof. unfold state_after. now intros ->. Qed.

Lemma mapR_raises {A B} (f : A -> result B) (l : list A) (e : exn) :
  mapR f l = Raise e -> exists a, In a l /\ f a = Raise e.
Proof.
  induction l as [|a l IH]; simpl; [discriminate|].
  destruct (f a) as [b|e'] eqn:Ha.
  - destruct (mapR f l) as [bs|e'']; [discriminate|].
    intros [= <-]. destruct (IH eq_refl) as (a' & Hin & Ha'). eauto.
  - intros [= <-]. eauto.
Qed.

(** What [aggregate_metrics] raises on a stored test is raised by the loop
    body on the partition of one pair. *)
Lemma aggregate_metrics_raises (st : Storage.t) (test_id : string) (test : ABTest.t)
    (e : exn) :
  Storage.tests st !! test_id = Some test ->
  ABTestController.aggregate_metrics test_id st = Raise e ->
  exists variant_id model_id,
    ABTestController.aggregate_group variant_id model_id
      (partition_of (ABTest.results test) variant_id model_id) = Raise e.
Proof.
  intros Hget Hraise. rewrite (aggregate_metrics_cases st test_id test Hget) in Hraise.
  destruct (mapR _ _) as [aggs|e'] eqn:Hmap; [discriminate Hraise|].
  injection Hraise as ->.
  apply mapR_raises in Hmap as ([[v m] rs] & Hin & Hg). simpl in Hg.
  destruct (grouping_spec ABTestController.pair_key (ABTest.results test)) as (_ & Hent & _).
  destruct (Hent _ _ Hin) as [_ Hrs].
  exists v, m. unfold partition_of. rewrite <- Hrs. exact Hg.
Qed.

Lemma aggregate_metrics_overflow (st : Storage.t) (test_id : string) (test : ABTest.t)
    (e : exn) :
  Storage.tests st !! test_id = Some test ->
  ABTestController.aggregate_metrics test_id st = Raise e ->
  e = OverflowError /\ oversized (ABTest.results test).
Proof.
  intros Hget Hraise.
  destruct (aggregate_metrics_raises st test_id test e Hget Hraise) as (v & m & Hg).
  apply aggregate_group_raises in Hg as [-> Hbig].
  split; [reflexivity|]. exists v, m. exact Hbig.
Qed.

(** X1. [aggregate_metrics] and [generate_report] raise [NotFound] exactly
    when the test id is unknown to the storage.  On a stored test the only
    exception they can raise is the [OverflowError] of an int division,
    and only if some (variant_id, model_id) partition of the results has
    [2^53] or more results or a sum of successful [total_tokens] of
    magnitude [2^53] or more; [generate_report] can raise it only when the
    test has no stored aggregates.  No input makes them raise
    [ZeroDivisionError], [IndexError], [StatisticsError] or [ValueError];
    the [OverflowError] does occur, for one run with [2**1024] tokens. *)
Theorem raises_only_not_found_or_overflow (st : Storage.t) (test_id report_id : string)
    (now : Z) (e : exn) :
  (ABTestController.aggregate_metrics test_id st = Raise e ->
   (Storage.tests st !! test_id = None /\ e = NotFound)
   \/ (e = OverflowError
       /\ exists test, Storage.tests st !! test_id = Some test
                       /\ oversized (ABTest.results test)))
  /\ (ABTestController.generate_report test_id report_id now st = Raise e ->
      (Storage.tests st !! test_id = None /\ e = NotFound)
      \/ (e = OverflowError
          /\ exists test, Storage.tests st !! test_id = Some test
                          /\ ABTest.aggregate_metrics test = []
                          /\ oversized (ABTest.results test)))
  /\ (Storage.tests st !! test_id = None ->
      ABTestController.aggregate_metrics test_id st = Raise NotFound
      /\ ABTestController.generate_report test_id report_id now st = Raise NotFound)
  /\ ABTestController.aggregate_metrics "t1" Demo.huge_tokens_store = Raise OverflowError.
Proof.
  split; [|split; [|split]].
  - intros Hraise. destruct (Storage.tests st !! test_id) as [test|] eqn:Hget.
    + right. destruct (aggregate_metrics_overflow st test_id test e Hget Hraise)
        as [-> Hbig]. eauto.
    + left. unfold ABTestController.aggregate_metrics, bind, get_test in Hraise.
      rewrite Hget in Hraise. injection Hraise as <-. auto.
  - intros Hraise. destruct (Storage.tests st !! test_id) as [test|] eqn:Hget.
    + right. destruct (ABTest.aggregate_metrics test) as [|a l] eqn:Hstored.
      * destruct (ABTestController.aggregate_metrics test_id st) as [[aggs st1]|e'] eqn:Hrun.
        -- destruct (generate_report_returns st st1 test_id report_id now test aggs Hget)
             as (w & os & _ & _ & Hok); [now rewrite Hstored|].
           rewrite Hok in Hraise. discriminate Hraise.
        -- assert (He : e = e').
           { unfold ABTestController.generate_report, bind, get_test in Hraise.
             rewrite Hget, Hstored, Hrun in Hraise. now injection Hraise. }
           subst e'. destruct (aggregate_metrics_overflow st test_id test e Hget Hrun)
             as [-> Hbig].
           split; [reflexivity|]. exists test. auto.
      * destruct (generate_report_stored st test_id report_id now test Hget)
          as (w & os & _ & _ & Hok); [rewrite Hstored; discriminate|].
        rewrite Hok in Hraise. discriminate Hraise.
    + left. unfold ABTestController.generate_report, bind, get_test in Hraise.
      rewrite Hget in Hraise. injection Hraise as <-. auto.
  - intros Hget. split.
    + unfold ABTestController.aggregate_metrics, bind, get_test. now rewrite Hget.
    + unfold ABTestController.generate_report, bind, get_test. now rewrite Hget.
  - vm_compute. reflexivity.
Qed.

(** ** The groups partition the results *)

Section GroupingMore.
Context {K V : Type} `{EqDecision K} (key : V -> K).

Lemma setdefault_append_concat (k : K) (v : V) (d : list (K * list V)) :
  Permutation (concat (map snd (Py.setdefault_append k v d)))
              (concat (map snd d) ++ [v]).
Proof.
  induction d as [|[k' vs] d IH]; simpl; [reflexivity|].
  destruct (decide (k' = k)); simpl.
  - rewrite <- !app_assoc. apply Permutation_app_head. apply Permutation_app_comm.
  - rewrite IH. now rewrite app_assoc.
Qed.

Lemma grouping_concat (l : list V) :
  Permutation
    (concat (map snd (fold_left (fun d v => Py.setdefault_append (key v) v d) l [])))
    l.
Proof.
  induction l as [|v l IH] using rev_ind; [reflexivity|].
  rewrite fold_left_app. simpl. rewrite setdefault_append_concat, IH. reflexivity.
Qed.

Lemma filter_and {A} (f g : A -> bool) (l : list A) :
  List.filter f (List.filter g l) = List.filter (fun x => f x && g x) l.
Proof.
  induction l as [|x l IH]; [reflexivity|].
  simpl. destruct (g x); simpl; destruct (f x); simpl; now rewrite ?IH.
Qed.

Lemma grouping_keys_from (l : list V) (d : list (K * list V)) :
  map fst (fold_left (fun d v => Py.setdefault_append (key v) v d) l d)
  = map fst d
    ++ List.filter (fun k => negb (bool_decide (k ∈ map fst d))) (first_seen (map key l)).
Proof.
  revert d. induction l as [|v l IH]; intros d; simpl.
  - now rewrite app_nil_r.
  - rewrite IH. destruct (setdefault_append_keys (key v) v d) as [Hin Hnotin].
    destruct (decide (key v ∈ map fst d)) as [Hk|Hk].
    + rewrite (bool_decide_eq_true_2 _ Hk). simpl.
      rewrite Hin by (now apply list_elem_of_In). f_equal.
      rewrite filter_and. apply filter_ext. intros k.
      destruct (decide (k ∈ map fst d)) as [Hkd|Hkd].
      * now rewrite (bool_decide_eq_true_2 _ Hkd).
      * rewrite (bool_decide_eq_false_2 _ Hkd). simpl.
        rewrite bool_decide_eq_false_2; [reflexivity|]. intros ->. contradiction.
    + rewrite (bool_decide_eq_false_2 _ Hk). simpl.
      rewrite Hnotin by (now rewrite <- list_elem_of_In).
      rewrite <- app_assoc. simpl. f_equal. f_equal.
      rewrite filter_and. apply filter_ext. intros k.
      destruct (decide (k = key v)) as [->|Hne].
      * rewrite (bool_decide_eq_true_2 (key v = key v)) by reflexivity.
        rewrite (bool_decide_eq_true_2 (key v ∈ map fst d ++ [key v]))
          by (apply list_elem_of_In, in_or_app; right; left; reflexivity).
        simpl. now rewrite andb_false_r.
      * rewrite (bool_decide_eq_false_2 (k = key v)) by assumption.
        simpl. rewrite andb_true_r. f_equal.
        apply bool_decide_ext. rewrite !list_elem_of_In, in_app_iff. simpl.
        intuition congruence.
Qed.

Lemma grouping_keys (l : list V) :
  map fst (fold_left (fun d v => Py.setdefault_append (key v) v d) l [])
  = first_seen (map key l).
Proof.
  rewrite grouping_keys_from. simpl.
  induction (first_seen (map key l)) as [|x xs IHx]; [reflexivity|].
  rewrite filter_cons_eq. f_equal. exact IHx.
Qed.
End GroupingMore.

Lemma filter_length_perm {A} (p : A -> bool) (l l' : list A) :
  Permutation l l' -> length (List.filter p l) = length (List.filter p l').
Proof.
  induction 1 as [|x l l' _ IH|x y l|l l' l'' _ IH1 _ IH2]; simpl.
  - reflexivity.
  - destruct (p x); simpl; now rewrite IH.
  - destruct (p x), (p y); reflexivity.
  - now rewrite IH1.
Qed.

Lemma len_app {A} (l l' : list A) : Py.len (l ++ l') = (Py.len l + Py.len l')%Z.
Proof. unfold Py.len. rewrite length_app. lia. Qed.

Lemma sum_over_groups (p : TestResult.t -> bool) (f : AggregateMetrics.t -> Z)
    (groups : list ((string * string) * list TestResult.t))
    (aggregates : list AggregateMetrics.t) :
  Forall2 (fun g agg => f agg = Py.len (List.filter p (snd g))) groups aggregates ->
  Py.sum_int (map f aggregates) = Py.len (List.filter p (concat (map snd groups))).
Proof.
  induction 1 as [|g agg gs aggs Hg _ IH]; [reflexivity|].
  simpl. rewrite sum_int_cons, IH, Hg, List.filter_app, len_app. reflexivity.
Qed.

Lemma filter_all {A} (l : list A) : List.filter (fun _ => true) l = l.
Proof. induction l as [|x l IH]; [reflexivity|]. simpl. now rewrite IH. Qed.

Lemma sum_over_results (p : TestResult.t -> bool) (f : AggregateMetrics.t -> Z)
    (results : list TestResult.t) (aggregates : list AggregateMetrics.t) :
  Forall2 (fun g agg =>
             ABTestController.aggregate_group (fst (fst g)) (snd (fst g)) (snd g) = Ok agg)
          (ABTestController.group_results results) aggregates ->
  (forall v m rs agg, ABTestController.aggregate_group v m rs = Ok agg ->
                      f agg = Py.len (List.filter p rs)) ->
  Py.sum_int (map f aggregates) = Py.len (List.filter p results).
Proof.
  intros HF Hf.
  rewrite (sum_over_groups p f (ABTestController.group_results results) aggregates).
  - unfold Py.len. f_equal. apply filter_length_perm.
    apply (grouping_concat ABTestController.pair_key).
  - eapply Forall2_impl; [exact HF|]. intros g agg Hg. eapply Hf. exact Hg.
Qed.

(** ** The runs of a test are counted once each *)

(** X2. For every stored test, whenever [aggregate_metrics] returns, the
    entries it returns count every result exactly once: their [total_runs]
    add up to the number of results of the test, their [success_runs] to the
    number of results whose status is ["success"], and their [error_runs]
    to the number of all others. *)
Theorem every_result_is_counted_once (st st' : Storage.t) (test_id : string)
    (test : ABTest.t) (aggregates : list AggregateMetrics.t) :
  Storage.tests st !! test_id = Some test ->
  ABTestController.aggregate_metrics test_id st = Ok (aggregates, st') ->
  Py.sum_int (map AggregateMetrics.total_runs aggregates)
  = Py.len (ABTest.results test)
  /\ Py.sum_int (map AggregateMetrics.success_runs aggregates)
     = Py.len (List.filter ABTestController.is_success (ABTest.results test))
  /\ Py.sum_int (map AggregateMetrics.error_runs aggregates)
     = Py.len (List.filter (fun r => negb (ABTestController.is_success r))
                           (ABTest.results test)).
Proof.
  intros Hget Hrun.
  destruct (aggregate_metrics_run _ _ _ _ _ Hget Hrun) as [_ HF].
  split; [|split].
  - rewrite <- (filter_all (ABTest.results test)).
    apply (sum_over_results (fun _ => true)); [assumption|].
    intros v m rs agg Hagg.
    destruct (aggregate_group_inv _ _ _ _ Hagg) as (_ & _ & Htot & _).
    now rewrite filter_all.
  - apply (sum_over_results ABTestController.is_success); [assumption|].
    intros v m rs agg Hagg.
    now destruct (aggregate_group_inv _ _ _ _ Hagg) as (_ & _ & _ & Hs & _).
  - apply (sum_over_results (fun r => negb (ABTestController.is_success r))); [assumption|].
    intros v m rs agg Hagg.
    now destruct (aggregate_group_inv _ _ _ _ Hagg) as (_ & _ & _ & _ & He & _).
Qed.

(** Two pairs with two runs each, one pair all failed: 4 runs, 2 successes
    and 2 errors in total. *)
Lemma every_result_is_counted_once_witness :
  Storage.tests Demo.failing_store !! "t1"%string
  = Some (Demo.test_with [] [] [] Demo.failing_results [])
  /\ exists aggregates st',
       ABTestController.aggregate_metrics "t1" Demo.failing_store = Ok (aggregates, st')
       /\ length aggregates = 2%nat
       /\ Py.sum_int (map AggregateMetrics.total_runs aggregates)
          = Py.len Demo.failing_results
       /\ Py.sum_int (map AggregateMetrics.success_runs aggregates)
          = Py.len (List.filter ABTestController.is_success Demo.failing_results)
       /\ Py.sum_int (map AggregateMetrics.error_runs aggregates)
          = Py.len (List.filter (fun r => negb (ABTestController.is_success r))
                                Demo.failing_results).
Proof.
  split; [reflexivity|].
  eexists _, _. split; [vm_compute; reflexivity|]. split; [reflexivity|].
  eapply (every_result_is_counted_once Demo.failing_store _ "t1"
            (Demo.test_with [] [] [] Demo.failing_results []));
    [reflexivity|vm_compute; reflexivity].
Defined.

(** X3. For every stored test without stored aggregates, whenever
    [generate_report] returns, the report has in [overall_stats.total_runs]
    the number of results of the test, and the aggregates it computed are
    saved in the Test record. *)
Theorem fresh_report_counts_every_result (st st' : Storage.t) (test_id report_id : string)
    (now : Z) (test : ABTest.t) (report : ABTestReport.t) :
  Storage.tests st !! test_id = Some test ->
  ABTest.aggregate_metrics test = [] ->
  ABTestController.generate_report test_id report_id now st = Ok (report, st') ->
  OverallStats.total_runs (ABTestReport.overall_stats report)
  = Py.len (ABTest.results test)
  /\ Storage.tests st' !! ABTest.test_id test
     = Some (ABTest.set_aggregate_metrics test (ABTestReport.variant_performance report)).
Proof.
  intros Hget Hstored Hrun.
  destruct (generate_report_run _ _ _ _ _ _ _ Hget Hrun)
    as (aggs & st1 & w & os & Hsrc & _ & Hos & -> & ->).
  rewrite Hstored in Hsrc.
  rewrite overall_stats_of_spec in Hos. apply Ok_inj in Hos. subst os.
  destruct (aggregate_metrics_run _ _ _ _ _ Hget Hsrc) as [-> HF].
  split.
  - simpl. rewrite <- (filter_all (ABTest.results test)).
    apply (sum_over_results (fun _ => true)); [assumption|].
    intros v m rs agg Hagg.
    destruct (aggregate_group_inv _ _ _ _ Hagg) as (_ & _ & Htot & _).
    now rewrite filter_all.
  - simpl. apply lookup_insert_eq.
Qed.

Lemma fresh_report_counts_every_result_witness :
  Storage.tests Demo.scenario_store !! "t1"%string = Some Demo.scenario_test
  /\ ABTest.aggregate_metrics Demo.scenario_test = []
  /\ exists report st',
       ABTestController.generate_report "t1" "report-1" 7 Demo.scenario_store
       = Ok (report, st')
       /\ OverallStats.total_runs (ABTestReport.overall_stats report) = 3%Z
       /\ OverallStats.total_runs (ABTestReport.overall_stats report)
          = Py.len (ABTest.results Demo.scenario_test)
       /\ Storage.tests st' !! ABTest.test_id Demo.scenario_test
          = Some (ABTest.set_aggregate_metrics Demo.scenario_test
                    (ABTestReport.variant_performance report)).
Proof.
  split; [reflexivity|]. split; [reflexivity|].
  eexists _, _. split; [vm_compute; reflexivity|]. split; [reflexivity|].
  eapply (fresh_report_counts_every_result Demo.scenario_store _ "t1" "report-1" 7
            Demo.scenario_test);
    [reflexivity|reflexivity|vm_compute; reflexivity].
Defined.

(** ** The order of the entries *)

(** X4. For every stored test, whenever [aggregate_metrics] returns, the
    entries it returns are in the order in which their
    (variant_id, model_id) pairs first occur among the test's results. *)
Theorem entries_in_first_seen_order (st st' : Storage.t) (test_id : string)
    (test : ABTest.t) (aggregates : list AggregateMetrics.t) :
  Storage.tests st !! test_id = Some test ->
  ABTestController.aggregate_metrics test_id st = Ok (aggregates, st') ->
  map entry_key aggregates
  = first_seen (map ABTestController.pair_key (ABTest.results test)).
Proof.
  intros Hget Hrun.
  destruct (aggregate_metrics_run _ _ _ _ _ Hget Hrun) as [_ HF].
  rewrite (produced_keys _ _ HF).
  apply (grouping_keys ABTestController.pair_key).
Qed.

(** Runs of (v1, m1), (v1, m2), (v1, m1), (v1, m2) give the entry of
    (v1, m1) before the entry of (v1, m2). *)
Lemma entries_in_first_seen_order_witness :
  Storage.tests Demo.failing_store !! "t1"%string
  = Some (Demo.test_with [] [] [] Demo.failing_results [])
  /\ exists aggregates st',
       ABTestController.aggregate_metrics "t1" Demo.failing_store = Ok (aggregates, st')
       /\ map entry_key aggregates
          = [("v1"%string, "m1"%string); ("v1"%string, "m2"%string)]
       /\ map entry_key aggregates
          = first_seen (map ABTestController.pair_key Demo.failing_results).
Proof.
  split; [reflexivity|].
  eexists _, _. split; [vm_compute; reflexivity|]. split; [reflexivity|].
  eapply (entries_in_first_seen_order Demo.failing_store _ "t1"
            (Demo.test_with [] [] [] Demo.failing_results []));
    [reflexivity|vm_compute; reflexivity].
Defined.

(** ** Aggregating twice *)

(** X5. [aggregate_metrics] is idempotent: whenever it returns, a second
    call on the storage it left returns the same list and leaves that
    storage as it is. *)
Theorem aggregate_metrics_idempotent (st st' : Storage.t) (test_id : string)
    (aggregates : list AggregateMetrics.t) :
  ABTestController.aggregate_metrics test_id st = Ok (aggregates, st') ->
  ABTestController.aggregate_metrics test_id st' = Ok (aggregates, st').
Proof.
  intros Hrun.
  destruct (aggregate_metrics_inv _ _ _ _ Hrun) as (test & Hget & _).
  destruct (aggregate_metrics_run _ _ _ _ _ Hget Hrun) as [-> HF].
  destruct (decide (ABTest.test_id test = test_id)) as [Hid|Hid].
  - assert (Hget' : Storage.tests (with_aggregates st test aggregates) !! test_id
                    = Some (ABTest.set_aggregate_metrics test aggregates)).
    { unfold with_aggregates. simpl. rewrite Hid. apply lookup_insert_eq. }
    rewrite (aggregate_metrics_returns _ _ _ aggregates Hget') by exact HF.
    f_equal. f_equal. unfold with_aggregates. simpl. f_equal. apply insert_insert_eq.
  - assert (Hget' : Storage.tests (with_aggregates st test aggregates) !! test_id
                    = Some test).
    { unfold with_aggregates. simpl. rewrite lookup_insert_ne by assumption. exact Hget. }
    rewrite (aggregate_metrics_returns _ _ _ aggregates Hget') by exact HF.
    f_equal. f_equal. unfold with_aggregates. simpl. f_equal. apply insert_insert_eq.
Qed.

Lemma aggregate_metrics_idempotent_witness :
  exists aggregates st',
    ABTestController.aggregate_metrics "t1" Demo.scenario_store = Ok (aggregates, st')
    /\ ABTestController.aggregate_metrics "t1" st' = Ok (aggregates, st').
Proof.
  eexists _, _. split; [vm_compute; reflexivity|].
  eapply (aggregate_metrics_idempotent Demo.scenario_store _ "t1").
  vm_compute. reflexivity.
Defined.

(** ** Reports and the storage *)

Lemma report_is_function_of_aggregates (st1 st2 : Storage.t) (test_id report_id : string)
    (now : Z) (test1 test2 : ABTest.t) :
  Storage.tests st1 !! test_id = Some test1 ->
  Storage.tests st2 !! test_id = Some test2 ->
  ABTest.aggregate_metrics test1 <> [] ->
  ABTest.aggregate_metrics test2 = ABTest.aggregate_metrics test1 ->
  ABTest.test_name test2 = ABTest.test_name test1 ->
  ABTest.status test2 = ABTest.status test1 ->
  ABTest.prompt_variants test2 = ABTest.prompt_variants test1 ->
  ABTest.model_configs test2 = ABTest.model_configs test1 ->
  ABTest.sample_size test2 = ABTest.sample_size test1 ->
  exists report st1' st2',
    ABTestController.generate_report test_id report_id now st1 = Ok (report, st1')
    /\ ABTestController.generate_report test_id report_id now st2 = Ok (report, st2').
Proof.
  intros H1 H2 Hne Hagg Hname Hstatus Hpv Hmc Hss.
  destruct (generate_report_stored st1 test_id report_id now test1 H1 Hne)
    as (w1 & os1 & Hw1 & Hos1 & Hrun1).
  destruct (generate_report_stored st2 test_id report_id now test2 H2)
    as (w2 & os2 & Hw2 & Hos2 & Hrun2); [now rewrite Hagg|].
  rewrite Hagg in Hw2, Hos2, Hrun2.
  rewrite Hw1 in Hw2. apply Ok_inj in Hw2. subst w2.
  rewrite Hos1 in Hos2. apply Ok_inj in Hos2. subst os2.
  eexists _, _, _. split; [exact Hrun1|].
  rewrite Hrun2. unfold report_of. rewrite Hname, Hstatus, Hpv, Hmc, Hss. reflexivity.
Qed.

Lemma record_result_run (st : Storage.t) (test_id : string) (r : TestResult.t)
    (test : ABTest.t) :
  Storage.tests st !! test_id = Some test ->
  let result :=
    TestResult.mk (TestResult.result_id r) test_id (TestResult.variant_id r)
      (TestResult.model_id r) (TestResult.input_data r) (TestResult.generated_output r)
      (TestResult.timestamp r) (TestResult.generation_time_ms r)
      (TestResult.total_tokens r) (TestResult.prompt_tokens r)
      (TestResult.completion_tokens r) (TestResult.cost_usd r)
      (TestResult.user_rating r) (TestResult.user_feedback r) (TestResult.auto_score r)
      (TestResult.comparison_winner r) (TestResult.error r) (TestResult.status r) in
  run_op (OpRecord test_id r) st
  = Storage.mk (<[ABTest.test_id test := ABTestUpdate.append_result test result]>
                  (Storage.tests st))
               (Storage.comparison_pairs st) (Storage.reports st).
Proof.
  intros Hget result. unfold run_op, state_after, ABTestControllerRest.record_result,
    bind, get_test, save_test, ret.
  rewrite Hget. reflexivity.
Qed.

(** X6. A stored, non-empty list of aggregates is never refreshed by
    [generate_report]: after [record_result] has appended a result to the
    test, [generate_report] returns the very report it would have returned
    before. *)
Theorem report_ignores_results_recorded_after_aggregation (st : Storage.t)
    (test_id report_id : string) (now : Z) (test : ABTest.t) (r : TestResult.t) :
  Storage.tests st !! test_id = Some test ->
  ABTest.aggregate_metrics test <> [] ->
  exists report st1 st2,
    ABTestController.generate_report test_id report_id now st = Ok (report, st1)
    /\ ABTestController.generate_report test_id report_id now (run_op (OpRecord test_id r) st)
       = Ok (report, st2)
    /\ ABTestReport.variant_performance report = ABTest.aggregate_metrics test.
Proof.
  intros Hget Hne.
  rewrite (record_result_run st test_id r test Hget).
  set (result := TestResult.mk _ _ _ _ _ _ _ _ _ _ _ _ _ _ _ _ _ _).
  set (st' := Storage.mk _ _ _).
  assert (Hvp : forall report s,
            ABTestController.generate_report test_id report_id now st = Ok (report, s) ->
            ABTestReport.variant_performance report = ABTest.aggregate_metrics test).
  { intros report s Hrun.
    destruct (generate_report_stored st test_id report_id now test Hget Hne)
      as (w & os & _ & _ & Hrun').
    rewrite Hrun in Hrun'. apply Ok_inj in Hrun'. injection Hrun' as -> _.
    reflexivity. }
  destruct (decide (ABTest.test_id test = test_id)) as [Hid|Hid].
  - assert (Hget' : Storage.tests st' !! test_id
                    = Some (ABTestUpdate.append_result test result)).
    { subst st'. simpl. rewrite Hid. apply lookup_insert_eq. }
    destruct (report_is_function_of_aggregates st st' test_id report_id now test
                (ABTestUpdate.append_result test result) Hget Hget' Hne)
      as (report & s1 & s2 & Hr1 & Hr2); try reflexivity.
    exists report, s1, s2. split; [assumption|]. split; [assumption|]. eapply Hvp; eauto.
  - assert (Hget' : Storage.tests st' !! test_id = Some test).
    { subst st'. simpl. rewrite lookup_insert_ne by assumption. exact Hget. }
    destruct (report_is_function_of_aggregates st st' test_id report_id now test test
                Hget Hget' Hne) as (report & s1 & s2 & Hr1 & Hr2); try reflexivity.
    exists report, s1, s2. split; [assumption|]. split; [assumption|]. eapply Hvp; eauto.
Qed.

Lemma report_ignores_results_recorded_after_aggregation_witness :
  Storage.tests Demo.ranked_store !! "t1"%string = Some Demo.ranked_test
  /\ ABTest.aggregate_metrics Demo.ranked_test <> []
  /\ exists report st1 st2,
       ABTestController.generate_report "t1" "report-1" 7 Demo.ranked_store
       = Ok (report, st1)
       /\ ABTestController.generate_report "t1" "report-1" 7
            (run_op (OpRecord "t1" (Demo.run "v1" "m1" (Float64.of_int 100) "success" None))
                    Demo.ranked_store)
          = Ok (report, st2)
       /\ ABTestReport.variant_performance report = ABTest.aggregate_metrics Demo.ranked_test.
Proof.
  split; [reflexivity|]. split; [discriminate|].
  apply (report_ignores_results_recorded_after_aggregation Demo.ranked_store "t1"
           "report-1" 7 Demo.ranked_test);
    [reflexivity|discriminate].
Defined.

(** X7. Whenever [generate_report] returns, it has saved the report it
    returns under its [report_id], from where it can be read back; the
    report carries the ids it was given and empty placeholders for the
    cost-benefit analysis, the significance tests and the recommendations;
    all other reports and all comparison pairs are left as they were. *)
Theorem report_is_saved_under_its_id (st st' : Storage.t) (test_id report_id : string)
    (now : Z) (report : ABTestReport.t) :
  ABTestController.generate_report test_id report_id now st = Ok (report, st') ->
  Storage.reports st' !! report_id = Some report
  /\ ABTestReport.report_id report = report_id
  /\ ABTestReport.test_id report = test_id
  /\ ABTestReport.generated_at report = now
  /\ ABTestReport.cost_benefit_analysis report = ∅
  /\ ABTestReport.statistical_significance report = ∅
  /\ ABTestReport.recommendations report = []
  /\ (forall other, other <> report_id ->
        Storage.reports st' !! other = Storage.reports st !! other)
  /\ Storage.comparison_pairs st' = Storage.comparison_pairs st.
Proof.
  intros Hrun.
  destruct (Storage.tests st !! test_id) as [test|] eqn:Hget.
  2: { unfold ABTestController.generate_report, bind, get_test in Hrun.
       rewrite Hget in Hrun. discriminate Hrun. }
  destruct (generate_report_run _ _ _ _ _ _ _ Hget Hrun)
    as (aggs & st1 & w & os & Hsrc & _ & _ & -> & ->).
  assert (Hst1 : Storage.reports st1 = Storage.reports st
                 /\ Storage.comparison_pairs st1 = Storage.comparison_pairs st).
  { destruct (ABTest.aggregate_metrics test).
    - apply aggregate_metrics_inv in Hsrc as (test' & _ & ->). split; reflexivity.
    - destruct Hsrc as [_ ->]. split; reflexivity. }
  destruct Hst1 as [Hrep Hpairs].
  unfold with_report, report_of. simpl.
  split; [apply lookup_insert_eq|].
  repeat (split; [reflexivity|]).
  split; [|assumption].
  intros other Hother. rewrite lookup_insert_ne by congruence. now rewrite Hrep.
Qed.

Lemma report_is_saved_under_its_id_witness :
  exists report st',
    ABTestController.generate_report "t1" "report-1" 7 Demo.scenario_store
    = Ok (report, st')
    /\ Storage.reports st' !! "report-1"%string = Some report
    /\ ABTestReport.report_id report = "report-1"%string
    /\ ABTestReport.test_id report = "t1"%string
    /\ ABTestReport.generated_at report = 7%Z
    /\ ABTestReport.cost_benefit_analysis report = ∅
    /\ ABTestReport.statistical_significance report = ∅
    /\ ABTestReport.recommendations report = []
    /\ (forall other, other <> "report-1"%string ->
          Storage.reports st' !! other = Storage.reports Demo.scenario_store !! other)
    /\ Storage.comparison_pairs st' = Storage.comparison_pairs Demo.scenario_store.
Proof.
  eexists _, _. split; [vm_compute; reflexivity|].
  eapply (report_is_saved_under_its_id Demo.scenario_store _ "t1" "report-1" 7).
  vm_compute. reflexivity.
Defined.

(** ** Failed runs and the performance statistics *)

Lemma aggregate_group_inv_cost (variant_id model_id : string) (results : list TestResult.t)
    (agg : AggregateMetrics.t) :
  ABTestController.aggregate_group variant_id model_id results = Ok agg ->
  let ok := List.filter ABTestController.is_success results in
  let tokens := map TestResult.total_tokens ok in
  let costs := map TestResult.cost_usd ok in
  AggregateMetrics.total_tokens_used agg
  = match tokens with [] => 0%Z | _ => Py.sum_int tokens end
  /\ match tokens with
     | [] => Ok Float64.zero
     | _ => Float64.int_truediv (Py.sum_int tokens) (Py.len tokens)
     end = Ok (AggregateMetrics.avg_tokens_per_run agg)
  /\ AggregateMetrics.total_cost_usd agg
     = match costs with [] => Float64.zero | _ => Py.sum_float costs end
  /\ AggregateMetrics.avg_cost_per_run agg
     = match costs with
       | [] => Float64.zero
       | _ => Float64.div (Py.sum_float costs) (Float64.of_int (Py.len costs))
       end.
Proof.
  unfold ABTestController.aggregate_group. rewrite !mean_or_spec. cbn [rbind].
  destruct (match map TestResult.generation_time_ms _ with
            | [] => Ok Float64.zero | _ => statistics.median _ end) as [p50|];
    [cbn [rbind]|discriminate].
  destruct (ABTestController.percentile 94 _ _) as [p95|]; [cbn [rbind]|discriminate].
  destruct (ABTestController.percentile 98 _ _) as [p99|]; [cbn [rbind]|discriminate].
  destruct (match map TestResult.total_tokens _ with
            | [] => Ok Float64.zero | _ => Float64.int_truediv _ _ end)
    as [avg_tokens|] eqn:Htok; [cbn [rbind]|discriminate].
  destruct (match omap ABTestController.win_flag results with
            | [] => Ok None | _ => _ end) as [win|]; [cbn [rbind]|discriminate].
  destruct (match results with [] => Ok None | _ => _ end) as [pref|];
    [cbn [rbind]|discriminate].
  intros Hagg. apply Ok_inj in Hagg. subst agg.
  cbn -[Float64.div Float64.of_int Float64.int_truediv Py.len Py.sum_int Py.sum_float].
  repeat split; reflexivity.
Qed.

(** X8. A run whose status is not ["success"] never moves the latency,
    token or cost statistics of its group: when the loop body returns for
    a group and for the group with such a run appended, the second entry
    has [total_runs] and [error_runs] raised by one and the same
    [success_runs], mean and three percentiles of the generation time,
    token total and mean and cost total and mean as the first. *)
Theorem failed_run_leaves_performance_statistics (variant_id model_id : string)
    (results : list TestResult.t) (r : TestResult.t) (agg agg' : AggregateMetrics.t) :
  ABTestController.is_success r = false ->
  ABTestController.aggregate_group variant_id model_id results = Ok agg ->
  ABTestController.aggregate_group variant_id model_id (results ++ [r]) = Ok agg' ->
  AggregateMetrics.total_runs agg' = (AggregateMetrics.total_runs agg + 1)%Z
  /\ AggregateMetrics.error_runs agg' = (AggregateMetrics.error_runs agg + 1)%Z
  /\ AggregateMetrics.success_runs agg' = AggregateMetrics.success_runs agg
  /\ AggregateMetrics.avg_generation_time_ms agg'
     = AggregateMetrics.avg_generation_time_ms agg
  /\ AggregateMetrics.p50_generation_time_ms agg'
     = AggregateMetrics.p50_generation_time_ms agg
  /\ AggregateMetrics.p95_generation_time_ms agg'
     = AggregateMetrics.p95_generation_time_ms agg
  /\ AggregateMetrics.p99_generation_time_ms agg'
     = AggregateMetrics.p99_generation_time_ms agg
  /\ AggregateMetrics.total_tokens_used agg' = AggregateMetrics.total_tokens_used agg
  /\ AggregateMetrics.avg_tokens_per_run agg' = AggregateMetrics.avg_tokens_per_run agg
  /\ AggregateMetrics.total_cost_usd agg' = AggregateMetrics.total_cost_usd agg
  /\ AggregateMetrics.avg_cost_per_run agg' = AggregateMetrics.avg_cost_per_run agg.
Proof.
  intros Hfail Hagg Hagg'.
  destruct (aggregate_group_inv _ _ _ _ Hagg)
    as (_ & _ & Ht & Hs & He & Ha & H50 & H95 & H99 & _).
  destruct (aggregate_group_inv _ _ _ _ Hagg')
    as (_ & _ & Ht' & Hs' & He' & Ha' & H50' & H95' & H99' & _).
  destruct (aggregate_group_inv_cost _ _ _ _ Hagg) as (Htk & Hatk & Hc & Hac).
  destruct (aggregate_group_inv_cost _ _ _ _ Hagg') as (Htk' & Hatk' & Hc' & Hac').
  assert (Hok : List.filter ABTestController.is_success (results ++ [r])
                = List.filter ABTestController.is_success results).
  { rewrite List.filter_app. simpl. rewrite Hfail. apply app_nil_r. }
  assert (Hbad : List.filter (fun x => negb (ABTestController.is_success x)) (results ++ [r])
                 = List.filter (fun x => negb (ABTestController.is_success x)) results ++ [r]).
  { rewrite List.filter_app. simpl. now rewrite Hfail. }
  rewrite Hok in *. rewrite Hbad in He'.
  rewrite H50 in H50'. rewrite H95 in H95'. rewrite H99 in H99'. rewrite Hatk in Hatk'.
  apply Ok_inj in H50', H95', H99', Hatk'.
  rewrite Ht', He', Hs', Ha', Htk', Hc', Hac', Ht, He, Hs, Ha, Htk, Hc, Hac.
  rewrite !len_app.
  repeat split; try reflexivity; try (symmetry; assumption).
Qed.

Lemma failed_run_leaves_performance_statistics_witness :
  ABTestController.is_success (Demo.run "v1" "m1" (Float64.of_int 900) "timeout" None) = false
  /\ exists agg agg',
       ABTestController.aggregate_group "v1" "m1" Demo.scenario_results = Ok agg
       /\ ABTestController.aggregate_group "v1" "m1"
            (Demo.scenario_results
             ++ [Demo.run "v1" "m1" (Float64.of_int 900) "timeout" None]) = Ok agg'
       /\ AggregateMetrics.total_runs agg' = (AggregateMetrics.total_runs agg + 1)%Z
       /\ AggregateMetrics.error_runs agg' = (AggregateMetrics.error_runs agg + 1)%Z
       /\ AggregateMetrics.success_runs agg' = AggregateMetrics.success_runs agg
       /\ AggregateMetrics.avg_generation_time_ms agg'
          = AggregateMetrics.avg_generation_time_ms agg
       /\ AggregateMetrics.p50_generation_time_ms agg'
          = AggregateMetrics.p50_generation_time_ms agg
       /\ AggregateMetrics.p95_generation_time_ms agg'
          = AggregateMetrics.p95_generation_time_ms agg
       /\ AggregateMetrics.p99_generation_time_ms agg'
          = AggregateMetrics.p99_generation_time_ms agg
       /\ AggregateMetrics.total_tokens_used agg' = AggregateMetrics.total_tokens_used agg
       /\ AggregateMetrics.avg_tokens_per_run agg' = AggregateMetrics.avg_tokens_per_run agg
       /\ AggregateMetrics.total_cost_usd agg' = AggregateMetrics.total_cost_usd agg
       /\ AggregateMetrics.avg_cost_per_run agg' = AggregateMetrics.avg_cost_per_run agg.
Proof.
  split; [reflexivity|].
  eexists _, _. split; [vm_compute; reflexivity|]. split; [vm_compute; reflexivity|].
  eapply (failed_run_leaves_performance_statistics "v1" "m1" Demo.scenario_results
            (Demo.run "v1" "m1" (Float64.of_int 900) "timeout" None));
    [reflexivity|vm_compute; reflexivity|vm_compute; reflexivity].
Defined.

(** X9. For every stored test, whenever [aggregate_metrics] returns, an
    entry whose group has no successful run has [0.0] as mean and as every
    percentile of the generation time, [0] tokens with a mean of [0.0], a
    cost total and mean of [0.0], and at least one error run. *)
Theorem group_without_success_has_zero_statistics (st st' : Storage.t) (test_id : string)
    (test : ABTest.t) (aggregates : list AggregateMetrics.t) :
  Storage.tests st !! test_id = Some test ->
  ABTestController.aggregate_metrics test_id st = Ok (aggregates, st') ->
  forall agg, In agg aggregates -> AggregateMetrics.success_runs agg = 0%Z ->
    AggregateMetrics.avg_generation_time_ms agg = Float64.zero
    /\ AggregateMetrics.p50_generation_time_ms agg = Float64.zero
    /\ AggregateMetrics.p95_generation_time_ms agg = Float64.zero
    /\ AggregateMetrics.p99_generation_time_ms agg = Float64.zero
    /\ AggregateMetrics.total_tokens_used agg = 0%Z
    /\ AggregateMetrics.avg_tokens_per_run agg = Float64.zero
    /\ AggregateMetrics.total_cost_usd agg = Float64.zero
    /\ AggregateMetrics.avg_cost_per_run agg = Float64.zero
    /\ (1 <= AggregateMetrics.error_runs agg)%Z.
Proof.
  intros Hget Hrun.
  destruct (aggregate_metrics_run _ _ _ _ _ Hget Hrun) as [_ HF].
  intros agg Hin Hzero.
  destruct (produced_entry _ _ _ HF Hin) as [Hne Hagg].
  destruct (aggregate_group_inv _ _ _ _ Hagg)
    as (_ & _ & Ht & Hs & He & Ha & H50 & H95 & H99 & _).
  destruct (aggregate_group_inv_cost _ _ _ _ Hagg) as (Htk & Hatk & Hc & Hac).
  rewrite Hzero in Hs. symmetry in Hs. apply len_zero in Hs.
  pose proof (filter_split_len ABTestController.is_success
                (partition_of (ABTest.results test) (AggregateMetrics.variant_id agg)
                   (AggregateMetrics.model_id agg))) as Hsplit.
  pose proof (len_pos _ Hne) as Hpos.
  rewrite Hs in *. simpl in *.
  apply Ok_inj in H50, H95, H99, Hatk.
  repeat split; try congruence.
  rewrite He. unfold Py.len at 1 in Hsplit. simpl in Hsplit. lia.
Qed.

(** Pair (v1, m2) of the example has an error and a timeout and no
    success: its entry has [success_runs = 0], two error runs and zero
    statistics. *)
Lemma group_without_success_has_zero_statistics_witness :
  Storage.tests Demo.failing_store !! "t1"%string
  = Some (Demo.test_with [] [] [] Demo.failing_results [])
  /\ exists aggregates st' agg,
       ABTestController.aggregate_metrics "t1" Demo.failing_store = Ok (aggregates, st')
       /\ In agg aggregates
       /\ entry_key agg = ("v1"%string, "m2"%string)
       /\ AggregateMetrics.success_runs agg = 0%Z
       /\ AggregateMetrics.error_runs agg = 2%Z
       /\ AggregateMetrics.avg_generation_time_ms agg = Float64.zero
       /\ AggregateMetrics.p50_generation_time_ms agg = Float64.zero
       /\ AggregateMetrics.p95_generation_time_ms agg = Float64.zero
       /\ AggregateMetrics.p99_generation_time_ms agg = Float64.zero
       /\ AggregateMetrics.total_tokens_used agg = 0%Z
       /\ AggregateMetrics.avg_tokens_per_run agg = Float64.zero
       /\ AggregateMetrics.total_cost_usd agg = Float64.zero
       /\ AggregateMetrics.avg_cost_per_run agg = Float64.zero
       /\ (1 <= AggregateMetrics.error_runs agg)%Z.
Proof.
  split; [reflexivity|].
  eexists _, _, _. split; [vm_compute; reflexivity|].
  split; [right; left; reflexivity|].
  split; [reflexivity|]. split; [reflexivity|]. split; [reflexivity|].
  eapply (group_without_success_has_zero_statistics Demo.failing_store _ "t1"
            (Demo.test_with [] [] [] Demo.failing_results []));
    [reflexivity|vm_compute; reflexivity|right; left; reflexivity|reflexivity].
Defined.

(** ** Which element a small-sample percentile is *)

Lemma small_sample_percentiles (variant_id model_id : string)
    (results : list TestResult.t) (agg : AggregateMetrics.t) :
  ABTestController.aggregate_group variant_id model_id results = Ok agg ->
  (0 < Py.len (success_times results) < 100)%Z ->
  Py.getitem (statistics.sorted_floats (success_times results))
    (95 * (Py.len (success_times results) - 1) / 100)
  = Ok (AggregateMetrics.p95_generation_time_ms agg)
  /\ Py.getitem (statistics.sorted_floats (success_times results))
       (99 * (Py.len (success_times results) - 1) / 100)
     = Ok (AggregateMetrics.p99_generation_time_ms agg).
Proof.
  intros Hagg Hn.
  destruct (aggregate_group_inv _ _ _ _ Hagg)
    as (_ & _ & _ & _ & _ & _ & _ & H95 & H99 & _).
  fold (success_times results) in H95, H99.
  destruct (percentile_95_spec (success_times results)) as (v95 & Hv95 & _ & Hs95 & _).
  destruct (percentile_99_spec (success_times results)) as (v99 & Hv99 & _ & Hs99 & _).
  rewrite Hv95 in H95. apply Ok_inj in H95. subst v95.
  rewrite Hv99 in H99. apply Ok_inj in H99. subst v99.
  split; (apply getitem_of_nth; [apply Z.div_pos; lia|auto]).
Qed.

(** X10. In an entry returned by the loop body for a group whose
    successful generation times hold no NaN: with 2 to 99 successful points
    p99 is the second largest value of the sample, [sorted(times)[n-2]],
    and so is p95 with 2 to 21 points; with two points both are the smaller
    one and with a single point both are that point. *)
Theorem small_sample_percentile_is_second_largest (variant_id model_id : string)
    (results : list TestResult.t) (agg : AggregateMetrics.t) :
  ABTestController.aggregate_group variant_id model_id results = Ok agg ->
  Forall not_nan (success_times results) ->
  let times := success_times results in
  let n := Py.len times in
  ((2 <= n < 100)%Z ->
   Py.getitem (statistics.sorted_floats times) (n - 2)
   = Ok (AggregateMetrics.p99_generation_time_ms agg))
  /\ ((2 <= n <= 21)%Z ->
      Py.getitem (statistics.sorted_floats times) (n - 2)
      = Ok (AggregateMetrics.p95_generation_time_ms agg))
  /\ ((1 <= n <= 2)%Z ->
      Py.getitem (statistics.sorted_floats times) 0
      = Ok (AggregateMetrics.p95_generation_time_ms agg)
      /\ Py.getitem (statistics.sorted_floats times) 0
         = Ok (AggregateMetrics.p99_generation_time_ms agg)).
Proof.
  intros Hagg _ times n.
  pose proof (small_sample_percentiles variant_id model_id results agg Hagg) as Hsmall.
  fold times n in Hsmall.
  split; [|split].
  - intros Hn. destruct (Hsmall ltac:(lia)) as [_ H99].
    replace (n - 2)%Z with (99 * (n - 1) / 100)%Z; [assumption|].
    Z.div_mod_to_equations. lia.
  - intros Hn. destruct (Hsmall ltac:(lia)) as [H95 _].
    replace (n - 2)%Z with (95 * (n - 1) / 100)%Z; [assumption|].
    Z.div_mod_to_equations. lia.
  - intros Hn. destruct (Hsmall ltac:(lia)) as [H95 H99].
    replace 0%Z with (95 * (n - 1) / 100)%Z at 1 by (Z.div_mod_to_equations; lia).
    split; [assumption|].
    replace 0%Z with (99 * (n - 1) / 100)%Z by (Z.div_mod_to_equations; lia).
    assumption.
Qed.

(** Four successful runs of 300, 100, 400 and 200 ms: p95 and p99 are 300,
    the second largest. *)
Lemma small_sample_percentile_is_second_largest_witness :
  exists agg,
    ABTestController.aggregate_group "v1" "m1" Demo.four_runs = Ok agg
    /\ Forall not_nan (success_times Demo.four_runs)
    /\ Py.getitem (statistics.sorted_floats (success_times Demo.four_runs)) 2
       = Ok (Float64.of_int 300)
    /\ Py.getitem (statistics.sorted_floats (success_times Demo.four_runs)) 2
       = Ok (AggregateMetrics.p99_generation_time_ms agg)
    /\ Py.getitem (statistics.sorted_floats (success_times Demo.four_runs)) 2
       = Ok (AggregateMetrics.p95_generation_time_ms agg).
Proof.
  eexists. split; [vm_compute; reflexivity|].
  split; [repeat constructor|]. split; [vm_compute; reflexivity|].
  destruct (small_sample_percentile_is_second_largest "v1" "m1" Demo.four_runs _
              ltac:(vm_compute; reflexivity) ltac:(repeat constructor))
    as (H99 & H95 & _).
  split; [apply H99; vm_compute; split; [discriminate|reflexivity]
         |apply H95; vm_compute; split; discriminate].
Defined.

(** ** Ties and strict maxima in the ranking *)

Lemma sort_without_lt {A} (ltb : A -> A -> bool) (l : list A) :
  (forall x y, In x l -> In y l -> ltb x y = false) -> Py.sort ltb l = l.
Proof.
  induction l as [|x l IH]; intros Hno; [reflexivity|].
  simpl. rewrite IH by (intros; apply Hno; right; assumption).
  destruct l as [|y l']; [reflexivity|].
  simpl. rewrite Hno; [reflexivity|right; left; reflexivity|left; reflexivity].
Qed.

Lemma best_of_tied (a : AggregateMetrics.t) (rest : list AggregateMetrics.t) :
  (forall x y, In x (a :: rest) -> In y (a :: rest) ->
     ABTestController.tuple_lt (ABTestController.ranking_key x)
                               (ABTestController.ranking_key y) = false) ->
  ABTestController.best_of (a :: rest) = Ok a.
Proof.
  intros Hno. unfold ABTestController.best_of, Py.sorted.
  rewrite sort_without_lt.
  - rewrite rev_involutive. reflexivity.
  - intros x y Hx Hy. apply Hno; now apply in_rev.
Qed.

Lemma generate_report_test (st st' : Storage.t) (test_id report_id : string) (now : Z)
    (report : ABTestReport.t) :
  ABTestController.generate_report test_id report_id now st = Ok (report, st') ->
  exists test, Storage.tests st !! test_id = Some test.
Proof.
  intros Hrun. destruct (Storage.tests st !! test_id) as [test|] eqn:Hget; [eauto|].
  unfold ABTestController.generate_report, bind, get_test in Hrun.
  rewrite Hget in Hrun. discriminate Hrun.
Qed.

Lemma report_winner (st st' : Storage.t) (test_id report_id : string) (now : Z)
    (report : ABTestReport.t) :
  ABTestController.generate_report test_id report_id now st = Ok (report, st') ->
  forall v, of_variant v (ABTestReport.variant_performance report) <> [] ->
    exists best,
      ABTestController.best_of (of_variant v (ABTestReport.variant_performance report))
      = Ok best
      /\ ABTestReport.winner_analysis report !! v = Some (AggregateMetrics.model_id best).
Proof.
  intros Hrun.
  destruct (generate_report_test _ _ _ _ _ _ Hrun) as [test Hget].
  destruct (generate_report_run _ _ _ _ _ _ _ Hget Hrun)
    as (aggs & st1 & w & os & _ & Hw & _ & -> & ->).
  simpl.
  destruct (pick_winners_spec aggs) as (w' & Hw' & _ & Hsome).
  rewrite Hw in Hw'. apply Ok_inj in Hw'. subst w'.
  intros v Hv. destruct (Hsome v Hv) as (best & Hbest & _ & Hlook). eauto.
Qed.

(** X11. Whenever [generate_report] returns, a variant all of whose
    entries tie under the ranking key (keys free of NaN, none less than
    another) has as winner the model of its first entry in the order of the
    aggregates. *)
Theorem tie_goes_to_the_first_entry (st st' : Storage.t) (test_id report_id : string)
    (now : Z) (report : ABTestReport.t) (v : string) (a : AggregateMetrics.t)
    (rest : list AggregateMetrics.t) :
  ABTestController.generate_report test_id report_id now st = Ok (report, st') ->
  of_variant v (ABTestReport.variant_performance report) = a :: rest ->
  Forall rankable (a :: rest) ->
  (forall x y, In x (a :: rest) -> In y (a :: rest) ->
     ABTestController.tuple_lt (ABTestController.ranking_key x)
                               (ABTestController.ranking_key y) = false) ->
  ABTestReport.winner_analysis report !! v = Some (AggregateMetrics.model_id a).
Proof.
  intros Hrun Hov _ Htie.
  destruct (report_winner _ _ _ _ _ _ Hrun v) as (best & Hbest & Hlook);
    [rewrite Hov; discriminate|].
  rewrite Hov, (best_of_tied a rest Htie) in Hbest. apply Ok_inj in Hbest. now subst.
Qed.

(** Variant v2 of the example has two entries that agree on all four
    ranking fields: the first one, of model m1, is the winner. *)
Lemma tie_goes_to_the_first_entry_witness :
  exists report st' a b,
    ABTestController.generate_report "t1" "report-1" 7 Demo.unjudged_store
    = Ok (report, st')
    /\ of_variant "v2" (ABTestReport.variant_performance report) = [a; b]
    /\ AggregateMetrics.model_id a = "m1"%string
    /\ AggregateMetrics.model_id b = "m2"%string
    /\ ABTestReport.winner_analysis report !! "v2"%string
       = Some (AggregateMetrics.model_id a).
Proof.
  eexists _, _, _, _. split; [vm_compute; reflexivity|].
  split; [vm_compute; reflexivity|]. split; [reflexivity|]. split; [reflexivity|].
  eapply (tie_goes_to_the_first_entry Demo.unjudged_store _ "t1" "report-1" 7 _ "v2").
  - vm_compute. reflexivity.
  - vm_compute. reflexivity.
  - repeat (constructor; [vm_compute; repeat split; reflexivity|]). constructor.
  - intros x y [<-|[<-|[]]] [<-|[<-|[]]]; vm_compute; reflexivity.
Defined.

(** X12. Whenever [generate_report] returns, if within a variant the entry
    of one model has a ranking key strictly above the key of every entry of
    the other models (keys free of NaN), that model is the winner wherever
    its entry stands in the list. *)
Theorem strictly_best_model_wins (st st' : Storage.t) (test_id report_id : string)
    (now : Z) (report : ABTestReport.t) (v : string) (a : AggregateMetrics.t) :
  ABTestController.generate_report test_id report_id now st = Ok (report, st') ->
  In a (of_variant v (ABTestReport.variant_performance report)) ->
  Forall rankable (of_variant v (ABTestReport.variant_performance report)) ->
  (forall x, In x (of_variant v (ABTestReport.variant_performance report)) ->
     AggregateMetrics.model_id x <> AggregateMetrics.model_id a ->
     ABTestController.tuple_lt (ABTestController.ranking_key x)
                               (ABTestController.ranking_key a) = true) ->
  ABTestReport.winner_analysis report !! v = Some (AggregateMetrics.model_id a).
Proof.
  intros Hrun Ha Hgood Hstrict.
  set (items := of_variant v (ABTestReport.variant_performance report)) in *.
  destruct (report_winner _ _ _ _ _ _ Hrun v) as (best & Hbest & Hlook).
  { fold items. destruct items; [contradiction|discriminate]. }
  fold items in Hbest. rewrite Hlook. f_equal.
  destruct (decide (AggregateMetrics.model_id best = AggregateMetrics.model_id a))
    as [Heq|Hne]; [assumption|].
  destruct (best_of_total items) as (best' & Hbest' & Hin).
  { destruct items; [contradiction|discriminate]. }
  rewrite Hbest in Hbest'. apply Ok_inj in Hbest'. subst best'.
  pose proof (Hstrict best Hin Hne) as Hlt.
  pose proof (best_of_maximal items best Hgood Hbest a Ha) as Hmax.
  congruence.
Qed.

(** Variant v1 of the ranked example: the entry of m2, second in the
    list, has win rate 0.8 against the 0.6 of m1 and wins. *)
Lemma strictly_best_model_wins_witness :
  exists report st' a,
    ABTestController.generate_report "t1" "report-1" 7 Demo.ranked_store = Ok (report, st')
    /\ nth_error (of_variant "v1" (ABTestReport.variant_performance report)) 1 = Some a
    /\ AggregateMetrics.model_id a = "m2"%string
    /\ ABTestReport.winner_analysis report !! "v1"%string
       = Some (AggregateMetrics.model_id a).
Proof.
  eexists _, _, _. split; [vm_compute; reflexivity|].
  split; [vm_compute; reflexivity|]. split; [reflexivity|].
  eapply (strictly_best_model_wins Demo.ranked_store _ "t1" "report-1" 7 _ "v1").
  - vm_compute. reflexivity.
  - apply (nth_error_In _ 1). vm_compute. reflexivity.
  - change (of_variant "v1" _) with
      [Demo.candidate "v1" "m1" 1 (Some (Float64.lit 6 1)) (Some (Float64.of_int 5))
         (Float64.of_int 1) (Float64.of_int 100);
       Demo.candidate "v1" "m2" 3 (Some (Float64.lit 8 1)) None
         (Float64.of_int 3) (Float64.of_int 900)].
    repeat (constructor; [vm_compute; repeat split; reflexivity|]). constructor.
  - change (of_variant "v1" _) with
      [Demo.candidate "v1" "m1" 1 (Some (Float64.lit 6 1)) (Some (Float64.of_int 5))
         (Float64.of_int 1) (Float64.of_int 100);
       Demo.candidate "v1" "m2" 3 (Some (Float64.lit 8 1)) None
         (Float64.of_int 3) (Float64.of_int 900)].
    intros x [<-|[<-|[]]] Hne; [vm_compute; reflexivity|].
    exfalso. apply Hne. reflexivity.
Defined.

Lemma lt_asym (a b : float) : Float64.lt a b = true -> Float64.lt b a = false.
Proof.
  intros Hlt.
  assert (Hnn : not_nan a /\ not_nan b).
  { unfold Float64.lt, SFltb, not_nan in *.
    destruct a, b; simpl in *; try discriminate; auto. }
  destruct Hnn as [Ha Hb].
  apply lt_fcmp in Hlt; [|assumption|assumption].
  destruct (Float64.lt b a) eqn:E; [|reflexivity].
  apply lt_fcmp in E; [|assumption|assumption].
  rewrite (cmp_opp _ _ cmp_ok_float a b Ha Hb), Hlt in E. discriminate.
Qed.

Lemma eq_sym_false (a b : float) : Float64.lt a b = true -> Float64.eq b a = false.
Proof.
  intros Hlt.
  assert (Hnn : not_nan a /\ not_nan b).
  { unfold Float64.lt, SFltb, not_nan in *.
    destruct a, b; simpl in *; try discriminate; auto. }
  destruct Hnn as [Ha Hb].
  apply lt_fcmp in Hlt; [|assumption|assumption].
  destruct (Float64.eq b a) eqn:E; [|reflexivity].
  apply eq_fcmp in E; [|assumption|assumption].
  rewrite (cmp_opp _ _ cmp_ok_float a b Ha Hb), Hlt in E. discriminate.
Qed.

Lemma best_of_pair (a b : AggregateMetrics.t) :
  ABTestController.tuple_lt (ABTestController.ranking_key a)
                            (ABTestController.ranking_key b) = false ->
  ABTestController.tuple_lt (ABTestController.ranking_key b)
                            (ABTestController.ranking_key a) = true ->
  ABTestController.best_of [a; b] = Ok a /\ ABTestController.best_of [b; a] = Ok a.
Proof.
  intros Hab Hba. unfold ABTestController.best_of, Py.sorted, Py.sort.
  cbn [rev app fold_right Py.insert].
  rewrite Hab, Hba. split; reflexivity.
Qed.

(** X13. Lower cost wins between otherwise equal candidates, and a cost of
    [0.0] is the lowest: whenever [generate_report] returns, when a variant
    has two entries, neither with a win rate or a user rating, the one
    whose [avg_cost_per_run] is [0.0] (as it is for every group without a
    successful run) wins over the one with a positive [avg_cost_per_run],
    in either order.  (The costs decide before the latencies are compared,
    so a NaN latency cannot interfere.) *)
Theorem zero_cost_candidate_wins (st st' : Storage.t) (test_id report_id : string)
    (now : Z) (report : ABTestReport.t) (v : string) (a b : AggregateMetrics.t) :
  ABTestController.generate_report test_id report_id now st = Ok (report, st') ->
  of_variant v (ABTestReport.variant_performance report) = [a; b]
  \/ of_variant v (ABTestReport.variant_performance report) = [b; a] ->
  AggregateMetrics.win_rate a = None -> AggregateMetrics.win_rate b = None ->
  AggregateMetrics.avg_user_rating a = None ->
  AggregateMetrics.avg_user_rating b = None ->
  AggregateMetrics.avg_cost_per_run a = Float64.zero ->
  Float64.lt Float64.zero (AggregateMetrics.avg_cost_per_run b) = true ->
  ABTestReport.winner_analysis report !! v = Some (AggregateMetrics.model_id a).
Proof.
  intros Hrun Hov Hwa Hwb Hra Hrb Hca Hcb.
  destruct (report_winner _ _ _ _ _ _ Hrun v) as (best & Hbest & Hlook);
    [destruct Hov as [->| ->]; discriminate|].
  assert (Hcb' : ABTestController.or_0 (AggregateMetrics.avg_cost_per_run b)
                 = AggregateMetrics.avg_cost_per_run b).
  { unfold ABTestController.or_0.
    destruct (AggregateMetrics.avg_cost_per_run b); simpl in *; try reflexivity.
    discriminate Hcb. }
  destruct (best_of_pair a b) as [Hab Hba].
  - destruct (ABTestController.tuple_lt _ _) eqn:E; [|reflexivity].
    apply ranking_order_ladder in E. cbv zeta in E.
    rewrite Hwa, Hwb, Hra, Hrb, Hca, Hcb' in E. simpl in E.
    change (ABTestController.or_0 Float64.zero) with Float64.zero in E.
    change (Float64.lt Float64.zero Float64.zero) with false in E.
    rewrite (lt_asym _ _ Hcb), (eq_sym_false _ _ Hcb) in E.
    intuition discriminate.
  - apply ranking_order_ladder. cbv zeta.
    rewrite Hwa, Hwb, Hra, Hrb, Hca, Hcb'. simpl.
    change (ABTestController.or_0 Float64.zero) with Float64.zero.
    right. split; [reflexivity|]. right. split; [reflexivity|]. left. exact Hcb.
  - rewrite Hlook. f_equal. f_equal.
    destruct Hov as [Hov|Hov]; rewrite Hov in Hbest; congruence.
Qed.

(** Variant v1 of the unjudged example: m1 costs 2 per run and comes
    first, m2 costs nothing and wins. *)
Lemma zero_cost_candidate_wins_witness :
  exists report st' a b,
    ABTestController.generate_report "t1" "report-1" 7 Demo.unjudged_store
    = Ok (report, st')
    /\ of_variant "v1" (ABTestReport.variant_performance report) = [b; a]
    /\ AggregateMetrics.model_id a = "m2"%string
    /\ AggregateMetrics.avg_cost_per_run a = Float64.zero
    /\ AggregateMetrics.avg_cost_per_run b = Float64.of_int 2
    /\ ABTestReport.winner_analysis report !! "v1"%string
       = Some (AggregateMetrics.model_id a).
Proof.
  eexists _, _, _, _. split; [vm_compute; reflexivity|].
  split; [vm_compute; reflexivity|].
  split; [reflexivity|]. split; [reflexivity|]. split; [reflexivity|].
  eapply (zero_cost_candidate_wins Demo.unjudged_store _ "t1" "report-1" 7 _ "v1").
  - vm_compute. reflexivity.
  - right. vm_compute. reflexivity.
  - reflexivity.
  - reflexivity.
  - reflexivity.
  - reflexivity.
  - reflexivity.
  - vm_compute. reflexivity.
Defined.

(** ** What one controller call does to the test table *)

Lemma extends_refl (t : ABTest.t) : extends t t.
Proof.
  unfold extends. repeat (split; [reflexivity|]).
  split; [exists []; now rewrite app_nil_r|auto].
Qed.

Lemma extends_trans (t1 t2 t3 : ABTest.t) : extends t1 t2 -> extends t2 t3 -> extends t1 t3.
Proof.
  unfold extends.
  intros (A1 & A2 & A3 & A4 & A5 & A6 & A7 & A8 & A9 & A10 & [m1 A11] & A12)
         (B1 & B2 & B3 & B4 & B5 & B6 & B7 & B8 & B9 & B10 & [m2 B11] & B12).
  repeat (split; [congruence|]).
  split.
  - exists (m1 ++ m2). rewrite B11, A11. now rewrite app_assoc.
  - destruct B12 as [B12|B12]; [rewrite B12; exact A12|auto].
Qed.

(** A call leaves the test table as it is, or saves one record under its
    own id: an existing record after an update that [extends] it, or (for
    [create_test]) a new DRAFT test without results. *)
Lemma run_op_tests (o : op) (st : Storage.t) :
  Storage.tests (run_op o st) = Storage.tests st
  \/ (exists k t t',
        Storage.tests st !! k = Some t /\ extends t t'
        /\ Storage.tests (run_op o st) = <[ABTest.test_id t' := t']> (Storage.tests st))
  \/ (exists payload created_by test_id now t',
        o = OpCreate payload created_by test_id now
        /\ ABTest.test_id t' = test_id /\ ABTest.status t' = DRAFT
        /\ ABTest.results t' = [] /\ ABTest.aggregate_metrics t' = []
        /\ Storage.tests (run_op o st) = <[test_id := t']> (Storage.tests st)).
Proof.
  destruct o as [payload created_by test_id now|test_id now|test_id|test_id now
                |test_id r|test_id|cid test_id ra rb|now cid pref dims fb by_
                |test_id report_id now]; simpl.
  - unfold ABTestControllerRest.create_test.
    destruct (CreatePayload.prompt_variants payload) as [pv|]; [|left; reflexivity].
    destruct (CreatePayload.model_configs payload) as [mc|]; [|left; reflexivity].
    destruct (CreatePayload.traffic_allocation payload) as [ta|]; [|left; reflexivity].
    right. right. simpl. eexists payload, created_by, test_id, now, _.
    repeat split; reflexivity.
  - unfold state_after, ABTestControllerRest.start_test, bind, get_test, save_test, ret.
    destruct (Storage.tests st !! test_id) as [t|] eqn:Hget; [|left; reflexivity].
    right. left. simpl. eexists test_id, t, (ABTestUpdate.set_started_at (ABTestUpdate.set_status t RUNNING) (Some now)). split; [exact Hget|].
    split; [|reflexivity].
    unfold extends. simpl. repeat (split; [reflexivity|]).
    split; [exists []; now rewrite app_nil_r|auto].
  - unfold state_after, ABTestControllerRest.pause_test, bind, get_test, save_test, ret.
    destruct (Storage.tests st !! test_id) as [t|] eqn:Hget; [|left; reflexivity].
    right. left. simpl. eexists test_id, t, (ABTestUpdate.set_status t PAUSED). split; [exact Hget|].
    split; [|reflexivity].
    unfold extends. simpl. repeat (split; [reflexivity|]).
    split; [exists []; now rewrite app_nil_r|auto].
  - unfold state_after, ABTestControllerRest.complete_test, bind, get_test, save_test, ret.
    destruct (Storage.tests st !! test_id) as [t|] eqn:Hget; [|left; reflexivity].
    right. left. simpl. eexists test_id, t, (ABTestUpdate.set_completed_at (ABTestUpdate.set_status t COMPLETED) (Some now)). split; [exact Hget|].
    split; [|reflexivity].
    unfold extends. simpl. repeat (split; [reflexivity|]).
    split; [exists []; now rewrite app_nil_r|auto].
  - unfold state_after, ABTestControllerRest.record_result, bind, get_test, save_test, ret.
    destruct (Storage.tests st !! test_id) as [t|] eqn:Hget; [|left; reflexivity].
    right. left. simpl. eexists test_id, t, (ABTestUpdate.append_result t _). split; [exact Hget|].
    split; [|reflexivity].
    unfold extends. simpl. repeat (split; [reflexivity|]).
    split; [eexists; reflexivity|auto].
  - unfold state_after.
    destruct (ABTestController.aggregate_metrics test_id st) as [[aggs st']|e] eqn:Hrun;
      [|left; reflexivity].
    destruct (aggregate_metrics_inv _ _ _ _ Hrun) as (t & Hget & ->).
    right. left. exists test_id, t, (ABTest.set_aggregate_metrics t aggs).
    split; [exact Hget|]. split; [|reflexivity].
    unfold extends. simpl. repeat (split; [reflexivity|]).
    split; [exists []; now rewrite app_nil_r|auto].
  - left. reflexivity.
  - left. unfold state_after, ABTestControllerRest.submit_user_rating, bind,
      get_comparison_pair, save_comparison_pair, ret.
    destruct (Storage.comparison_pairs st !! cid); reflexivity.
  - unfold state_after.
    destruct (ABTestController.generate_report test_id report_id now st)
      as [[report st']|e] eqn:Hrun; [|left; reflexivity].
    destruct (generate_report_test _ _ _ _ _ _ Hrun) as [t Hget].
    destruct (generate_report_run _ _ _ _ _ _ _ Hget Hrun)
      as (aggs & st1 & w & os & Hsrc & _ & _ & _ & ->).
    unfold with_report. simpl.
    destruct (ABTest.aggregate_metrics t).
    + apply aggregate_metrics_inv in Hsrc as (t' & Hget' & ->).
      rewrite Hget in Hget'. injection Hget' as <-.
      right. left. exists test_id, t, (ABTest.set_aggregate_metrics t aggs).
      split; [exact Hget|]. split; [|reflexivity].
      unfold extends. simpl. repeat (split; [reflexivity|]).
      split; [exists []; now rewrite app_nil_r|auto].
    + destruct Hsrc as [_ ->]. left. reflexivity.
Qed.

Lemma run_op_well_keyed (o : op) (st : Storage.t) :
  well_keyed st -> well_keyed (run_op o st).
Proof.
  intros Hwk k test.
  destruct (run_op_tests o st) as [->|[(k0 & t & t' & _ & _ & ->)
                                     |(p & c & id & n & t' & _ & Hid & _ & _ & _ & ->)]].
  - apply Hwk.
  - destruct (decide (ABTest.test_id t' = k)) as [<-|Hne].
    + rewrite lookup_insert_eq. now intros [= <-].
    + rewrite lookup_insert_ne by assumption. apply Hwk.
  - destruct (decide (id = k)) as [<-|Hne].
    + rewrite lookup_insert_eq. now intros [= <-].
    + rewrite lookup_insert_ne by assumption. apply Hwk.
Qed.

Lemma run_op_extends (o : op) (st : Storage.t) (k : string) (t : ABTest.t) :
  well_keyed st -> admissible o st ->
  Storage.tests st !! k = Some t ->
  exists t', Storage.tests (run_op o st) !! k = Some t' /\ extends t t'.
Proof.
  intros Hwk Hadm Hget.
  destruct (run_op_tests o st) as [->|[(k0 & t0 & t' & Hget0 & Hext & ->)
                                     |(p & c & id & n & t' & -> & Hid & _ & _ & _ & ->)]].
  - exists t. split; [assumption|apply extends_refl].
  - assert (Hk0 : ABTest.test_id t' = k0).
    { destruct Hext as (-> & _). now apply Hwk. }
    rewrite Hk0. destruct (decide (k0 = k)) as [->|Hne].
    + rewrite Hget in Hget0. injection Hget0 as <-.
      exists t'. split; [apply lookup_insert_eq|assumption].
    + exists t. split; [now rewrite lookup_insert_ne|apply extends_refl].
  - simpl in Hadm. destruct (decide (id = k)) as [->|Hne]; [congruence|].
    exists t. split; [now rewrite lookup_insert_ne|apply extends_refl].
Qed.

Lemma run_op_archived (o : op) (st : Storage.t) :
  (forall k t, Storage.tests st !! k = Some t -> ABTest.status t <> ARCHIVED) ->
  forall k t, Storage.tests (run_op o st) !! k = Some t -> ABTest.status t <> ARCHIVED.
Proof.
  intros Hno k t.
  destruct (run_op_tests o st) as [->|[(k0 & t0 & t' & Hget0 & Hext & ->)
                                     |(p & c & id & n & t' & _ & Hid & Hst & _ & _ & ->)]].
  - apply Hno.
  - destruct (decide (ABTest.test_id t' = k)) as [<-|Hne].
    + rewrite lookup_insert_eq. intros [= <-].
      destruct Hext as (_ & _ & _ & _ & _ & _ & _ & _ & _ & _ & _ & Hs).
      destruct Hs as [Hs|[Hs|[Hs|Hs]]]; rewrite Hs; try discriminate.
      eapply Hno; eauto.
    + rewrite lookup_insert_ne by assumption. apply Hno.
  - destruct (decide (id = k)) as [<-|Hne].
    + rewrite lookup_insert_eq. intros [= <-]. rewrite Hst. discriminate.
    + rewrite lookup_insert_ne by assumption. apply Hno.
Qed.

(** ** Invariants of every sequence of calls *)

(** X14. No sequence of controller calls removes a test, changes its
    identity or configuration, or drops or alters a recorded result.  From
    a storage that holds each Test record under its own [test_id], every
    reachable storage does so too, and a test found at the start is found
    under the same id afterwards with the same name, description, variants,
    model configurations, traffic allocation, sample size, creator and
    creation time, and with its results as a prefix of the later results. *)
Theorem tests_only_grow (st0 st : Storage.t) :
  well_keyed st0 -> reachable st0 st ->
  well_keyed st
  /\ forall k t, Storage.tests st0 !! k = Some t ->
       exists t', Storage.tests st !! k = Some t' /\ extends t t'.
Proof.
  intros Hwk Hreach. induction Hreach as [|st o Hreach [IHwk IH] Hadm].
  - split; [assumption|]. intros k t Hget.
    exists t. split; [assumption|apply extends_refl].
  - split; [now apply run_op_well_keyed|].
    intros k t Hget. destruct (IH k t Hget) as (t1 & Hget1 & Hext1).
    destruct (run_op_extends o st k t1 IHwk Hadm Hget1) as (t2 & Hget2 & Hext2).
    exists t2. split; [assumption|]. eapply extends_trans; eauto.
Qed.

Lemma scenario_store_well_keyed : well_keyed Demo.scenario_store.
Proof.
  intros k test Hget. unfold Demo.scenario_store, Demo.store_of in Hget. simpl in Hget.
  apply lookup_singleton_Some in Hget as [<- <-]. reflexivity.
Qed.

Lemma tests_only_grow_witness :
  well_keyed Demo.scenario_store
  /\ reachable Demo.scenario_store
       (run_op (OpAggregate "t1")
          (run_op (OpRecord "t1" (Demo.run "v1" "m2" (Float64.of_int 50) "error" None))
             (run_op (OpStart "t1" 5) Demo.scenario_store)))
  /\ (well_keyed
        (run_op (OpAggregate "t1")
           (run_op (OpRecord "t1" (Demo.run "v1" "m2" (Float64.of_int 50) "error" None))
              (run_op (OpStart "t1" 5) Demo.scenario_store)))
      /\ forall k t, Storage.tests Demo.scenario_store !! k = Some t ->
           exists t',
             Storage.tests
               (run_op (OpAggregate "t1")
                  (run_op (OpRecord "t1"
                             (Demo.run "v1" "m2" (Float64.of_int 50) "error" None))
                     (run_op (OpStart "t1" 5) Demo.scenario_store))) !! k = Some t'
             /\ extends t t').
Proof.
  assert (Hreach : reachable Demo.scenario_store
       (run_op (OpAggregate "t1")
          (run_op (OpRecord "t1" (Demo.run "v1" "m2" (Float64.of_int 50) "error" None))
             (run_op (OpStart "t1" 5) Demo.scenario_store)))).
  { repeat (apply reachable_call; [|exact I]). apply reachable_here. }
  split; [exact scenario_store_well_keyed|]. split; [exact Hreach|].
  exact (tests_only_grow _ _ scenario_store_well_keyed Hreach).
Defined.

(** X15. The controller never archives a test: from a storage without an
    ARCHIVED test, no sequence of calls reaches a storage with one. *)
Theorem archived_is_never_assigned (st0 st : Storage.t) :
  (forall k t, Storage.tests st0 !! k = Some t -> ABTest.status t <> ARCHIVED) ->
  reachable st0 st ->
  forall k t, Storage.tests st !! k = Some t -> ABTest.status t <> ARCHIVED.
Proof.
  intros Hno Hreach. induction Hreach as [|st o _ IH _]; [assumption|].
  now apply run_op_archived.
Qed.

Lemma archived_is_never_assigned_witness :
  (forall k t, Storage.tests Demo.scenario_store !! k = Some t ->
               ABTest.status t <> ARCHIVED)
  /\ reachable Demo.scenario_store
       (run_op (OpComplete "t1" 9) (run_op (OpPause "t1") Demo.scenario_store))
  /\ forall k t,
       Storage.tests (run_op (OpComplete "t1" 9) (run_op (OpPause "t1") Demo.scenario_store))
         !! k = Some t ->
       ABTest.status t <> ARCHIVED.
Proof.
  assert (Hno : forall k t, Storage.tests Demo.scenario_store !! k = Some t ->
                            ABTest.status t <> ARCHIVED).
  { intros k t Hget. unfold Demo.scenario_store, Demo.store_of in Hget. simpl in Hget.
    apply lookup_singleton_Some in Hget as [_ <-]. discriminate. }
  assert (Hreach : reachable Demo.scenario_store
            (run_op (OpComplete "t1" 9) (run_op (OpPause "t1") Demo.scenario_store))).
  { repeat (apply reachable_call; [|exact I]). apply reachable_here. }
  split; [exact Hno|]. split; [exact Hreach|].
  exact (archived_is_never_assigned _ _ Hno Hreach).
Defined.

(** ** Recording, lifecycle and ratings composed with aggregation *)

Lemma aggregate_metrics_same_tests (st st2 : Storage.t) (test_id : string)
    (aggregates : list AggregateMetrics.t) (st1 : Storage.t) :
  Storage.tests st2 = Storage.tests st ->
  ABTestController.aggregate_metrics test_id st = Ok (aggregates, st1) ->
  exists st3, ABTestController.aggregate_metrics test_id st2 = Ok (aggregates, st3).
Proof.
  intros Htests Hrun.
  destruct (aggregate_metrics_inv _ _ _ _ Hrun) as (test & Hget & _).
  destruct (aggregate_metrics_run _ _ _ _ _ Hget Hrun) as [_ HF].
  assert (Hget2 : Storage.tests st2 !! test_id = Some test) by now rewrite Htests.
  rewrite (aggregate_metrics_returns st2 test_id test aggregates Hget2 HF). eauto.
Qed.

(** X16. A recorded result is counted by the next aggregation: for a test
    stored under its own id, whenever [aggregate_metrics] returns after
    [record_result], its entries have one more run in total than the test
    had results, and the pair of the new result has an entry. *)
Theorem recorded_result_is_counted (st st' : Storage.t) (test_id : string)
    (test : ABTest.t) (r : TestResult.t) (aggregates : list AggregateMetrics.t) :
  Storage.tests st !! test_id = Some test ->
  ABTest.test_id test = test_id ->
  ABTestController.aggregate_metrics test_id (run_op (OpRecord test_id r) st)
  = Ok (aggregates, st') ->
  Py.sum_int (map AggregateMetrics.total_runs aggregates)
  = (Py.len (ABTest.results test) + 1)%Z
  /\ In (TestResult.variant_id r, TestResult.model_id r) (map entry_key aggregates).
Proof.
  intros Hget Hid.
  rewrite (record_result_run st test_id r test Hget).
  set (result := TestResult.mk _ _ _ _ _ _ _ _ _ _ _ _ _ _ _ _ _ _).
  set (st1 := Storage.mk _ _ _).
  intros Hrun.
  assert (Hget1 : Storage.tests st1 !! test_id = Some (ABTestUpdate.append_result test result)).
  { subst st1. simpl. rewrite Hid. apply lookup_insert_eq. }
  destruct (aggregate_metrics_run _ _ _ _ _ Hget1 Hrun) as [_ HF].
  simpl in HF.
  split.
  - rewrite <- (filter_all (ABTest.results test)).
    replace (Py.len (List.filter (fun _ => true) (ABTest.results test)) + 1)%Z
      with (Py.len (List.filter (fun _ : TestResult.t => true)
                                (ABTest.results test ++ [result])))
      by (rewrite !filter_all, len_app; reflexivity).
    apply (sum_over_results (fun _ => true)); [assumption|].
    intros v m rs agg Hagg.
    destruct (aggregate_group_inv _ _ _ _ Hagg) as (_ & _ & Htot & _).
    now rewrite filter_all.
  - rewrite (produced_keys _ _ HF).
    destruct (grouping_spec ABTestController.pair_key (ABTest.results test ++ [result]))
      as (_ & _ & Hcov).
    apply (Hcov result). apply in_or_app. right. left. reflexivity.
Qed.

(** A failed run of the new pair (v1, m2) recorded on the three-run
    scenario: the next aggregation counts 4 runs and has two entries. *)
Lemma recorded_result_is_counted_witness :
  Storage.tests Demo.scenario_store !! "t1"%string = Some Demo.scenario_test
  /\ ABTest.test_id Demo.scenario_test = "t1"%string
  /\ exists aggregates st',
       ABTestController.aggregate_metrics "t1"
         (run_op (OpRecord "t1" (Demo.run "v1" "m2" (Float64.of_int 50) "error" None))
                 Demo.scenario_store)
       = Ok (aggregates, st')
       /\ map entry_key aggregates
          = [("v1"%string, "m1"%string); ("v1"%string, "m2"%string)]
       /\ Py.sum_int (map AggregateMetrics.total_runs aggregates)
          = (Py.len (ABTest.results Demo.scenario_test) + 1)%Z
       /\ In (TestResult.variant_id (Demo.run "v1" "m2" (Float64.of_int 50) "error" None),
              TestResult.model_id (Demo.run "v1" "m2" (Float64.of_int 50) "error" None))
             (map entry_key aggregates).
Proof.
  split; [reflexivity|]. split; [reflexivity|].
  eexists _, _. split; [vm_compute; reflexivity|]. split; [reflexivity|].
  eapply (recorded_result_is_counted Demo.scenario_store _ "t1" Demo.scenario_test);
    [reflexivity|reflexivity|vm_compute; reflexivity].
Defined.

(** X17. The lifecycle calls are unguarded: [start_test] on a test that
    [complete_test] has just completed succeeds and leaves it RUNNING with
    the new [started_at], while [completed_at] keeps the completion time;
    the results are untouched and the record is saved. *)
Theorem completed_test_can_be_restarted (st : Storage.t) (test_id : string)
    (test : ABTest.t) (completed_time restart_time : Z) :
  Storage.tests st !! test_id = Some test ->
  ABTest.test_id test = test_id ->
  exists t' st',
    ABTestControllerRest.start_test test_id restart_time
      (run_op (OpComplete test_id completed_time) st) = Ok (t', st')
    /\ Storage.tests (run_op (OpComplete test_id completed_time) st) !! test_id
       = Some (ABTestUpdate.set_completed_at (ABTestUpdate.set_status test COMPLETED)
                 (Some completed_time))
    /\ ABTest.status t' = RUNNING
    /\ ABTest.started_at t' = Some restart_time
    /\ ABTest.completed_at t' = Some completed_time
    /\ ABTest.results t' = ABTest.results test
    /\ ABTest.aggregate_metrics t' = ABTest.aggregate_metrics test
    /\ Storage.tests st' !! test_id = Some t'.
Proof.
  intros Hget Hid.
  assert (Hst1 : run_op (OpComplete test_id completed_time) st
                 = Storage.mk
                     (<[test_id := ABTestUpdate.set_completed_at
                                     (ABTestUpdate.set_status test COMPLETED)
                                     (Some completed_time)]> (Storage.tests st))
                     (Storage.comparison_pairs st) (Storage.reports st)).
  { unfold run_op, state_after, ABTestControllerRest.complete_test, bind, get_test,
      save_test, ret. rewrite Hget. simpl. now rewrite Hid. }
  rewrite Hst1.
  unfold ABTestControllerRest.start_test, bind, get_test, save_test, ret. simpl.
  rewrite lookup_insert_eq. simpl. rewrite Hid.
  eexists _, _. split; [reflexivity|]. simpl.
  split; [reflexivity|].
  repeat (split; [reflexivity|]). apply lookup_insert_eq.
Qed.

Lemma completed_test_can_be_restarted_witness :
  Storage.tests Demo.scenario_store !! "t1"%string = Some Demo.scenario_test
  /\ ABTest.test_id Demo.scenario_test = "t1"%string
  /\ exists t' st',
       ABTestControllerRest.start_test "t1" 20
         (run_op (OpComplete "t1" 10) Demo.scenario_store) = Ok (t', st')
       /\ Storage.tests (run_op (OpComplete "t1" 10) Demo.scenario_store) !! "t1"%string
          = Some (ABTestUpdate.set_completed_at
                    (ABTestUpdate.set_status Demo.scenario_test COMPLETED) (Some 10%Z))
       /\ ABTest.status t' = RUNNING
       /\ ABTest.started_at t' = Some 20%Z
       /\ ABTest.completed_at t' = Some 10%Z
       /\ ABTest.results t' = ABTest.results Demo.scenario_test
       /\ ABTest.aggregate_metrics t' = ABTest.aggregate_metrics Demo.scenario_test
       /\ Storage.tests st' !! "t1"%string = Some t'.
Proof.
  split; [reflexivity|]. split; [reflexivity|].
  apply (completed_test_can_be_restarted Demo.scenario_store "t1" Demo.scenario_test 10 20);
    reflexivity.
Defined.

(** X18. Comparison pairs and their ratings never reach the aggregates:
    creating a pair or submitting a rating changes no Test record, so
    [aggregate_metrics] returns afterwards the list it would have returned
    before (in particular the same [win_rate]s). *)
Theorem ratings_do_not_reach_the_aggregates (st st1 : Storage.t) (test_id : string)
    (aggregates : list AggregateMetrics.t)
    (comparison_id pair_test_id result_a_id result_b_id : string)
    (now : Z) (user_preference : string) (rating_dimensions : list (string * float))
    (feedback : option string) (rated_by : string) :
  ABTestController.aggregate_metrics test_id st = Ok (aggregates, st1) ->
  Storage.tests (run_op (OpPair comparison_id pair_test_id result_a_id result_b_id) st)
  = Storage.tests st
  /\ Storage.tests (run_op (OpRate now comparison_id user_preference rating_dimensions
                              feedback rated_by) st)
     = Storage.tests st
  /\ (exists st2,
        ABTestController.aggregate_metrics test_id
          (run_op (OpPair comparison_id pair_test_id result_a_id result_b_id) st)
        = Ok (aggregates, st2))
  /\ (exists st3,
        ABTestController.aggregate_metrics test_id
          (run_op (OpRate now comparison_id user_preference rating_dimensions
                     feedback rated_by) st)
        = Ok (aggregates, st3)).
Proof.
  intros Hrun.
  assert (H1 : Storage.tests
                 (run_op (OpPair comparison_id pair_test_id result_a_id result_b_id) st)
               = Storage.tests st) by reflexivity.
  assert (H2 : Storage.tests
                 (run_op (OpRate now comparison_id user_preference rating_dimensions
                            feedback rated_by) st)
               = Storage.tests st).
  { unfold run_op, state_after, ABTestControllerRest.submit_user_rating, bind,
      get_comparison_pair, save_comparison_pair, ret.
    destruct (Storage.comparison_pairs st !! comparison_id); reflexivity. }
  split; [exact H1|]. split; [exact H2|].
  split; eapply aggregate_metrics_same_tests; eauto.
Qed.

Lemma ratings_do_not_reach_the_aggregates_witness :
  exists aggregates st1,
    ABTestController.aggregate_metrics "t1" Demo.judged_once_store = Ok (aggregates, st1)
    /\ (exists st2,
          ABTestController.aggregate_metrics "t1"
            (run_op (OpPair "c1" "t1" "r" "r") Demo.judged_once_store)
          = Ok (aggregates, st2))
    /\ (exists st3,
          ABTestController.aggregate_metrics "t1"
            (run_op (OpRate 3 "c1" "a" [] None "rater") Demo.judged_once_store)
          = Ok (aggregates, st3)).
Proof.
  eexists _, _. split; [vm_compute; reflexivity|].
  eapply (ratings_do_not_reach_the_aggregates Demo.judged_once_store _ "t1" _
            "c1" "t1" "r" "r" 3 "a" [] None "rater").
  vm_compute. reflexivity.
Defined.

(** ** Comparison pairs *)

(** X19. A comparison pair is created and rated without any check: for
    every storage and all ids (whether or not the test or the results
    exist) and every preference string, [submit_user_rating] on the pair
    just created succeeds and saves the pair with the rating; a second
    rating succeeds too and replaces the first.  On an id without a pair it
    raises [NotFound]. *)
Theorem pair_is_rated_without_checks (st : Storage.t)
    (comparison_id test_id result_a_id result_b_id : string)
    (now now2 : Z) (preference preference2 : string)
    (dimensions dimensions2 : list (string * float)) (feedback feedback2 : option string)
    (rated_by rated_by2 : string) :
  let rated :=
    ComparisonPair.mk comparison_id test_id result_a_id result_b_id
      (Some preference) dimensions feedback (Some now) (Some rated_by) in
  let rated2 :=
    ComparisonPair.mk comparison_id test_id result_a_id result_b_id
      (Some preference2) dimensions2 feedback2 (Some now2) (Some rated_by2) in
  exists st1 st2,
    ABTestControllerRest.submit_user_rating now comparison_id preference dimensions
      feedback rated_by
      (run_op (OpPair comparison_id test_id result_a_id result_b_id) st)
    = Ok (rated, st1)
    /\ Storage.comparison_pairs st1 !! comparison_id = Some rated
    /\ ABTestControllerRest.submit_user_rating now2 comparison_id preference2 dimensions2
         feedback2 rated_by2 st1
       = Ok (rated2, st2)
    /\ Storage.comparison_pairs st2 !! comparison_id = Some rated2
    /\ Storage.tests st2 = Storage.tests st
    /\ (Storage.comparison_pairs st !! comparison_id = None ->
        ABTestControllerRest.submit_user_rating now comparison_id preference dimensions
          feedback rated_by st = Raise NotFound).
Proof.
  intros rated rated2.
  unfold run_op, state_after, ABTestControllerRest.create_comparison_pair,
    ABTestControllerRest.submit_user_rating, bind, get_comparison_pair,
    save_comparison_pair, ret. simpl.
  rewrite lookup_insert_eq. simpl.
  eexists _, _. split; [reflexivity|]. simpl.
  split; [apply lookup_insert_eq|].
  rewrite lookup_insert_eq. simpl.
  split; [reflexivity|]. simpl.
  split; [apply lookup_insert_eq|].
  split; [reflexivity|].
  intros ->. reflexivity.
Qed.

(** ** Creating a test *)

(** X20. With the three required lists present, [create_test] stores a
    DRAFT test without results under the new id, fills the absent optional
    keys with their defaults and leaves every other test as it was; a
    report generated right after it does not raise, counts 0 runs, names no
    winner and carries the name, status and list lengths of the new test. *)
Theorem created_test_is_stored_and_reports_empty (payload : CreatePayload.t)
    (created_by test_id report_id : string) (now report_time : Z) (st : Storage.t)
    (variants : list PromptVariant.t) (models : list ModelConfig.t)
    (allocation : list TrafficAllocation.t) :
  CreatePayload.prompt_variants payload = Some variants ->
  CreatePayload.model_configs payload = Some models ->
  CreatePayload.traffic_allocation payload = Some allocation ->
  exists test st',
    ABTestControllerRest.create_test payload created_by test_id now st = Created test st'
    /\ Storage.tests st' !! test_id = Some test
    /\ (forall other, other <> test_id -> Storage.tests st' !! other = Storage.tests st !! other)
    /\ ABTest.status test = DRAFT
    /\ ABTest.results test = []
    /\ ABTest.started_at test = None
    /\ ABTest.test_name test
       = ABTestControllerRest.get_or "Untitled AB Test"%string (CreatePayload.test_name payload)
    /\ ABTest.sample_size test
       = ABTestControllerRest.get_or 100%Z (CreatePayload.sample_size payload)
    /\ ABTest.parallel_execution test
       = ABTestControllerRest.get_or true (CreatePayload.parallel_execution payload)
    /\ exists report st'',
         ABTestController.generate_report test_id report_id report_time st'
         = Ok (report, st'')
         /\ OverallStats.total_runs (ABTestReport.overall_stats report) = 0%Z
         /\ ABTestReport.winner_analysis report = ∅
         /\ ABTestReport.variant_performance report = []
         /\ TestSummary.name (ABTestReport.test_summary report)
            = ABTestControllerRest.get_or "Untitled AB Test"%string
                (CreatePayload.test_name payload)
         /\ TestSummary.status (ABTestReport.test_summary report) = DRAFT
         /\ TestSummary.prompt_variants (ABTestReport.test_summary report) = Py.len variants
         /\ TestSummary.model_configs (ABTestReport.test_summary report) = Py.len models.
Proof.
  intros Hv Hm Ha.
  unfold ABTestControllerRest.create_test. rewrite Hv, Hm, Ha. simpl.
  set (test := ABTest.mk _ _ _ _ _ _ _ _ _ _ _ _ _ _ _).
  set (st' := Storage.mk _ _ _).
  assert (Hget : Storage.tests st' !! test_id = Some test) by apply lookup_insert_eq.
  exists test, st'. split; [reflexivity|]. split; [exact Hget|].
  split; [intros other Hne; subst st'; simpl; now rewrite lookup_insert_ne|].
  repeat (split; [reflexivity|]).
  assert (Hagg : ABTestController.aggregate_metrics test_id st'
                 = Ok ([], with_aggregates st' test [])).
  { apply aggregate_metrics_returns; [exact Hget|]. constructor. }
  destruct (generate_report_returns st' (with_aggregates st' test []) test_id report_id
              report_time test [] Hget Hagg) as (w & os & Hw & Hos & Hrun).
  change (Ok ∅ = Ok w) in Hw. injection Hw as <-.
  rewrite overall_stats_of_spec in Hos. injection Hos as <-.
  eexists _, _. split; [exact Hrun|].
  repeat split; reflexivity.
Qed.

Lemma created_test_is_stored_and_reports_empty_witness :
  exists test st',
    ABTestControllerRest.create_test
      (CreatePayload.mk None None (Some []) (Some []) (Some []) None None)
      "alice" "t2" 1 Demo.scenario_store = Created test st'
    /\ Storage.tests st' !! "t2"%string = Some test
    /\ ABTest.test_name test = "Untitled AB Test"%string
    /\ ABTest.sample_size test = 100%Z
    /\ Storage.tests st' !! "t1"%string = Some Demo.scenario_test.
Proof.
  destruct (created_test_is_stored_and_reports_empty
              (CreatePayload.mk None None (Some []) (Some []) (Some []) None None)
              "alice" "t2" "report-1" 1 2 Demo.scenario_store [] [] []
              eq_refl eq_refl eq_refl)
    as (test & st' & Hc & Hget & Hother & _ & _ & _ & Hname & Hsize & _).
  exists test, st'. split; [exact Hc|]. split; [exact Hget|].
  split; [exact Hname|]. split; [exact Hsize|].
  rewrite (Hother "t1"%string); [reflexivity|discriminate].
Defined.

(** X21. [create_test] raises [KeyError] exactly when one of
    [prompt_variants], [model_configs], [traffic_allocation] is absent from
    the payload, and names the first absent one in that order; nothing is
    saved then.  The other keys may all be absent. *)
Theorem create_test_names_first_missing_key (payload : CreatePayload.t)
    (created_by test_id : string) (now : Z) (st : Storage.t) (key : string) :
  (ABTestControllerRest.create_test payload created_by test_id now st = KeyError key
   <-> (CreatePayload.prompt_variants payload = None /\ key = "prompt_variants"%string)
       \/ (CreatePayload.prompt_variants payload <> None
           /\ CreatePayload.model_configs payload = None /\ key = "model_configs"%string)
       \/ (CreatePayload.prompt_variants payload <> None
           /\ CreatePayload.model_configs payload <> None
           /\ CreatePayload.traffic_allocation payload = None
           /\ key = "traffic_allocation"%string))
  /\ (ABTestControllerRest.create_test payload created_by test_id now st = KeyError key ->
      run_op (OpCreate payload created_by test_id now) st = st).
Proof.
  unfold run_op, ABTestControllerRest.create_test.
  destruct (CreatePayload.prompt_variants payload) as [pv|];
    [destruct (CreatePayload.model_configs payload) as [mc|];
     [destruct (CreatePayload.traffic_allocation payload) as [ta|]|]|]; simpl.
  - split; [|discriminate]. split; [discriminate|].
    intros [[? _]|[(_ & ? & _)|(_ & _ & ? & _)]]; discriminate.
  - split; [|reflexivity]. split.
    + intros [= <-]. right. right. repeat split; congruence.
    + intros [[? _]|[(_ & ? & _)|(_ & _ & _ & ->)]]; try discriminate. reflexivity.
  - split; [|reflexivity]. split.
    + intros [= <-]. right. left. repeat split; congruence.
    + intros [[? _]|[(_ & _ & ->)|(_ & ? & _)]]; try discriminate; [reflexivity|congruence].
  - split; [|reflexivity]. split.
    + intros [= <-]. left. split; reflexivity.
    + intros [[_ ->]|[(? & _)|(? & _)]]; [reflexivity|congruence|congruence].
Qed.

(** ** Refreshing the aggregates *)

(** X22. [aggregate_metrics] always recomputes from the results, whatever
    aggregates are stored: for a test stored under its own id, whenever
    [aggregate_metrics] returns after [record_result], a following
    [generate_report] returns too, and its report carries the entries just
    computed and counts every result, the new one included. *)
Theorem aggregation_refreshes_the_report (st st' : Storage.t) (test_id report_id : string)
    (now : Z) (test : ABTest.t) (r : TestResult.t) (aggregates : list AggregateMetrics.t) :
  Storage.tests st !! test_id = Some test ->
  ABTest.test_id test = test_id ->
  ABTestController.aggregate_metrics test_id (run_op (OpRecord test_id r) st)
  = Ok (aggregates, st') ->
  exists report st'',
    ABTestController.generate_report test_id report_id now st' = Ok (report, st'')
    /\ ABTestReport.variant_performance report = aggregates
    /\ OverallStats.total_runs (ABTestReport.overall_stats report)
       = (Py.len (ABTest.results test) + 1)%Z.
Proof.
  intros Hget Hid.
  rewrite (record_result_run st test_id r test Hget).
  set (result := TestResult.mk _ _ _ _ _ _ _ _ _ _ _ _ _ _ _ _ _ _).
  set (st1 := Storage.mk _ _ _).
  set (test1 := ABTestUpdate.append_result test result).
  intros Hrun.
  assert (Hget1 : Storage.tests st1 !! test_id = Some test1).
  { subst st1. simpl. rewrite Hid. apply lookup_insert_eq. }
  destruct (aggregate_metrics_run _ _ _ _ _ Hget1 Hrun) as [-> HF].
  assert (Hsum : Py.sum_int (map AggregateMetrics.total_runs aggregates)
                 = (Py.len (ABTest.results test) + 1)%Z).
  { replace (Py.len (ABTest.results test) + 1)%Z
      with (Py.len (List.filter (fun _ : TestResult.t => true) (ABTest.results test1)))
      by (rewrite filter_all; subst test1; simpl; rewrite len_app; reflexivity).
    apply (sum_over_results (fun _ => true)); [assumption|].
    intros v m rs agg Hagg.
    destruct (aggregate_group_inv _ _ _ _ Hagg) as (_ & _ & Htot & _).
    now rewrite filter_all. }
  assert (Hne : aggregates <> []).
  { intros ->.
    assert (0 <= Py.len (ABTest.results test))%Z by (unfold Py.len; lia).
    change (Py.sum_int (map AggregateMetrics.total_runs [])) with 0%Z in Hsum. lia. }
  assert (Hget2 : Storage.tests (with_aggregates st1 test1 aggregates) !! test_id
                  = Some (ABTest.set_aggregate_metrics test1 aggregates)).
  { unfold with_aggregates. simpl. rewrite Hid. apply lookup_insert_eq. }
  destruct (generate_report_stored _ test_id report_id now _ Hget2)
    as (w & os & _ & Hos & Hgen); [exact Hne|].
  cbn [ABTest.aggregate_metrics ABTest.set_aggregate_metrics] in Hos, Hgen.
  rewrite overall_stats_of_spec in Hos. apply Ok_inj in Hos. subst os.
  eexists _, _. split; [exact Hgen|].
  split; [reflexivity|]. exact Hsum.
Qed.

(** One more successful run recorded on the test with stale stored
    aggregates: after aggregating, the report counts 1 run and carries the
    fresh entry. *)
Lemma aggregation_refreshes_the_report_witness :
  Storage.tests Demo.ranked_store !! "t1"%string = Some Demo.ranked_test
  /\ ABTest.test_id Demo.ranked_test = "t1"%string
  /\ exists aggregates st',
       ABTestController.aggregate_metrics "t1"
         (run_op (OpRecord "t1" (Demo.run "v1" "m1" (Float64.of_int 100) "success" None))
                 Demo.ranked_store)
       = Ok (aggregates, st')
       /\ length aggregates = 1%nat
       /\ aggregates <> ABTest.aggregate_metrics Demo.ranked_test
       /\ exists report st'',
            ABTestController.generate_report "t1" "report-1" 7 st' = Ok (report, st'')
            /\ ABTestReport.variant_performance report = aggregates
            /\ OverallStats.total_runs (ABTestReport.overall_stats report)
               = (Py.len (ABTest.results Demo.ranked_test) + 1)%Z.
Proof.
  split; [reflexivity|]. split; [reflexivity|].
  eexists _, _. split; [vm_compute; reflexivity|].
  split; [reflexivity|].
  split; [intros H; apply (f_equal (@length _)) in H; discriminate H|].
  eapply (aggregation_refreshes_the_report Demo.ranked_store _ "t1" "report-1" 7
            Demo.ranked_test
            (Demo.run "v1" "m1" (Float64.of_int 100) "success" None));
    [reflexivity|reflexivity|vm_compute; reflexivity].
Defined.

(** ** Unknown test ids *)

(** X23. [start_test], [pause_test], [complete_test] and [record_result]
    raise exactly when the test id is unknown to the storage; they raise
    [NotFound] then and save nothing (no test is created by recording a
    result for it).  On a known id they succeed whatever the status of the
    test and whatever the recorded values are. *)
Theorem lifecycle_raises_only_on_unknown_test (st : Storage.t) (test_id : string) (now : Z)
    (r : TestResult.t) (e : exn) :
  (ABTestControllerRest.start_test test_id now st = Raise e
   <-> Storage.tests st !! test_id = None /\ e = NotFound)
  /\ (ABTestControllerRest.pause_test test_id st = Raise e
      <-> Storage.tests st !! test_id = None /\ e = NotFound)
  /\ (ABTestControllerRest.complete_test test_id now st = Raise e
      <-> Storage.tests st !! test_id = None /\ e = NotFound)
  /\ (ABTestControllerRest.record_result (TestResult.result_id r) (TestResult.timestamp r)
        test_id (TestResult.variant_id r) (TestResult.model_id r) (TestResult.input_data r)
        (TestResult.generated_output r) (TestResult.generation_time_ms r)
        (TestResult.total_tokens r) (TestResult.prompt_tokens r)
        (TestResult.completion_tokens r) (TestResult.cost_usd r) (TestResult.status r)
        (TestResult.error r) (TestResult.user_rating r) (TestResult.user_feedback r)
        (TestResult.auto_score r) (TestResult.comparison_winner r) st = Raise e
      <-> Storage.tests st !! test_id = None /\ e = NotFound)
  /\ (Storage.tests st !! test_id = None ->
      run_op (OpStart test_id now) st = st
      /\ run_op (OpPause test_id) st = st
      /\ run_op (OpComplete test_id now) st = st
      /\ run_op (OpRecord test_id r) st = st).
Proof.
  unfold run_op, state_after, ABTestControllerRest.start_test,
    ABTestControllerRest.pause_test, ABTestControllerRest.complete_test,
    ABTestControllerRest.record_result, bind, get_test, save_test, ret.
  destruct (Storage.tests st !! test_id) as [test|]; simpl.
  - repeat split; try discriminate; intros [? _]; discriminate.
  - repeat split; try congruence; intros [_ ->]; reflexivity.
Qed.
